(** * WFES: the Wright-Fisher exact solver driver [wfes] (src/wfes.c)

    A shallow embedding of the function [wfes] of src/wfes.c: the assembly
    of the extinction right-hand side, the four-phase protocol of the
    external direct solver [pardiso_64], the clamping of the two solved
    vectors and the reduction to the five scalar summaries.

    - A C [double] is a member of the signature [Double].  Two instances
      are given: [binary64], the IEEE 754 binary64 numbers of the machine
      (Rocq's primitive floats), and [exact], exact rational arithmetic
      extended with the IEEE special values (infinities and not-a-number),
      which is the reading of the program up to rounding error.
    - A [DKL_INT] is a [Z].  Every integer the function computes lies
      between -1 and [2 * population_size], so the 64-bit range is never
      left for a population whose vectors can be allocated.
    - The solver, [pow], [wf_sampling_coefficient], [wf_matrix_csr] and the
      contents of freshly allocated memory are external to src/wfes.c and are
      fields of an [environment].
    - Calls of the solver and text written to the standard output are
      recorded in a [world]; [exit] ends the run with a status.
    - The statements compiled only under [DEBUG] and the deallocations at
      the end of the function have no part in what follows and are left
      out.
    - For [population_size <= 0] the dimension [2 * population_size - 1] is
      negative: the loops do not run, and the size handed to [memcpy] at
      lines 180 and 202 is negative, which is undefined in C.  The model
      copies nothing there; what is stated of runs that get past line 180
      is meant for populations of at least one individual. *)

From Stdlib Require Import ZArith List Bool String Ascii Lia.
From Stdlib Require Import QArith Lqa.
From Stdlib Require Import Floats DecimalString.
Import ListNotations.

Local Open Scope Z_scope.

(* The literal 0.1 of the source is not a binary64 number; it denotes the
   nearest one, as in C. *)
#[local] Set Warnings "-inexact-float".

(* ================================================================== *)
(** ** The arithmetic of C doubles used by [wfes] *)

Class Double : Type := {
  double : Type;
  d_zero : double;                          (* 0.0 *)
  d_one : double;                           (* 1.0 *)
  d_tenth : double;                         (* 0.1 *)
  d_nan : double;                           (* NAN *)
  d_add : double -> double -> double;       (* x + y *)
  d_sub : double -> double -> double;       (* x - y *)
  d_mul : double -> double -> double;       (* x * y *)
  d_div : double -> double -> double;       (* x / y *)
  d_lt : double -> double -> bool;          (* x < y *)
  d_le : double -> double -> bool;          (* x <= y *)
  d_eq : double -> double -> bool;          (* x == y *)
  d_isnan : double -> bool;                 (* isnan(x) *)
  d_of_int : Z -> double;                   (* (double) i *)
  d_to_int : double -> Z                    (* (DKL_INT) x *)
}.

(** The facts about comparisons the guards of [wfes] rely on; they hold in
    both instances below. *)
Class DoubleLaws (D : Double) : Prop := {
  d_lt_zero_not_le : forall x, d_lt d_zero x = true -> d_le x d_zero = false;
  d_not_lt_zero_le : forall x,
    d_isnan x = false -> d_lt x d_zero = false -> d_le d_zero x = true;
  d_le_zero_zero : d_le d_zero d_zero = true;
  d_isnan_nan : d_isnan d_nan = true
}.

(* ------------------------------------------------------------------ *)
(** *** IEEE 754 binary64 *)

Module Binary64.

(** [(double) i]: the nearest binary64 number. *)
Definition of_int (i : Z) : float :=
  SF2Prim (binary_normalize prec emax i 0 false).

(** [(DKL_INT) x]: truncation toward zero (the conversion of a value that
    is not finite is undefined in C; 0 here). *)
Definition to_int (x : float) : Z :=
  match Prim2SF x with
  | S754_finite s m e =>
      let v := if 0 <=? e then Zpos m * 2 ^ e else Zpos m / 2 ^ (- e) in
      if s then - v else v
  | _ => 0
  end.

End Binary64.

Definition binary64 : Double := {|
  double := float;
  d_zero := 0%float;
  d_one := 1%float;
  d_tenth := 0.1%float;
  d_nan := nan;
  d_add := PrimFloat.add;
  d_sub := PrimFloat.sub;
  d_mul := PrimFloat.mul;
  d_div := PrimFloat.div;
  d_lt := PrimFloat.ltb;
  d_le := PrimFloat.leb;
  d_eq := PrimFloat.eqb;
  d_isnan := PrimFloat.is_nan;
  d_of_int := Binary64.of_int;
  d_to_int := Binary64.to_int
|}.

(* ------------------------------------------------------------------ *)
(** *** Exact arithmetic with the IEEE special values

    Finite values are rationals and no operation rounds.  The special
    values follow IEEE 754: an operation on not-a-number gives not-a-number,
    [0/0], [inf - inf], [0 * inf] and [inf / inf] are not-a-number, a nonzero
    value divided by zero is an infinity, and every comparison with
    not-a-number is false.  There is a single zero, which counts as
    positive. *)

Module Exact.

Inductive xnum : Type :=
| Fin (q : Q)
| Inf (negative : bool)
| NaN.

Definition Qneg (q : Q) : bool := (Qnum q <? 0)%Z.
Definition Qzero (q : Q) : bool := (Qnum q =? 0)%Z.
Definition Qltb (a b : Q) : bool := negb (Qle_bool b a).

Definition opp (x : xnum) : xnum :=
  match x with
  | Fin q => Fin (- q)
  | Inf s => Inf (negb s)
  | NaN => NaN
  end.

Definition add (x y : xnum) : xnum :=
  match x, y with
  | NaN, _ | _, NaN => NaN
  | Inf a, Inf b => if Bool.eqb a b then Inf a else NaN
  | Inf a, Fin _ => Inf a
  | Fin _, Inf b => Inf b
  | Fin a, Fin b => Fin (a + b)
  end.

Definition sub (x y : xnum) : xnum := add x (opp y).

Definition mul (x y : xnum) : xnum :=
  match x, y with
  | NaN, _ | _, NaN => NaN
  | Inf a, Inf b => Inf (xorb a b)
  | Inf a, Fin q | Fin q, Inf a =>
      if Qzero q then NaN else Inf (xorb a (Qneg q))
  | Fin a, Fin b => Fin (a * b)
  end.

Definition div (x y : xnum) : xnum :=
  match x, y with
  | NaN, _ | _, NaN => NaN
  | Inf _, Inf _ => NaN
  | Inf a, Fin q => Inf (xorb a (Qneg q))
  | Fin _, Inf _ => Fin 0
  | Fin a, Fin b =>
      if Qzero b then (if Qzero a then NaN else Inf (Qneg a))
      else Fin (a / b)
  end.

Definition ltb (x y : xnum) : bool :=
  match x, y with
  | NaN, _ | _, NaN => false
  | Inf a, Inf b => a && negb b
  | Inf a, Fin _ => a
  | Fin _, Inf b => negb b
  | Fin a, Fin b => Qltb a b
  end.

Definition leb (x y : xnum) : bool :=
  match x, y with
  | NaN, _ | _, NaN => false
  | Inf a, Inf b => a || negb b
  | Inf a, Fin _ => a
  | Fin _, Inf b => negb b
  | Fin a, Fin b => Qle_bool a b
  end.

Definition eqb (x y : xnum) : bool :=
  match x, y with
  | Fin a, Fin b => Qeq_bool a b
  | Inf a, Inf b => Bool.eqb a b
  | _, _ => false
  end.

Definition is_nan (x : xnum) : bool :=
  match x with NaN => true | _ => false end.

Definition is_finite (x : xnum) : bool :=
  match x with Fin _ => true | _ => false end.

Definition to_int (x : xnum) : Z :=
  match x with Fin q => Z.quot (Qnum q) (Zpos (Qden q)) | _ => 0 end.

(** The rational a finite value stands for. *)
Definition value (x : xnum) : Q :=
  match x with Fin q => q | _ => 0 end.

End Exact.

Definition exact : Double := {|
  double := Exact.xnum;
  d_zero := Exact.Fin 0;
  d_one := Exact.Fin 1;
  d_tenth := Exact.Fin (1 # 10);
  d_nan := Exact.NaN;
  d_add := Exact.add;
  d_sub := Exact.sub;
  d_mul := Exact.mul;
  d_div := Exact.div;
  d_lt := Exact.ltb;
  d_le := Exact.leb;
  d_eq := Exact.eqb;
  d_isnan := Exact.is_nan;
  d_of_int := fun i => Exact.Fin (inject_Z i);
  d_to_int := Exact.to_int
|}.

(* ================================================================== *)
(** ** Arrays, loops and formatted output *)

(** [a[i] = v]: a store inside the array; a store outside is undefined in C
    and leaves the list as it is. *)
Fixpoint upd {A : Type} (i : nat) (v : A) (a : list A) : list A :=
  match a, i with
  | [], _ => []
  | _ :: t, O => v :: t
  | x :: t, S j => x :: upd j v t
  end.

(** [memcpy(dst, src, n * sizeof *dst)]: the first [n] cells of [dst] are
    those of [src], the others are kept.  The count [wfes] passes is
    [Z.to_nat matrix_size]; a negative [matrix_size], which C converts to a
    huge unsigned size, is undefined in C and copies nothing here. *)
Definition memcpy {A : Type} (dst src : list A) (n : nat) : list A :=
  firstn n src ++ skipn n dst.

(** A callee that writes through a pointer to a buffer of ours: the cells it
    wrote replace ours, the buffer keeps its length. *)
Definition written {A : Type} (buffer out : list A) : list A :=
  firstn (List.length buffer) out ++ skipn (List.length out) buffer.

(** [for (i = start; i < start + count; i++) body] on the state [s]. *)
Fixpoint for_loop {S : Type} (count start : nat) (body : nat -> S -> S) (s : S) : S :=
  match count with
  | O => s
  | Datatypes.S k => for_loop k (Datatypes.S start) body (body start s)
  end.

(** The conversion [%" PRId64 "] of printf. *)
Definition PRId64 (i : Z) : string := NilZero.string_of_int (Z.to_int i).

(* ================================================================== *)
(** ** The data of the run

    The structures are parametrised by the type that stands for [double]. *)

Section Data.
Variable double : Type.

(** [wf_parameters] (declared in dkl.h): the fields [wfes] and [main] use. *)
Record wf_parameters : Type := {
  population_size : Z;
  selection : double;
  forward_mutation_rate : double;
  backward_mutation_rate : double;
  dominance_coefficient : double
}.

(** [wf_statistics] (declared in dkl.h): three vectors and five scalars. *)
Record wf_statistics : Type := {
  B1 : list double;
  B2 : list double;
  N : list double;
  probability_extinction : double;
  probability_fixation : double;
  time_extinction : double;
  time_fixation : double;
  count_before_extinction : double
}.

(** [csr_sparse_matrix] (declared in dkl.h). *)
Record csr_sparse_matrix : Type := {
  data : list double;
  cols : list Z;
  row_index : list Z
}.

(** The arguments of one call of [pardiso_64].  A pointer to one of the
    dummies [ddum] and [idum] is [None]. *)
Record pardiso_call : Type := {
  c_maxfct : Z;
  c_mnum : Z;
  c_mtype : Z;
  c_phase : Z;
  c_n : Z;
  c_a : option (list double);
  c_ia : list Z;
  c_ja : list Z;
  c_perm : option (list Z);
  c_nrhs : Z;
  c_iparm : list Z;
  c_msglvl : Z;
  c_b : option (list double);
  c_x : option (list double)
}.

(** What a call of [pardiso_64] leaves behind: its handle [pt], the
    control array, the two buffers and the status. *)
Record pardiso_ret (handle : Type) : Type := {
  r_pt : handle;
  r_iparm : list Z;
  r_b : list double;
  r_x : list double;
  r_error : Z
}.

(** One call of the solver as the run saw it: the handle and the arguments
    it was given, and what it left behind. *)
Record pardiso_event (handle : Type) : Type := {
  ev_pt : handle;
  ev_call : pardiso_call;
  ev_ret : pardiso_ret handle
}.

(** What a run leaves in the world: the calls of the solver and the pieces
    of text written to the standard output, oldest first. *)
Record world (handle : Type) : Type := {
  w_calls : list (pardiso_event handle);
  w_stdout : list string
}.

(** What [wfes] takes from outside src/wfes.c. *)
Record environment : Type := {
  handle : Type;
  pt_zero : handle;      (* the 64 null pointers of a fresh [pt] *)
  pardiso_64 : handle -> pardiso_call -> pardiso_ret handle;
  pow : double -> double -> double;
  wf_sampling_coefficient : wf_parameters -> Z -> double;
  wf_matrix_csr : wf_parameters -> Z -> double -> csr_sparse_matrix;
  uninitialised : nat -> double   (* the cells of a block of [dkl_alloc] *)
}.

End Data.

Arguments Build_wf_parameters {double}.
Arguments population_size {double}.
Arguments selection {double}.
Arguments forward_mutation_rate {double}.
Arguments backward_mutation_rate {double}.
Arguments dominance_coefficient {double}.
Arguments Build_wf_statistics {double}.
Arguments B1 {double}.
Arguments B2 {double}.
Arguments N {double}.
Arguments probability_extinction {double}.
Arguments probability_fixation {double}.
Arguments time_extinction {double}.
Arguments time_fixation {double}.
Arguments count_before_extinction {double}.
Arguments Build_csr_sparse_matrix {double}.
Arguments data {double}.
Arguments cols {double}.
Arguments row_index {double}.
Arguments Build_pardiso_call {double}.
Arguments c_maxfct {double}.
Arguments c_mnum {double}.
Arguments c_mtype {double}.
Arguments c_phase {double}.
Arguments c_n {double}.
Arguments c_a {double}.
Arguments c_ia {double}.
Arguments c_ja {double}.
Arguments c_perm {double}.
Arguments c_nrhs {double}.
Arguments c_iparm {double}.
Arguments c_msglvl {double}.
Arguments c_b {double}.
Arguments c_x {double}.
Arguments Build_pardiso_ret {double handle}.
Arguments r_pt {double handle}.
Arguments r_iparm {double handle}.
Arguments r_b {double handle}.
Arguments r_x {double handle}.
Arguments r_error {double handle}.
Arguments Build_pardiso_event {double handle}.
Arguments ev_pt {double handle}.
Arguments ev_call {double handle}.
Arguments ev_ret {double handle}.
Arguments Build_world {double handle}.
Arguments w_calls {double handle}.
Arguments w_stdout {double handle}.
Arguments Build_environment {double}.
Arguments handle {double}.
Arguments pt_zero {double}.
Arguments pardiso_64 {double}.
Arguments pow {double}.
Arguments wf_sampling_coefficient {double}.
Arguments wf_matrix_csr {double}.
Arguments uninitialised {double}.

(* ================================================================== *)
(** ** Processes: a run either returns or leaves through [exit] *)

Inductive outcome (A : Type) : Type :=
| Returned (a : A)
| Exited (status : Z).

Arguments Returned {A}.
Arguments Exited {A}.

Section Process.
Context {D : Double} {handle : Type}.

Definition world_start : world double handle := {| w_calls := []; w_stdout := [] |}.

Definition proc (A : Type) : Type := world double handle -> outcome A * world double handle.

Definition ret {A : Type} (a : A) : proc A := fun w => (Returned a, w).

Definition bind {A B : Type} (c : proc A) (k : A -> proc B) : proc B :=
  fun w =>
    match c w with
    | (Returned a, w') => k a w'
    | (Exited status, w') => (Exited status, w')
    end.

(** [exit(status)] *)
Definition exit {A : Type} (status : Z) : proc A := fun w => (Exited status, w).

(** [printf] and [println]: one more piece of text on the standard output. *)
Definition print (text : string) : proc unit :=
  fun w => (Returned tt, {| w_calls := w_calls w; w_stdout := w_stdout w ++ [text] |}).

(** A call of the solver [pardiso_64] on the handle [pt]. *)
Definition call_pardiso
  (pardiso_64 : handle -> (pardiso_call double) -> pardiso_ret double handle)
  (pt : handle) (c : pardiso_call double) : proc (pardiso_ret double handle) :=
  fun w =>
    let o := pardiso_64 pt c in
    (Returned o,
     {| w_calls := w_calls w ++ [{| ev_pt := pt; ev_call := c; ev_ret := o |}];
        w_stdout := w_stdout w |}).

End Process.

Arguments proc {D} handle A.

Declare Scope proc_scope.
Delimit Scope proc_scope with proc.
Notation "x <- c ;; k" := (bind c (fun x => k))
  (at level 61, c at next level, right associativity) : proc_scope.
Notation "c ;; k" := (bind c (fun _ => k))
  (at level 61, right associativity) : proc_scope.

(* ================================================================== *)
(** ** The function [wfes] *)

Section Wfes.
Context {D : Double}.
Variable env : environment double.

Local Open Scope proc_scope.

(** [a[i]] (a read outside the array is undefined in C; [0.0] here). *)
Definition get (a : list double) (i : nat) : double := nth i a d_zero.

(** [dkl_alloc(n, double)] *)
Definition dkl_alloc (n : Z) : list double :=
  map (uninitialised env) (seq 0 (Z.to_nat n)).

(** Stores into the fields of [*r]. *)
Definition set_B1 (v : list double) (r : wf_statistics double) : wf_statistics double :=
  {| B1 := v; B2 := B2 r; N := N r;
     probability_extinction := probability_extinction r;
     probability_fixation := probability_fixation r;
     time_extinction := time_extinction r;
     time_fixation := time_fixation r;
     count_before_extinction := count_before_extinction r |}.

Definition set_B2 (v : list double) (r : wf_statistics double) : wf_statistics double :=
  {| B1 := B1 r; B2 := v; N := N r;
     probability_extinction := probability_extinction r;
     probability_fixation := probability_fixation r;
     time_extinction := time_extinction r;
     time_fixation := time_fixation r;
     count_before_extinction := count_before_extinction r |}.

Definition set_N (v : list double) (r : wf_statistics double) : wf_statistics double :=
  {| B1 := B1 r; B2 := B2 r; N := v;
     probability_extinction := probability_extinction r;
     probability_fixation := probability_fixation r;
     time_extinction := time_extinction r;
     time_fixation := time_fixation r;
     count_before_extinction := count_before_extinction r |}.

Definition set_probability_extinction (v : double) (r : wf_statistics double)
  : wf_statistics double :=
  {| B1 := B1 r; B2 := B2 r; N := N r;
     probability_extinction := v;
     probability_fixation := probability_fixation r;
     time_extinction := time_extinction r;
     time_fixation := time_fixation r;
     count_before_extinction := count_before_extinction r |}.

Definition set_probability_fixation (v : double) (r : wf_statistics double)
  : wf_statistics double :=
  {| B1 := B1 r; B2 := B2 r; N := N r;
     probability_extinction := probability_extinction r;
     probability_fixation := v;
     time_extinction := time_extinction r;
     time_fixation := time_fixation r;
     count_before_extinction := count_before_extinction r |}.

Definition set_time_extinction (v : double) (r : wf_statistics double) : wf_statistics double :=
  {| B1 := B1 r; B2 := B2 r; N := N r;
     probability_extinction := probability_extinction r;
     probability_fixation := probability_fixation r;
     time_extinction := v;
     time_fixation := time_fixation r;
     count_before_extinction := count_before_extinction r |}.

Definition set_time_fixation (v : double) (r : wf_statistics double) : wf_statistics double :=
  {| B1 := B1 r; B2 := B2 r; N := N r;
     probability_extinction := probability_extinction r;
     probability_fixation := probability_fixation r;
     time_extinction := time_extinction r;
     time_fixation := v;
     count_before_extinction := count_before_extinction r |}.

Definition set_count_before_extinction (v : double) (r : wf_statistics double)
  : wf_statistics double :=
  {| B1 := B1 r; B2 := B2 r; N := N r;
     probability_extinction := probability_extinction r;
     probability_fixation := probability_fixation r;
     time_extinction := time_extinction r;
     time_fixation := time_fixation r;
     count_before_extinction := v |}.

(** Lines 58-63: the row-block size handed to [wf_matrix_csr]. *)
Definition block_size_of (matrix_size : Z) : Z :=
  if 100 <=? matrix_size
  then d_to_int (d_mul (d_of_int matrix_size) d_tenth)
  else matrix_size.

(** Lines 81-84: the right-hand side of the first solve. *)
Definition extinction_rhs (wf : wf_parameters double) (matrix_size : Z)
  (rhs : list double) : list double :=
  for_loop (Z.to_nat matrix_size) 0
    (fun i rhs =>
       let q := wf_sampling_coefficient env wf (Z.of_nat i + 1) in
       upd i (pow env (d_sub d_one q) (d_of_int (2 * population_size wf))) rhs)
    rhs.

(** Lines 87-113: the control parameters of the solver.  Every cell of the
    local array is stored before it is read. *)
Definition iparm_setup : list Z :=
  let iparm := for_loop 64 0 (fun i iparm => upd i 0 iparm) (repeat 0 64) in
  let iparm := upd 0 1 iparm in
  let iparm := upd 1 3 iparm in
  let iparm := upd 2 1 iparm in
  let iparm := upd 3 0 iparm in
  let iparm := upd 4 0 iparm in
  let iparm := upd 5 1 iparm in
  let iparm := upd 6 0 iparm in
  let iparm := upd 7 2 iparm in
  let iparm := upd 8 0 iparm in
  let iparm := upd 9 20 iparm in
  let iparm := upd 10 1 iparm in
  let iparm := upd 11 0 iparm in
  let iparm := upd 12 1 iparm in
  let iparm := upd 13 0 iparm in
  let iparm := upd 14 0 iparm in
  let iparm := upd 15 0 iparm in
  let iparm := upd 16 0 iparm in
  let iparm := upd 17 (-1) iparm in
  let iparm := upd 18 (-1) iparm in
  let iparm := upd 19 0 iparm in
  let iparm := upd 26 0 iparm in
  let iparm := upd 34 1 iparm in
  upd 59 1 iparm.

(** The argument list of [pardiso_64] as [wfes] writes it: [maxfct],
    [mnum], [mtype], [nrhs] and [msglvl] never change, and [perm] is always
    the dummy [idum]. *)
Definition pardiso_args (phase matrix_size : Z) (a : option (list double))
  (A : csr_sparse_matrix double) (iparm : list Z) (b x : option (list double))
  : pardiso_call double :=
  {| c_maxfct := 1; c_mnum := 1; c_mtype := 11; c_phase := phase;
     c_n := matrix_size; c_a := a; c_ia := row_index A; c_ja := cols A;
     c_perm := None; c_nrhs := 1; c_iparm := iparm; c_msglvl := 0;
     c_b := b; c_x := x |}.

(** Lines 181-186: clamp [B1] at zero and fill [B2]. *)
Definition clamp_B1_fill_B2 (matrix_size : Z) (r : wf_statistics double)
  : wf_statistics double :=
  for_loop (Z.to_nat matrix_size) 0
    (fun i r =>
       let r := if d_lt (get (B1 r) i) d_zero
                then set_B1 (upd i d_zero (B1 r)) r else r in
       set_B2 (upd i (d_sub d_one (get (B1 r) i)) (B2 r)) r)
    r.

(** Lines 190-193: the right-hand side of the second solve. *)
Definition sojourn_rhs (matrix_size : Z) (rhs : list double) : list double :=
  let rhs := upd 0 d_one rhs in
  for_loop (Z.to_nat (matrix_size - 1)) 1 (fun i rhs => upd i d_zero rhs) rhs.

(** Lines 203-207: clamp [N] at zero. *)
Definition clamp_N (matrix_size : Z) (r : wf_statistics double) : wf_statistics double :=
  for_loop (Z.to_nat matrix_size) 0
    (fun i r =>
       if d_lt (get (N r) i) d_zero then set_N (upd i d_zero (N r)) r else r)
    r.

(** Lines 216-220: the three sums, accumulated in the fields of [*r]. *)
Definition accumulate (matrix_size : Z) (r : wf_statistics double) : wf_statistics double :=
  for_loop (Z.to_nat matrix_size) 0
    (fun i r =>
       let r := set_time_extinction
                  (d_add (time_extinction r)
                     (d_mul (get (B1 r) i) (get (N r) i))) r in
       let r := set_time_fixation
                  (d_add (time_fixation r)
                     (d_mul (get (B2 r) i) (get (N r) i))) r in
       set_count_before_extinction
         (d_add (count_before_extinction r)
            (d_mul (d_mul (get (N r) i) (get (B1 r) i))
               (d_of_int (Z.of_nat i + 1)))) r)
    r.

(** Lines 221-237: the divisions and the two guards. *)
Definition normalise (r : wf_statistics double) : wf_statistics double :=
  let r := set_time_extinction (d_div (time_extinction r) (get (B1 r) 0)) r in
  let r := set_time_fixation (d_div (time_fixation r) (get (B2 r) 0)) r in
  let r := set_count_before_extinction
             (d_div (count_before_extinction r) (get (B1 r) 0)) r in
  let r := if d_le (get (B1 r) 0) d_zero
           then set_time_extinction d_nan (set_probability_extinction d_zero r)
           else set_probability_extinction (get (B1 r) 0) r in
  if d_le (get (B2 r) 0) d_zero
  then set_time_fixation d_nan (set_probability_fixation d_zero r)
  else set_probability_fixation (get (B2 r) 0) r.

(** [if (error != 0) { printf(message, error); exit(phase); }] *)
Definition fatal_unless_zero (error phase : Z) (message : string)
  : proc (handle env) unit :=
  if negb (error =? 0)
  then print (message ++ PRId64 error ++ String "010" "")%string ;; exit phase
  else ret tt.

(** [void wfes(wf_parameters *wf, wf_statistics *r, double zero_threshold)]:
    the run returns the final contents of [*r]. *)
Definition wfes (wf : wf_parameters double) (r : wf_statistics double)
  (zero_threshold : double) : proc (handle env) (wf_statistics double) :=
  let matrix_size := 2 * population_size wf - 1 in
  let rhs := dkl_alloc matrix_size in
  let workspace := dkl_alloc matrix_size in
  let block_size := block_size_of matrix_size in
  let A := wf_matrix_csr env wf block_size zero_threshold in
  let rhs := extinction_rhs wf matrix_size rhs in
  let iparm := iparm_setup in
  let pt := pt_zero env in
  (* Symbolic factorization *)
  let phase := 11 in
  o <- call_pardiso (pardiso_64 env) pt
         (pardiso_args phase matrix_size (Some (data A)) A iparm None None) ;;
  let pt := r_pt o in
  let iparm := written iparm (r_iparm o) in
  fatal_unless_zero (r_error o) phase "ERROR during symbolic factorization: "%string ;;
  (* Numeric factorization *)
  let phase := 22 in
  o <- call_pardiso (pardiso_64 env) pt
         (pardiso_args phase matrix_size (Some (data A)) A iparm None None) ;;
  let pt := r_pt o in
  let iparm := written iparm (r_iparm o) in
  fatal_unless_zero (r_error o) phase "ERROR during numeric factorization: "%string ;;
  (* Solution *)
  let phase := 33 in
  let iparm := upd 11 0 iparm in
  o <- call_pardiso (pardiso_64 env) pt
         (pardiso_args phase matrix_size (Some (data A)) A iparm
            (Some rhs) (Some workspace)) ;;
  let pt := r_pt o in
  let iparm := written iparm (r_iparm o) in
  let rhs := written rhs (r_b o) in
  let workspace := written workspace (r_x o) in
  fatal_unless_zero (r_error o) phase "ERROR during solution: "%string ;;
  let r := set_B1 (memcpy (B1 r) rhs (Z.to_nat matrix_size)) r in
  let r := clamp_B1_fill_B2 matrix_size r in
  print ("Solution successful!" ++ String "010" "")%string ;;
  let rhs := sojourn_rhs matrix_size rhs in
  let iparm := upd 11 2 iparm in
  o <- call_pardiso (pardiso_64 env) pt
         (pardiso_args phase matrix_size (Some (data A)) A iparm
            (Some rhs) (Some workspace)) ;;
  let pt := r_pt o in
  let iparm := written iparm (r_iparm o) in
  let rhs := written rhs (r_b o) in
  let workspace := written workspace (r_x o) in
  fatal_unless_zero (r_error o) phase "ERROR during solution: "%string ;;
  let r := set_N (memcpy (N r) rhs (Z.to_nat matrix_size)) r in
  let r := clamp_N matrix_size r in
  (* Calculate the summary statistics *)
  let r := accumulate matrix_size r in
  let r := normalise r in
  (* Memory release *)
  let phase := -1 in
  _ <- call_pardiso (pardiso_64 env) pt
         (pardiso_args phase matrix_size None A iparm None None) ;;
  ret r.

End Wfes.

(* ================================================================== *)
(** ** The stages of a run, named

    The values [wfes] passes from one statement to the next, in the order of
    the source.  Lemma [wfes_run] below shows that a run of [wfes] is made of
    exactly these. *)

Section Stages.
Context {D : Double}.
Variable env : environment double.
Variable wf : wf_parameters double.
Variable r : wf_statistics double.
Variable zero_threshold : double.

Definition matrix_size : Z := 2 * population_size wf - 1.

Definition matrix : csr_sparse_matrix double :=
  wf_matrix_csr env wf (block_size_of matrix_size) zero_threshold.

Definition event_of (pt : handle env) (c : pardiso_call double)
  : pardiso_event double (handle env) :=
  {| ev_pt := pt; ev_call := c; ev_ret := pardiso_64 env pt c |}.

(** Phase 11. *)
Definition analyze_event : pardiso_event double (handle env) :=
  event_of (pt_zero env)
    (pardiso_args 11 matrix_size (Some (data matrix)) matrix iparm_setup None None).

Definition iparm_analyzed : list Z :=
  written iparm_setup (r_iparm (ev_ret analyze_event)).

(** Phase 22. *)
Definition factorize_event : pardiso_event double (handle env) :=
  event_of (r_pt (ev_ret analyze_event))
    (pardiso_args 22 matrix_size (Some (data matrix)) matrix iparm_analyzed None None).

Definition iparm_factorized : list Z :=
  written iparm_analyzed (r_iparm (ev_ret factorize_event)).

(** Phase 33, first solve. *)
Definition rhs_extinction : list double :=
  extinction_rhs env wf matrix_size (dkl_alloc env matrix_size).

Definition forward_event : pardiso_event double (handle env) :=
  event_of (r_pt (ev_ret factorize_event))
    (pardiso_args 33 matrix_size (Some (data matrix)) matrix
       (upd 11 0 iparm_factorized)
       (Some rhs_extinction) (Some (dkl_alloc env matrix_size))).

Definition iparm_forward : list Z :=
  written (upd 11 0 iparm_factorized) (r_iparm (ev_ret forward_event)).

(** The buffer [rhs] after the first solve: the raw extinction vector. *)
Definition forward_solution : list double :=
  written rhs_extinction (r_b (ev_ret forward_event)).

Definition workspace_forward : list double :=
  written (dkl_alloc env matrix_size) (r_x (ev_ret forward_event)).

Definition r_forward : wf_statistics double :=
  clamp_B1_fill_B2 matrix_size
    (set_B1 (memcpy (B1 r) forward_solution (Z.to_nat matrix_size)) r).

(** Phase 33, second solve. *)
Definition rhs_sojourn : list double := sojourn_rhs matrix_size forward_solution.

Definition transpose_event : pardiso_event double (handle env) :=
  event_of (r_pt (ev_ret forward_event))
    (pardiso_args 33 matrix_size (Some (data matrix)) matrix
       (upd 11 2 iparm_forward)
       (Some rhs_sojourn) (Some workspace_forward)).

Definition iparm_transpose : list Z :=
  written (upd 11 2 iparm_forward) (r_iparm (ev_ret transpose_event)).

(** The buffer [rhs] after the second solve: the raw sojourn vector. *)
Definition transpose_solution : list double :=
  written rhs_sojourn (r_b (ev_ret transpose_event)).

(** [*r] before the summary statistics, and at the end. *)
Definition r_solved : wf_statistics double :=
  clamp_N matrix_size
    (set_N (memcpy (N r_forward) transpose_solution (Z.to_nat matrix_size)) r_forward).

Definition r_final : wf_statistics double := normalise (accumulate matrix_size r_solved).

(** Phase -1. *)
Definition release_event : pardiso_event double (handle env) :=
  event_of (r_pt (ev_ret transpose_event))
    (pardiso_args (-1) matrix_size None matrix iparm_transpose None None).

(** The status an event reports. *)
Definition ev_error {handle : Type} (e : pardiso_event double handle) : Z := r_error (ev_ret e).

(** The text [wfes] prints before it leaves with [phase]. *)
Definition fatal_text (phase : Z) : string :=
  if phase =? 11 then "ERROR during symbolic factorization: "%string
  else if phase =? 22 then "ERROR during numeric factorization: "%string
  else "ERROR during solution: "%string.

Definition fatal_message (phase error : Z) : string :=
  (fatal_text phase ++ PRId64 error ++ String "010" "")%string.

Definition solution_successful : string :=
  ("Solution successful!" ++ String "010" "")%string.

(** The five ways a run can go, in terms of the stages. *)
Definition wfes_stages : outcome (wf_statistics double) * world double (handle env) :=
  if negb (ev_error analyze_event =? 0) then
    (Exited 11,
     {| w_calls := [analyze_event];
        w_stdout := [fatal_message 11 (ev_error analyze_event)] |})
  else if negb (ev_error factorize_event =? 0) then
    (Exited 22,
     {| w_calls := [analyze_event; factorize_event];
        w_stdout := [fatal_message 22 (ev_error factorize_event)] |})
  else if negb (ev_error forward_event =? 0) then
    (Exited 33,
     {| w_calls := [analyze_event; factorize_event; forward_event];
        w_stdout := [fatal_message 33 (ev_error forward_event)] |})
  else if negb (ev_error transpose_event =? 0) then
    (Exited 33,
     {| w_calls := [analyze_event; factorize_event; forward_event;
                    transpose_event];
        w_stdout := [solution_successful;
                     fatal_message 33 (ev_error transpose_event)] |})
  else
    (Returned r_final,
     {| w_calls := [analyze_event; factorize_event; forward_event;
                    transpose_event; release_event];
        w_stdout := [solution_successful] |}).

End Stages.

(* ================================================================== *)
(** ** The vocabulary of the specification *)

Section Vocabulary.
Context {D : Double}.

(** [sum_upto n f] is the sum of [f 0], ..., [f (n-1)], taken in this
    order from [0.0]. *)
Definition sum_upto (n : nat) (f : nat -> double) : double :=
  fold_left (fun acc i => d_add acc (f i)) (seq 0 n) d_zero.

(** The same sum continued from [start]. *)
Definition sum_from (start : double) (n : nat) (f : nat -> double) : double :=
  fold_left (fun acc i => d_add acc (f i)) (seq 0 n) start.

(** A negative entry is replaced by [0.0]. *)
Definition clamp (x : double) : double := if d_lt x d_zero then d_zero else x.

(** [x] lies in the interval [[0, 1]]. *)
Definition in_unit_interval (x : double) : bool := d_le d_zero x && d_le x d_one.

(** The three terms of the summary statistics at index [i]. *)
Definition extinction_term (r : wf_statistics double) (i : nat) : double :=
  d_mul (get (B1 r) i) (get (N r) i).

Definition fixation_term (r : wf_statistics double) (i : nat) : double :=
  d_mul (get (B2 r) i) (get (N r) i).

Definition count_term (r : wf_statistics double) (i : nat) : double :=
  d_mul (d_mul (get (N r) i) (get (B1 r) i)) (d_of_int (Z.of_nat i + 1)).

(** The phases of the solver calls of a world, oldest first. *)
Definition phases {handle : Type} (w : world double handle) : list Z :=
  map (fun e => c_phase (ev_call e)) (w_calls w).

(** How many calls of a world ran under [phase]. *)
Definition invocations {handle : Type} (phase : Z) (w : world double handle) : nat :=
  count_occ Z.eq_dec (phases w) phase.

(** The solve mode of a call: [iparm[11]]. *)
Definition mode (c : pardiso_call double) : Z := nth 11 (c_iparm c) 0.

(** The unit vector of length [n] with [1.0] at index 0. *)
Definition unit_vector (n : nat) : list double :=
  match n with
  | O => []
  | S k => d_one :: repeat d_zero k
  end.

(** The scalar fields of [*r]. *)
Definition scalars (r : wf_statistics double) : double * double * double * double * double :=
  (probability_extinction r, probability_fixation r,
   time_extinction r, time_fixation r, count_before_extinction r).

(** [start <= j < start + count] *)
Definition in_range (start count j : nat) : bool :=
  (start <=? j)%nat && (j <? start + count)%nat.


(** The right-hand side of the extinction system: [(1 - q_i)^(2N)] at index
    [i], where [q_i] is the sampling coefficient of [i + 1] copies. *)
Definition extinction_vector (env : environment double) (wf : wf_parameters double)
  : list double :=
  map (fun i =>
         pow env (d_sub d_one (wf_sampling_coefficient env wf (Z.of_nat i + 1)))
           (d_of_int (2 * population_size wf)))
    (seq 0 (Z.to_nat (2 * population_size wf - 1))).


(** Release has been invoked exactly once. *)
Definition released_once {handle : Type} (w : world double handle) : Prop :=
  invocations (-1) w = 1%nat.


(** [actual] is [documented] plus [entry / divisor], and differs from
    [documented] unless [entry] is zero. *)
Definition offset_by (actual documented entry divisor : double) : Prop :=
  d_eq actual (d_add documented (d_div entry divisor)) = true /\
  (d_eq entry d_zero = false -> d_eq actual documented = false).

(** The three vectors of [r] are what the two solves left in the buffer
    [rhs]: for every state [i], [B1[i]] is the entry of the first solve with
    a negative value replaced by zero, [B2[i]] is [1.0 - B1[i]], and [N[i]]
    is the entry of the second solve, clamped the same way. *)
Definition vectors_from_solves (env : environment double) (wf : wf_parameters double)
  (zero_threshold : double) (r : wf_statistics double) : Prop :=
  forall i, (i < Z.to_nat (2 * population_size wf - 1))%nat ->
    get (B1 r) i = clamp (get (forward_solution env wf zero_threshold) i) /\
    get (B2 r) i = d_sub d_one (get (B1 r) i) /\
    get (N r) i = clamp (get (transpose_solution env wf zero_threshold) i).

(** The conditional absorption times of section 4.4 of the specification,
    for [n] states: each time is the sum of the products divided by entry 0
    of its vector when that entry is positive, and not-a-number, with a zero
    probability, when it is not. *)
Definition absorption_times (r : wf_statistics double) (n : nat) : Prop :=
  (d_lt d_zero (get (B1 r) 0) = true ->
     time_extinction r = d_div (sum_upto n (extinction_term r)) (get (B1 r) 0)) /\
  (d_le (get (B1 r) 0) d_zero = true ->
     probability_extinction r = d_zero /\ d_isnan (time_extinction r) = true) /\
  (d_lt d_zero (get (B2 r) 0) = true ->
     time_fixation r = d_div (sum_upto n (fixation_term r)) (get (B2 r) 0)) /\
  (d_le (get (B2 r) 0) d_zero = true ->
     probability_fixation r = d_zero /\ d_isnan (time_fixation r) = true).


(** The three sums of [r], continued from the values [r0] held at entry
    and divided: the count always, each time when entry 0 of its vector is
    positive. *)
Definition sums_continued (r0 r : wf_statistics double) (n : nat) : Prop :=
  count_before_extinction r
    = d_div (sum_from (count_before_extinction r0) n (count_term r)) (get (B1 r) 0) /\
  (d_lt d_zero (get (B1 r) 0) = true ->
     time_extinction r
       = d_div (sum_from (time_extinction r0) n (extinction_term r)) (get (B1 r) 0)) /\
  (d_lt d_zero (get (B2 r) 0) = true ->
     time_fixation r
       = d_div (sum_from (time_fixation r0) n (fixation_term r)) (get (B2 r) 0)).

(** The matrix every call of the solver in [w] is given is [A]: its index
    arrays always, its values in every phase but Release, which is handed a
    dummy. *)
Definition solver_given_matrix {handle : Type} (A : csr_sparse_matrix double)
  (w : world double handle) : Prop :=
  w_calls w <> [] /\
  forall e, In e (w_calls w) ->
    c_ia (ev_call e) = row_index A /\
    c_ja (ev_call e) = cols A /\
    (c_phase (ev_call e) <> -1 -> c_a (ev_call e) = Some (data A)).


End Vocabulary.

(* ================================================================== *)
(** ** The matrix builder

    [wf_matrix_csr] is declared in dkl.h and its body is not part of src/;
    this section follows section 4.2 of the specification. *)

Section MatrixBuilder.
Context {D : Double}.

(** [wf_sampling_coefficient] *)
Variable sampling : wf_parameters double -> Z -> double.

(** The probability mass of Binomial(n, q) at k. *)
Variable binomial : Z -> double -> Z -> double.

(** Modelled from the spec: [Q[i][j]] is the mass of Binomial(2N, q_i) at the
    [j+1] copies of column [j], where [q_i] is the sampling coefficient of
    the [i+1] copies of row [i]. *)
Definition transition (wf : wf_parameters double) (i j : nat) : double :=
  binomial (2 * population_size wf) (sampling wf (Z.of_nat i + 1)) (Z.of_nat j + 1).

(** Modelled from the spec: the magnitude of an entry. *)
Definition magnitude (x : double) : double :=
  if d_lt x d_zero then d_sub d_zero x else x.

(** Modelled from the spec: row [i] of [I - Q] as pairs of a column and a
    value, columns ascending: the diagonal always, another entry only when
    its magnitude exceeds the threshold. *)
Definition row_entries (wf : wf_parameters double) (zero_threshold : double) (i : nat)
  : list (Z * double) :=
  flat_map
    (fun j =>
       let q := transition wf i j in
       if (i =? j)%nat then [(Z.of_nat j, d_sub d_one q)]
       else if d_lt zero_threshold (magnitude q) then [(Z.of_nat j, d_sub d_zero q)]
       else [])
    (seq 0 (Z.to_nat (2 * population_size wf - 1))).

(** Modelled from the spec: the matrix without rows, and a matrix with one
    more row. *)
Definition csr_empty : csr_sparse_matrix double :=
  {| data := []; cols := []; row_index := [0] |}.

Definition csr_append_row (A : csr_sparse_matrix double) (entries : list (Z * double))
  : csr_sparse_matrix double :=
  {| data := data A ++ map snd entries;
     cols := cols A ++ map fst entries;
     row_index := row_index A ++ [last (row_index A) 0 + Z.of_nat (List.length entries)] |}.

(** Modelled from the spec: the rows [start], ..., [start + count - 1],
    appended in this order. *)
Definition assemble_rows (wf : wf_parameters double) (zero_threshold : double)
  (count start : nat) (A : csr_sparse_matrix double) : csr_sparse_matrix double :=
  for_loop count start (fun i A => csr_append_row A (row_entries wf zero_threshold i)) A.

(** Modelled from the spec: the rows are processed in blocks, one block of
    at most [block_size] rows per round, from row [start] on.  [rounds]
    bounds the number of rounds; [n] of them are enough when [block_size] is
    positive. *)
Fixpoint assemble_blocks (wf : wf_parameters double) (zero_threshold : double)
  (rounds n block_size start : nat) (A : csr_sparse_matrix double) : csr_sparse_matrix double :=
  match rounds with
  | O => A
  | S rounds' =>
      if (start <? n)%nat
      then
        let count := Nat.min block_size (n - start) in
        assemble_blocks wf zero_threshold rounds' n block_size (start + count)
          (assemble_rows wf zero_threshold count start A)
      else A
  end.

(** Modelled from the spec: [wf_matrix_csr], whose body is not part of
    src/.  The matrix is [I - Q] over the [2N - 1] transient states in
    compressed sparse row form, an entry off the diagonal is kept only if
    its magnitude exceeds the zero threshold, the diagonal [1 - Q[i][i]] is
    always kept, and the rows are processed in blocks of [block_size]. *)
Definition wf_matrix_csr_model (wf : wf_parameters double) (block_size : Z)
  (zero_threshold : double) : csr_sparse_matrix double :=
  let n := Z.to_nat (2 * population_size wf - 1) in
  assemble_blocks wf zero_threshold n n (Z.to_nat block_size) 0 csr_empty.

End MatrixBuilder.

(** The block size the specification describes for a matrix of [m] rows:
    the integer part of 10% of [m] once [m] exceeds 100, else [m]. *)
Definition block_size_rule (m : Z) : Z := if 100 <? m then m / 10 else m.

(** The environment [env] with the block size its matrix builder is given
    replaced by [block_size]. *)
Definition with_block_size {D : Double} (block_size : Z) (env : environment double)
  : environment double :=
  {| handle := handle env;
     pt_zero := pt_zero env;
     pardiso_64 := pardiso_64 env;
     pow := pow env;
     wf_sampling_coefficient := wf_sampling_coefficient env;
     wf_matrix_csr := fun wf _ zero_threshold => wf_matrix_csr env wf block_size zero_threshold;
     uninitialised := uninitialised env |}.

(* ================================================================== *)
(** ** Concrete environments *)

Module Example.
Section Example.
Context {D : Double}.

(** [x] to the power [(DKL_INT) y], by repeated multiplication. *)
Definition pow_int (x y : double) : double :=
  for_loop (Z.to_nat (d_to_int y)) 0 (fun _ acc => d_mul acc x) d_one.

(** The neutral model without mutation: [i] copies out of [2N]. *)
Definition neutral (wf : wf_parameters double) (i : Z) : double :=
  d_div (d_of_int i) (d_of_int (2 * population_size wf)).

Fixpoint choose (n k : nat) : Z :=
  match n, k with
  | _, O => 1
  | O, S _ => 0
  | S n', S k' => choose n' k' + choose n' k
  end.

Definition binomial_pmf (n : Z) (q : double) (k : Z) : double :=
  d_mul (d_of_int (choose (Z.to_nat n) (Z.to_nat k)))
    (d_mul (pow_int q (d_of_int k)) (pow_int (d_sub d_one q) (d_of_int (n - k)))).

(** A solver that plays a script.  Its handle counts the calls made so
    far; call number [k] reports the status of entry [k] of the script
    and writes the vector of entry [k] over the right-hand side. *)
Definition scripted (script : list (Z * list double)) (pt : nat) (c : pardiso_call double)
  : pardiso_ret double nat :=
  let '(error, b) := nth pt script (0, []) in
  {| r_pt := S pt; r_iparm := c_iparm c; r_b := b; r_x := []; r_error := error |}.

Definition environment_of (script : list (Z * list double)) : environment double :=
  {| handle := nat;
     pt_zero := O;
     pardiso_64 := scripted script;
     pow := pow_int;
     wf_sampling_coefficient := neutral;
     wf_matrix_csr := wf_matrix_csr_model neutral binomial_pmf;
     uninitialised := fun _ => d_zero |}.

(** A population of two diploid individuals: three transient states. *)
Definition wf2 : wf_parameters double :=
  {| population_size := 2;
     selection := d_zero;
     forward_mutation_rate := d_zero;
     backward_mutation_rate := d_zero;
     dominance_coefficient := d_one |}.

(** A results structure for [n] states with every cell zero. *)
Definition statistics_zero (n : nat) : wf_statistics double :=
  {| B1 := repeat d_zero n; B2 := repeat d_zero n; N := repeat d_zero n;
     probability_extinction := d_zero;
     probability_fixation := d_zero;
     time_extinction := d_zero;
     time_fixation := d_zero;
     count_before_extinction := d_zero |}.

(** A results structure for [n] states whose three accumulators hold
    [te], [tf] and [c] and whose other cells are zero. *)
Definition statistics_holding (n : nat) (te tf c : double) : wf_statistics double :=
  {| B1 := repeat d_zero n; B2 := repeat d_zero n; N := repeat d_zero n;
     probability_extinction := d_zero;
     probability_fixation := d_zero;
     time_extinction := te;
     time_fixation := tf;
     count_before_extinction := c |}.

(** [a / b] *)
Definition ratio (a b : Z) : double := d_div (d_of_int a) (d_of_int b).

(** The script of a solver that succeeds in every phase and leaves
    [forward] after the first solve and [transpose] after the second. *)
Definition answers (forward transpose : list double) : list (Z * list double) :=
  [(0, []); (0, []); (0, forward); (0, transpose); (0, [])].

(** The script of a solver whose call number [k] reports [error]. *)
Definition fails_at (k : nat) (error : Z) (forward transpose : list double)
  : list (Z * list double) :=
  upd k (error, []) (answers forward transpose).

(** The solutions of the two systems for [wf2]: the extinction
    probabilities [3/4, 1/2, 1/4] and the sojourn times
    [316/145, 27/29, 84/145]. *)
Definition extinction2 : list double := [ratio 3 4; ratio 1 2; ratio 1 4].
Definition sojourn2 : list double := [ratio 316 145; ratio 27 29; ratio 84 145].

Definition env_neutral2 : environment double := environment_of (answers extinction2 sojourn2).

(** The same system on a solver whose call number [k] reports [error]. *)
Definition env_failing (k : nat) (error : Z) : environment double :=
  environment_of (fails_at k error extinction2 sojourn2).

(** A forward solve whose first entry overshoots 1: [3/2, 1/2, 1/4]. *)
Definition env_overshoot : environment double :=
  environment_of (answers [ratio 3 2; ratio 1 2; ratio 1 4] sojourn2).

(** A forward solve whose first entry undershoots 0 while the second is
    positive: [-2^-60, 2^-60, 0], with the sojourn times [1, 1/2, 1/4]. *)
Definition env_undershoot : environment double :=
  environment_of
    (answers [ratio (-1) (2 ^ 60); ratio 1 (2 ^ 60); d_zero]
       [d_one; ratio 1 2; ratio 1 4]).



End Example.
End Example.

(* ================================================================== *)
(** ** More vocabulary for the runs of [wfes] *)

(** Three more facts about comparisons, with zero and with not-a-number;
    they hold in both arithmetics. *)
Class DoubleOrder (D : Double) : Prop := {
  d_not_le_zero_not_lt : forall x, d_le x d_zero = false -> d_lt x d_zero = false;
  d_zero_not_lt_zero : d_lt d_zero d_zero = false;
  d_not_lt_nan : forall x, d_lt x d_nan = false
}.

Section MoreVocabulary.
Context {D : Double}.

(** Every call of [events] is made on the handle the call before it left,
    the first one on [pt]. *)
Fixpoint chained {handle : Type} (pt : handle) (events : list (pardiso_event double handle))
  : Prop :=
  match events with
  | [] => True
  | e :: rest => ev_pt e = pt /\ chained (r_pt (ev_ret e)) rest
  end.

(** The phases of a complete run, in order. *)
Definition phase_order : list Z := [11; 22; 33; 33; -1].

(** All the events of a list but the last. *)
Definition all_but_last {A : Type} (l : list A) : list A := removelast l.

(** [x + y == 1] *)
Definition sums_to_one (x y : double) : bool := d_eq (d_add x y) d_one.

End MoreVocabulary.

(** The neutral two-individual system on a solver whose Release reports
    [error]. *)
Definition env_release_failing {D : Double} (error : Z) : environment double :=
  Example.env_failing 4 error.

(* ================================================================== *)
(** ** The program: [print_help] and [main] (src/wfes.c, lines 4-12 and
    265-362)

    [main] reads the command line through the functions [dkl_args_parse_*]
    of dkl.h, whose bodies are not part of src/: a run of [main] is modelled
    from the values those calls return, which are the fields of
    [arguments].  The exit statuses [DKL_HELP_EXIT] and [DKL_PARAM_ERROR],
    the constructor [wf_statistics_new], the conversion [%g] of printf and
    the answer of [fopen] are external too, and are the fields of a
    [system]. *)

(** The two floating-point literals of [main]. *)
Class DoubleLiterals (D : Double) : Type := {
  d_two : double;                           (* 2.0 *)
  d_1e_30 : double                          (* 1e-30 *)
}.

Definition binary64_literals : DoubleLiterals binary64 :=
  Build_DoubleLiterals binary64 2%float 1e-30%float.

Definition exact_literals : DoubleLiterals exact :=
  Build_DoubleLiterals exact (Exact.Fin 2) (Exact.Fin (1 # 10 ^ 30)).

Definition newline : string := String "010" "".

Section MainData.
Variable double : Type.

(** What the calls of [dkl_args_parse_*] return, in the order of the
    source. *)
Record arguments : Type := {
  arg_help : bool;
  arg_population_size : Z;
  arg_selection : double;
  arg_forward_mutation_rate : double;
  arg_backward_mutation_rate : double;
  arg_dominance_coefficient : double;
  arg_zero_threshold : double;
  (* [dkl_errno == DKL_OPTION_NOT_FOUND] after the parse of the threshold *)
  arg_zero_threshold_not_found : bool;
  (* a null pointer is [None] *)
  arg_generations_file : option string;
  arg_extinction_file : option string;
  arg_fixation_file : option string;
  arg_force : bool
}.

(** What [main] takes from outside src/wfes.c, the solver's environment
    apart. *)
Record system : Type := {
  DKL_HELP_EXIT : Z;
  DKL_PARAM_ERROR : Z;
  wf_statistics_new : Z -> wf_statistics double;
  format_g : double -> string;       (* the conversion [%g] *)
  fopen_w : string -> bool           (* [fopen(name, "w") != NULL] *)
}.

(** What a run of [main] leaves behind: the world of [wfes], the messages
    handed to [error_print], and the files opened for writing with the text
    written to each before it was closed, oldest first. *)
Record main_world (handle : Type) : Type := {
  m_world : world double handle;
  m_errors : list string;
  m_files : list (string * string)
}.

End MainData.

Arguments Build_arguments {double}.
Arguments arg_help {double}.
Arguments arg_population_size {double}.
Arguments arg_selection {double}.
Arguments arg_forward_mutation_rate {double}.
Arguments arg_backward_mutation_rate {double}.
Arguments arg_dominance_coefficient {double}.
Arguments arg_zero_threshold {double}.
Arguments arg_zero_threshold_not_found {double}.
Arguments arg_generations_file {double}.
Arguments arg_extinction_file {double}.
Arguments arg_fixation_file {double}.
Arguments arg_force {double}.
Arguments Build_system {double}.
Arguments DKL_HELP_EXIT {double}.
Arguments DKL_PARAM_ERROR {double}.
Arguments wf_statistics_new {double}.
Arguments format_g {double}.
Arguments fopen_w {double}.
Arguments Build_main_world {double handle}.
Arguments m_world {double handle}.
Arguments m_errors {double handle}.
Arguments m_files {double handle}.

Section MainProcess.
Context {D : Double} {handle : Type}.

Definition main_start : main_world double handle :=
  {| m_world := world_start; m_errors := []; m_files := [] |}.

Definition main_proc (A : Type) : Type :=
  main_world double handle -> outcome A * main_world double handle.

Definition main_ret {A : Type} (a : A) : main_proc A := fun s => (Returned a, s).

Definition main_bind {A B : Type} (c : main_proc A) (k : A -> main_proc B) : main_proc B :=
  fun s =>
    match c s with
    | (Returned a, s') => k a s'
    | (Exited status, s') => (Exited status, s')
    end.

(** A process of [wfes] run inside [main]. *)
Definition lift {A : Type} (c : proc handle A) : main_proc A :=
  fun s =>
    let '(o, w) := c (m_world s) in
    (o, {| m_world := w; m_errors := m_errors s; m_files := m_files s |}).

(** [println(text)] *)
Definition println (text : string) : main_proc unit := lift (print (text ++ newline)).

(** [error_print(text)] *)
Definition error_print (text : string) : main_proc unit :=
  fun s =>
    (Returned tt,
     {| m_world := m_world s; m_errors := m_errors s ++ [text]; m_files := m_files s |}).

(** [f = fopen(name, "w")] answered, the calls of [fprintf(f, ...)] that
    write [text], and [fclose(f)]. *)
Definition write_file (name text : string) : main_proc unit :=
  fun s =>
    (Returned tt,
     {| m_world := m_world s; m_errors := m_errors s;
        m_files := m_files s ++ [(name, text)] |}).

(** [void print_help()] *)
Definition help_text : string :=
  ("WFES: Wright-Fisher model solver" ++ newline ++
   "USAGE:" ++ newline ++
   "-N, --population_size:        Population size" ++ newline ++
   "-s, --selection_coefficient:  Selection coefficient" ++ newline ++
   "-u, --forward_mutation_rate:  Mutation rate from a to A" ++ newline ++
   "-v, --backward_mutation_rate: Mutation rate from A to a" ++ newline ++
   "-d, --dominance_coefficient:  Proportion of selection Aa recieves" ++ newline)%string.

Definition print_help : main_proc unit := lift (print help_text).

End MainProcess.

Arguments main_proc {D} handle A.

Declare Scope main_scope.
Delimit Scope main_scope with main.
Notation "x <- c ;; k" := (main_bind c (fun x => k)) : main_scope.
Notation "c ;; k" := (main_bind c (fun _ => k)) : main_scope.

Section Main.
Context {D : Double} {L : DoubleLiterals D}.
Variable sys : system double.
Variable env : environment double.

Local Open Scope main_scope.

(** The text the loop and the last [fprintf] of lines 330-333 (and of the
    two blocks after it) write: every entry but the last followed by a
    comma, the last by a newline. *)
Definition vector_text (v : list double) (matrix_size : Z) : string :=
  let text :=
    for_loop (Z.to_nat (matrix_size - 1)) 0
      (fun i text => (text ++ format_g sys (get v i) ++ ",")%string) EmptyString in
  (text ++ format_g sys (get v (Z.to_nat (matrix_size - 1))) ++ newline)%string.

(** Lines 327-336, 337-346 and 347-356: one vector to one file. *)
Definition write_vector (file : option string) (v : list double) (matrix_size : Z)
  : main_proc (handle env) unit :=
  match file with
  | Some name =>
      if fopen_w sys name
      then write_file name (vector_text v matrix_size)
      else main_ret tt
  | None => main_ret tt
  end.

(** The line of lines 322-324. *)
Definition result_line (wf : wf_parameters double) (results : wf_statistics double) : string :=
  (PRId64 (population_size wf) ++ "," ++
   format_g sys (selection wf) ++ "," ++
   format_g sys (forward_mutation_rate wf) ++ "," ++
   format_g sys (backward_mutation_rate wf) ++ "," ++
   format_g sys (dominance_coefficient wf) ++ "," ++
   format_g sys (probability_extinction results) ++ "," ++
   format_g sys (probability_fixation results) ++ "," ++
   format_g sys (time_extinction results) ++ "," ++
   format_g sys (time_fixation results) ++ "," ++
   format_g sys (count_before_extinction results) ++ newline)%string.

Definition too_large : string :=
  "The population_size parameter is too large - the computation might take a very long time".

Definition rate_too_high : string :=
  "The mutation rate might violate the Wright-Fisher assumptions".

Definition use_force : string := "Use `--force` to override".

(** [int main(int argc, char **argv)] *)
Definition main (args : arguments double) : main_proc (handle env) Z :=
  let help := arg_help args in
  (if help then print_help ;; lift (exit (DKL_HELP_EXIT sys)) else main_ret tt) ;;
  let wf := {| population_size := arg_population_size args;
               selection := arg_selection args;
               forward_mutation_rate := arg_forward_mutation_rate args;
               backward_mutation_rate := arg_backward_mutation_rate args;
               dominance_coefficient := arg_dominance_coefficient args |} in
  let zero_threshold := arg_zero_threshold args in
  let zero_threshold :=
    if arg_zero_threshold_not_found args then d_1e_30 else zero_threshold in
  let generations_file := arg_generations_file args in
  let extinction_file := arg_extinction_file args in
  let fixation_file := arg_fixation_file args in
  let force := arg_force args in
  (if negb force then
     (if population_size wf >? 500000 then
        error_print too_large ;; println use_force ;;
        lift (exit (DKL_PARAM_ERROR sys))
      else main_ret tt) ;;
     let max_mutation_rate :=
       d_div d_one (d_mul d_two (d_of_int (population_size wf))) in
     (* [x > y] is [y < x] *)
     if d_lt max_mutation_rate (forward_mutation_rate wf)
        || d_lt max_mutation_rate (backward_mutation_rate wf) then
       error_print rate_too_high ;; println use_force ;;
       lift (exit (DKL_PARAM_ERROR sys))
     else main_ret tt
   else main_ret tt) ;;
  let matrix_size := 2 * population_size wf - 1 in
  let results := wf_statistics_new sys (population_size wf) in
  results <- lift (wfes env wf results zero_threshold) ;;
  (* Output the results *)
  lift (print (result_line wf results)) ;;
  write_vector generations_file (N results) matrix_size ;;
  write_vector extinction_file (B1 results) matrix_size ;;
  write_vector fixation_file (B2 results) matrix_size ;;
  main_ret 0.

End Main.

(* ================================================================== *)
(** ** The vocabulary of the runs of [main] *)

Section MainVocabulary.
Context {D : Double} {L : DoubleLiterals D}.
Variable sys : system double.

(** The parameters and the threshold [main] hands to [wfes]. *)
Definition parameters_of (args : arguments double) : wf_parameters double :=
  {| population_size := arg_population_size args;
     selection := arg_selection args;
     forward_mutation_rate := arg_forward_mutation_rate args;
     backward_mutation_rate := arg_backward_mutation_rate args;
     dominance_coefficient := arg_dominance_coefficient args |}.

Definition threshold_of (args : arguments double) : double :=
  if arg_zero_threshold_not_found args then d_1e_30 else arg_zero_threshold args.

(** The bound the two mutation rates are compared with: [1 / (2 N)]. *)
Definition max_mutation_rate (population_size : Z) : double :=
  d_div d_one (d_mul d_two (d_of_int population_size)).

(** The message of the check that stops the run, if one does. *)
Definition rejection (args : arguments double) : option string :=
  if arg_force args then None
  else if arg_population_size args >? 500000 then Some too_large
  else if d_lt (max_mutation_rate (arg_population_size args))
            (arg_forward_mutation_rate args)
          || d_lt (max_mutation_rate (arg_population_size args))
               (arg_backward_mutation_rate args)
  then Some rate_too_high
  else None.

(** One requested vector as the files it gives: none when no name was
    given or the file could not be opened. *)
Definition file_of (file : option string) (v : list double) (matrix_size : Z)
  : list (string * string) :=
  match file with
  | Some name =>
      if fopen_w sys name then [(name, vector_text sys v matrix_size)] else []
  | None => []
  end.

(** The files of a run that returns [results] from [wfes]. *)
Definition files_of (args : arguments double) (results : wf_statistics double)
  : list (string * string) :=
  let matrix_size := 2 * arg_population_size args - 1 in
  file_of (arg_generations_file args) (N results) matrix_size ++
  file_of (arg_extinction_file args) (B1 results) matrix_size ++
  file_of (arg_fixation_file args) (B2 results) matrix_size.

(** The entries of a vector under [%g], separated by commas and ended by a
    newline. *)
Definition comma_separated (v : list double) (n : nat) : string :=
  (String.concat "," (map (fun i => format_g sys (get v i)) (seq 0 n)) ++ newline)%string.

(** The five ways a run of [main] can go. *)
Definition main_stages (env : environment double) (args : arguments double)
  : outcome Z * main_world double (handle env) :=
  if arg_help args then
    (Exited (DKL_HELP_EXIT sys),
     {| m_world := {| w_calls := []; w_stdout := [help_text] |};
        m_errors := []; m_files := [] |})
  else
    match rejection args with
    | Some message =>
        (Exited (DKL_PARAM_ERROR sys),
         {| m_world := {| w_calls := []; w_stdout := [(use_force ++ newline)%string] |};
            m_errors := [message]; m_files := [] |})
    | None =>
        match wfes env (parameters_of args)
                (wf_statistics_new sys (arg_population_size args))
                (threshold_of args) world_start with
        | (Exited status, w) =>
            (Exited status, {| m_world := w; m_errors := []; m_files := [] |})
        | (Returned results, w) =>
            (Returned 0,
             {| m_world :=
                  {| w_calls := w_calls w;
                     w_stdout := w_stdout w ++ [result_line sys (parameters_of args) results] |};
                m_errors := [];
                m_files := files_of args results |})
        end
    end.

End MainVocabulary.

(** A system for the examples: statuses 1 and 2, results structures with
    every cell zero, integer parts for [%g], and every file but [locked]
    can be opened. *)
Module MainExample.
Section MainExample.
Context {D : Double}.

Definition plain : system double :=
  {| DKL_HELP_EXIT := 1;
     DKL_PARAM_ERROR := 2;
     wf_statistics_new := fun N => Example.statistics_zero (Z.to_nat (2 * N - 1));
     format_g := fun x => PRId64 (d_to_int x);
     fopen_w := fun name => negb (String.eqb name "locked") |}.

(** The neutral two-individual population, with the three files given. *)
Definition two (help force : bool) (population_size : Z) : arguments double :=
  {| arg_help := help;
     arg_population_size := population_size;
     arg_selection := d_zero;
     arg_forward_mutation_rate := d_zero;
     arg_backward_mutation_rate := d_zero;
     arg_dominance_coefficient := d_one;
     arg_zero_threshold := d_zero;
     arg_zero_threshold_not_found := true;
     arg_generations_file := Some "n.csv"%string;
     arg_extinction_file := Some "locked"%string;
     arg_fixation_file := None;
     arg_force := force |}.

End MainExample.
End MainExample.

(** The two-individual population with both mutation rates not-a-number. *)
Definition two_nan_rates {D : Double} : arguments double :=
  {| arg_help := false;
     arg_population_size := 2;
     arg_selection := d_zero;
     arg_forward_mutation_rate := d_nan;
     arg_backward_mutation_rate := d_nan;
     arg_dominance_coefficient := d_one;
     arg_zero_threshold := d_zero;
     arg_zero_threshold_not_found := true;
     arg_generations_file := None;
     arg_extinction_file := None;
     arg_fixation_file := None;
     arg_force := false |}.

(* ================================================================== *)
(** ** Basic facts about arrays and loops *)

Section ArrayFacts.
Context {A : Type}.

Lemma upd_length (i : nat) (v : A) (a : list A) :
  List.length (upd i v a) = List.length a.
Proof.
  revert i; induction a as [|x a IH]; intros [|i]; simpl; auto.
Qed.

Lemma nth_upd_same (i : nat) (v d : A) (a : list A) :
  (i < List.length a)%nat -> nth i (upd i v a) d = v.
Proof.
  revert i; induction a as [|x a IH]; intros [|i] Hi; simpl in *;
    try lia; auto.
  apply IH; lia.
Qed.

Lemma nth_upd_other (i j : nat) (v d : A) (a : list A) :
  i <> j -> nth j (upd i v a) d = nth j a d.
Proof.
  revert i j; induction a as [|x a IH]; intros [|i] [|j] Hij; simpl;
    try congruence; auto.
Qed.

Lemma written_length (buffer out : list A) :
  List.length (written buffer out) = List.length buffer.
Proof.
  unfold written. rewrite length_app, length_firstn, length_skipn. lia.
Qed.

Lemma memcpy_length (dst src : list A) (n : nat) :
  (n <= List.length src)%nat ->
  List.length (memcpy dst src n) = Nat.max n (List.length dst).
Proof.
  intros Hn. unfold memcpy.
  rewrite length_app, length_firstn, length_skipn. lia.
Qed.

Lemma nth_memcpy (dst src : list A) (n i : nat) (d : A) :
  (i < n)%nat -> (n <= List.length src)%nat ->
  nth i (memcpy dst src n) d = nth i src d.
Proof.
  intros Hi Hn. unfold memcpy.
  rewrite app_nth1 by (rewrite length_firstn; lia).
  rewrite nth_firstn. destruct (Nat.ltb_spec i n); [reflexivity | lia].
Qed.

(** A loop that stores [f i] into cell [i]. *)
Lemma for_loop_upd (f : nat -> A) (d : A) (count start : nat) (a : list A) :
  (start + count <= List.length a)%nat ->
  let a' := for_loop count start (fun i a => upd i (f i) a) a in
  List.length a' = List.length a /\
  forall j, nth j a' d = if in_range start count j then f j else nth j a d.
Proof.
  revert start a; induction count as [|k IH]; intros start a Hlen; cbn zeta.
  - split; [reflexivity|]. intros j. unfold in_range.
    destruct (Nat.leb_spec start j), (Nat.ltb_spec j (start + 0)); simpl;
      try reflexivity; lia.
  - cbn [for_loop]. specialize (IH (S start) (upd start (f start) a)).
    cbn zeta in IH. destruct IH as [IHlen IHnth]; [rewrite upd_length; lia|].
    split; [rewrite IHlen, upd_length; reflexivity|].
    intros j. rewrite IHnth. unfold in_range.
    destruct (Nat.eq_dec start j) as [->|Hne].
    + rewrite nth_upd_same by lia.
      destruct (Nat.leb_spec (S j) j), (Nat.leb_spec j j),
        (Nat.ltb_spec j (j + S k)); simpl; try reflexivity; lia.
    + rewrite nth_upd_other by assumption.
      destruct (Nat.leb_spec (S start) j), (Nat.leb_spec start j),
        (Nat.ltb_spec j (S start + k)), (Nat.ltb_spec j (start + S k));
        simpl; try reflexivity; lia.
Qed.

Lemma for_loop_upd_all (f : nat -> A) (a : list A) :
  for_loop (List.length a) 0 (fun i a => upd i (f i) a) a = map f (seq 0 (List.length a)).
Proof.
  destruct a as [|x a]; [reflexivity|].
  destruct (for_loop_upd f x (List.length (x :: a)) 0 (x :: a)) as [Hlen Hnth];
    [simpl; lia|].
  apply (nth_ext _ _ x (f 0%nat)).
  - rewrite Hlen, length_map, length_seq. reflexivity.
  - intros j Hj. rewrite Hlen in Hj. rewrite Hnth. unfold in_range.
    destruct (Nat.leb_spec 0 j), (Nat.ltb_spec j (0 + List.length (x :: a))); try lia.
    simpl andb. cbv iota. rewrite map_nth. rewrite seq_nth by assumption. reflexivity.
Qed.

End ArrayFacts.

(* ================================================================== *)
(** ** The comparison laws hold in both arithmetics *)

Lemma Prim2SF_not_nan (x : float) : PrimFloat.is_nan x = false -> Prim2SF x <> S754_nan.
Proof.
  unfold PrimFloat.is_nan. rewrite eqb_spec. unfold SFeqb.
  intros H E. rewrite E in H. discriminate.
Qed.

Lemma binary64_laws : DoubleLaws binary64.
Proof.
  split; cbn [d_lt d_le d_zero d_isnan d_nan binary64].
  - intros x. rewrite ltb_spec, leb_spec. unfold SFltb, SFleb.
    change (Prim2SF 0) with (S754_zero false).
    destruct (Prim2SF x) as [s|s| |s m e]; simpl; try discriminate;
      destruct s; simpl; congruence.
  - intros x Hn. apply Prim2SF_not_nan in Hn. rewrite ltb_spec, leb_spec.
    unfold SFltb, SFleb. change (Prim2SF 0) with (S754_zero false).
    destruct (Prim2SF x) as [s|s| |s m e]; simpl; try congruence;
      destruct s; simpl; congruence.
  - reflexivity.
  - reflexivity.
Qed.

Lemma exact_laws : DoubleLaws exact.
Proof.
  split; cbn [d_lt d_le d_zero d_isnan d_nan exact].
  - intros [q|s|]; simpl; try discriminate.
    + unfold Exact.Qltb. destruct (Qle_bool q 0) eqn:E1; simpl; [discriminate|reflexivity].
    + destruct s; simpl; congruence.
  - intros [q|s|]; simpl; try discriminate.
    + intros _. unfold Exact.Qltb. intros H. apply negb_false_iff in H. exact H.
    + destruct s; simpl; congruence.
  - reflexivity.
  - reflexivity.
Qed.

(* ================================================================== *)
(** ** The loops of the Statistics Reducer *)

Section Reducer.
Context {D : Double}.

Lemma for_loop_fold {S : Type} (body : nat -> S -> S) (count start : nat) (s : S) :
  for_loop count start body s = fold_left (fun s i => body i s) (seq start count) s.
Proof.
  revert start s; induction count as [|k IH]; intros start s; simpl; auto.
Qed.

(** The accumulation loop leaves the vectors and the probabilities alone
    and continues the three sums from the values found in [*r]. *)
Lemma accumulate_fold (l : list nat) (r : wf_statistics double) :
  let r' := fold_left
              (fun r i =>
                 let r := set_time_extinction
                            (d_add (time_extinction r)
                               (d_mul (get (B1 r) i) (get (N r) i))) r in
                 let r := set_time_fixation
                            (d_add (time_fixation r)
                               (d_mul (get (B2 r) i) (get (N r) i))) r in
                 set_count_before_extinction
                   (d_add (count_before_extinction r)
                      (d_mul (d_mul (get (N r) i) (get (B1 r) i))
                         (d_of_int (Z.of_nat i + 1)))) r) l r in
  B1 r' = B1 r /\ B2 r' = B2 r /\ N r' = N r /\
  probability_extinction r' = probability_extinction r /\
  probability_fixation r' = probability_fixation r /\
  time_extinction r' =
    fold_left (fun acc i => d_add acc (extinction_term r i)) l (time_extinction r) /\
  time_fixation r' =
    fold_left (fun acc i => d_add acc (fixation_term r i)) l (time_fixation r) /\
  count_before_extinction r' =
    fold_left (fun acc i => d_add acc (count_term r i)) l (count_before_extinction r).
Proof.
  revert r; induction l as [|i l IH]; intros r; cbn zeta.
  - cbn [fold_left]. repeat split; reflexivity.
  - cbn [fold_left]. cbn zeta in IH.
    match goal with |- context [fold_left ?f l ?r1] => specialize (IH r1) end.
    destruct IH as (H1 & H2 & H3 & H4 & H5 & H6 & H7 & H8).
    rewrite H1, H2, H3, H4, H5, H6, H7, H8.
    unfold extinction_term, fixation_term, count_term; cbn.
    repeat split; reflexivity.
Qed.

Lemma accumulate_spec (n : Z) (r : wf_statistics double) :
  let r' := accumulate n r in
  B1 r' = B1 r /\ B2 r' = B2 r /\ N r' = N r /\
  probability_extinction r' = probability_extinction r /\
  probability_fixation r' = probability_fixation r /\
  time_extinction r' = sum_from (time_extinction r) (Z.to_nat n) (extinction_term r) /\
  time_fixation r' = sum_from (time_fixation r) (Z.to_nat n) (fixation_term r) /\
  count_before_extinction r' =
    sum_from (count_before_extinction r) (Z.to_nat n) (count_term r).
Proof.
  unfold accumulate. rewrite for_loop_fold. apply accumulate_fold.
Qed.

Lemma normalise_spec (r : wf_statistics double) :
  let r' := normalise r in
  B1 r' = B1 r /\ B2 r' = B2 r /\ N r' = N r /\
  count_before_extinction r' = d_div (count_before_extinction r) (get (B1 r) 0) /\
  (d_le (get (B1 r) 0) d_zero = true ->
     probability_extinction r' = d_zero /\ time_extinction r' = d_nan) /\
  (d_le (get (B1 r) 0) d_zero = false ->
     probability_extinction r' = get (B1 r) 0 /\
     time_extinction r' = d_div (time_extinction r) (get (B1 r) 0)) /\
  (d_le (get (B2 r) 0) d_zero = true ->
     probability_fixation r' = d_zero /\ time_fixation r' = d_nan) /\
  (d_le (get (B2 r) 0) d_zero = false ->
     probability_fixation r' = get (B2 r) 0 /\
     time_fixation r' = d_div (time_fixation r) (get (B2 r) 0)).
Proof.
  destruct r as [b1 b2 n pe pf te tf cbe]. unfold normalise, get. cbn.
  destruct (d_le (nth 0 b1 d_zero) d_zero); cbn;
    destruct (d_le (nth 0 b2 d_zero) d_zero); cbn;
    repeat split; intros; try discriminate; reflexivity.
Qed.

Lemma for_loop_invariant {S : Type} (P : S -> Prop) (body : nat -> S -> S) :
  (forall i s, P s -> P (body i s)) ->
  forall count start s, P s -> P (for_loop count start body s).
Proof.
  intros Hbody count; induction count as [|k IH]; intros start s Hs; simpl; auto.
Qed.

Lemma clamp_B1_fill_B2_scalars (n : Z) (r : wf_statistics double) :
  scalars (clamp_B1_fill_B2 n r) = scalars r /\ N (clamp_B1_fill_B2 n r) = N r.
Proof.
  unfold clamp_B1_fill_B2.
  apply (for_loop_invariant (fun r' => scalars r' = scalars r /\ N r' = N r));
    [|split; reflexivity].
  intros i s [Hs HN]. rewrite <- Hs, <- HN.
  destruct (d_lt (get (B1 s) i) d_zero); split; reflexivity.
Qed.

Lemma clamp_N_scalars (n : Z) (r : wf_statistics double) :
  scalars (clamp_N n r) = scalars r /\ B1 (clamp_N n r) = B1 r /\ B2 (clamp_N n r) = B2 r.
Proof.
  unfold clamp_N.
  apply (for_loop_invariant
           (fun r' => scalars r' = scalars r /\ B1 r' = B1 r /\ B2 r' = B2 r));
    [|repeat split; reflexivity].
  intros i s (Hs & H1 & H2). rewrite <- Hs, <- H1, <- H2.
  destruct (d_lt (get (N s) i) d_zero); repeat split; reflexivity.
Qed.

Lemma upd_get_same (i : nat) (a : list double) : upd i (get a i) a = a.
Proof.
  unfold get. revert i; induction a as [|x a IH]; intros [|i]; simpl; auto.
  f_equal; apply IH.
Qed.

(** The clamping loop of [N], entry by entry. *)
Lemma clamp_N_loop (count start : nat) (r : wf_statistics double) :
  (start + count <= List.length (N r))%nat ->
  let r' := for_loop count start
              (fun i r => if d_lt (get (N r) i) d_zero
                          then set_N (upd i d_zero (N r)) r else r) r in
  List.length (N r') = List.length (N r) /\
  forall j, get (N r') j =
            if in_range start count j then clamp (get (N r) j) else get (N r) j.
Proof.
  revert start r; induction count as [|k IH]; intros start r Hlen; cbn zeta.
  - split; [reflexivity|]. intros j. unfold in_range.
    destruct (Nat.leb_spec start j), (Nat.ltb_spec j (start + 0)); simpl;
      try reflexivity; lia.
  - cbn [for_loop].
    set (r1 := if d_lt (get (N r) start) d_zero
               then set_N (upd start d_zero (N r)) r else r).
    assert (HN1 : N r1 = upd start (clamp (get (N r) start)) (N r)).
    { unfold r1, clamp. destruct (d_lt (get (N r) start) d_zero); cbn [N set_N];
        [reflexivity | symmetry; apply upd_get_same]. }
    specialize (IH (S start) r1). cbn zeta in IH.
    destruct IH as [IHlen IHget]; [rewrite HN1, upd_length; lia|].
    split; [rewrite IHlen, HN1, upd_length; reflexivity|].
    intros j. rewrite IHget, HN1. unfold in_range, get.
    destruct (Nat.eq_dec start j) as [->|Hne].
    + rewrite nth_upd_same by lia.
      destruct (Nat.leb_spec (S j) j), (Nat.leb_spec j j),
        (Nat.ltb_spec j (j + S k)); simpl; try reflexivity; lia.
    + rewrite nth_upd_other by assumption.
      destruct (Nat.leb_spec (S start) j), (Nat.leb_spec start j),
        (Nat.ltb_spec j (S start + k)), (Nat.ltb_spec j (start + S k));
        simpl; try reflexivity; lia.
Qed.

(** The loop that clamps [B1] and fills [B2], entry by entry. *)
Lemma clamp_B1_fill_B2_loop (count start : nat) (r : wf_statistics double) :
  (start + count <= List.length (B1 r))%nat ->
  (start + count <= List.length (B2 r))%nat ->
  let r' := for_loop count start
              (fun i r =>
                 let r := if d_lt (get (B1 r) i) d_zero
                          then set_B1 (upd i d_zero (B1 r)) r else r in
                 set_B2 (upd i (d_sub d_one (get (B1 r) i)) (B2 r)) r) r in
  List.length (B1 r') = List.length (B1 r) /\
  List.length (B2 r') = List.length (B2 r) /\
  (forall j, get (B1 r') j =
             if in_range start count j then clamp (get (B1 r) j) else get (B1 r) j) /\
  (forall j, get (B2 r') j =
             if in_range start count j
             then d_sub d_one (clamp (get (B1 r) j)) else get (B2 r) j).
Proof.
  revert start r; induction count as [|k IH]; intros start r Hl1 Hl2; cbn zeta.
  - repeat split; intros j; unfold in_range;
      destruct (Nat.leb_spec start j), (Nat.ltb_spec j (start + 0)); simpl;
      try reflexivity; lia.
  - cbn [for_loop].
    set (r0 := if d_lt (get (B1 r) start) d_zero
               then set_B1 (upd start d_zero (B1 r)) r else r).
    set (r1 := set_B2 (upd start (d_sub d_one (get (B1 r0) start)) (B2 r0)) r0).
    assert (H10 : B1 r0 = upd start (clamp (get (B1 r) start)) (B1 r)).
    { unfold r0, clamp. destruct (d_lt (get (B1 r) start) d_zero); cbn [B1 set_B1];
        [reflexivity | symmetry; apply upd_get_same]. }
    assert (H20 : B2 r0 = B2 r).
    { unfold r0. destruct (d_lt (get (B1 r) start) d_zero); reflexivity. }
    assert (Hg : get (B1 r0) start = clamp (get (B1 r) start)).
    { rewrite H10. unfold get at 1. apply nth_upd_same. lia. }
    assert (H11 : B1 r1 = upd start (clamp (get (B1 r) start)) (B1 r)).
    { unfold r1. cbn [B1 set_B2]. exact H10. }
    assert (H21 : B2 r1 = upd start (d_sub d_one (clamp (get (B1 r) start))) (B2 r)).
    { unfold r1. cbn [B2 set_B2]. rewrite Hg, H20. reflexivity. }
    specialize (IH (S start) r1). cbn zeta in IH.
    destruct IH as (IHl1 & IHl2 & IHg1 & IHg2);
      [rewrite H11, upd_length; lia | rewrite H21, upd_length; lia |].
    split; [rewrite IHl1, H11, upd_length; reflexivity|].
    split; [rewrite IHl2, H21, upd_length; reflexivity|].
    split; intros j.
    + rewrite IHg1, H11. unfold in_range, get.
      destruct (Nat.eq_dec start j) as [->|Hne].
      * rewrite nth_upd_same by lia.
        destruct (Nat.leb_spec (S j) j), (Nat.leb_spec j j),
          (Nat.ltb_spec j (j + S k)); simpl; try reflexivity; lia.
      * rewrite nth_upd_other by assumption.
        destruct (Nat.leb_spec (S start) j), (Nat.leb_spec start j),
          (Nat.ltb_spec j (S start + k)), (Nat.ltb_spec j (start + S k));
          simpl; try reflexivity; lia.
    + rewrite IHg2, H11, H21. unfold in_range, get.
      destruct (Nat.eq_dec start j) as [->|Hne].
      * rewrite !nth_upd_same by lia.
        destruct (Nat.leb_spec (S j) j), (Nat.leb_spec j j),
          (Nat.ltb_spec j (j + S k)); simpl; try reflexivity; lia.
      * rewrite !nth_upd_other by assumption.
        destruct (Nat.leb_spec (S start) j), (Nat.leb_spec start j),
          (Nat.ltb_spec j (S start + k)), (Nat.ltb_spec j (start + S k));
          simpl; try reflexivity; lia.
Qed.

End Reducer.

(* ================================================================== *)
(** ** A run of [wfes] is made of its stages *)

Section Run.
Context {D : Double}.
Variable env : environment double.
Variable wf : wf_parameters double.
Variable r : wf_statistics double.
Variable zero_threshold : double.

Lemma wfes_run :
  wfes env wf r zero_threshold world_start = wfes_stages env wf r zero_threshold.
Proof.
  unfold wfes_stages, wfes, bind, call_pardiso, fatal_unless_zero, print, exit, ret.
  unfold ev_error, release_event, r_final, r_solved, transpose_solution, iparm_transpose,
    transpose_event, rhs_sojourn, r_forward, workspace_forward, forward_solution,
    iparm_forward, forward_event, rhs_extinction, iparm_factorized, factorize_event,
    iparm_analyzed, analyze_event, event_of, matrix, matrix_size.
  cbn [ev_ret w_calls w_stdout app world_start].
  repeat (match goal with
          | |- context [negb (?e =? 0)] => destruct (e =? 0); cbn [negb]
          end; try reflexivity).
Qed.

End Run.

(* ================================================================== *)
(** ** What a run that returns, and a run that exits, went through *)

Section RunCases.
Context {D : Double}.
Variable env : environment double.
Variable wf : wf_parameters double.
Variable r0 : wf_statistics double.
Variable zero_threshold : double.

Lemma wfes_returned (r : wf_statistics double) (w : world double (handle env)) :
  wfes env wf r0 zero_threshold world_start = (Returned r, w) ->
  ev_error (analyze_event env wf zero_threshold) = 0 /\
  ev_error (factorize_event env wf zero_threshold) = 0 /\
  ev_error (forward_event env wf zero_threshold) = 0 /\
  ev_error (transpose_event env wf zero_threshold) = 0 /\
  r = r_final env wf r0 zero_threshold /\
  w_calls w = [analyze_event env wf zero_threshold;
               factorize_event env wf zero_threshold;
               forward_event env wf zero_threshold;
               transpose_event env wf zero_threshold;
               release_event env wf zero_threshold] /\
  w_stdout w = [solution_successful].
Proof.
  rewrite wfes_run. unfold wfes_stages.
  destruct (Z.eqb_spec (ev_error (analyze_event env wf zero_threshold)) 0);
    cbn [negb]; [|discriminate].
  destruct (Z.eqb_spec (ev_error (factorize_event env wf zero_threshold)) 0);
    cbn [negb]; [|discriminate].
  destruct (Z.eqb_spec (ev_error (forward_event env wf zero_threshold)) 0);
    cbn [negb]; [|discriminate].
  destruct (Z.eqb_spec (ev_error (transpose_event env wf zero_threshold)) 0);
    cbn [negb]; [|discriminate].
  intros H; inversion H; subst. repeat split; assumption.
Qed.

Lemma wfes_returns :
  ev_error (analyze_event env wf zero_threshold) = 0 ->
  ev_error (factorize_event env wf zero_threshold) = 0 ->
  ev_error (forward_event env wf zero_threshold) = 0 ->
  ev_error (transpose_event env wf zero_threshold) = 0 ->
  exists w, wfes env wf r0 zero_threshold world_start
            = (Returned (r_final env wf r0 zero_threshold), w).
Proof.
  intros H1 H2 H3 H4. rewrite wfes_run. unfold wfes_stages.
  rewrite H1, H2, H3, H4. cbn [Z.eqb negb]. eexists; reflexivity.
Qed.

(** The summary statistics are computed from the clamped vectors and from
    the scalars found in [*r] at entry. *)
Lemma r_solved_scalars :
  scalars (r_solved env wf r0 zero_threshold) = scalars r0.
Proof.
  unfold r_solved, r_forward.
  destruct (clamp_N_scalars (matrix_size wf)
              (set_N (memcpy (N (r_forward env wf r0 zero_threshold))
                        (transpose_solution env wf zero_threshold)
                        (Z.to_nat (matrix_size wf)))
                 (r_forward env wf r0 zero_threshold))) as [H _].
  unfold r_forward in H. rewrite H. clear H.
  destruct (clamp_B1_fill_B2_scalars (matrix_size wf)
              (set_B1 (memcpy (B1 r0) (forward_solution env wf zero_threshold)
                         (Z.to_nat (matrix_size wf))) r0)) as [H _].
  unfold scalars in *. cbn [set_N probability_extinction probability_fixation
    time_extinction time_fixation count_before_extinction].
  rewrite H. reflexivity.
Qed.

Lemma r_final_vectors :
  B1 (r_final env wf r0 zero_threshold) = B1 (r_solved env wf r0 zero_threshold) /\
  B2 (r_final env wf r0 zero_threshold) = B2 (r_solved env wf r0 zero_threshold) /\
  N (r_final env wf r0 zero_threshold) = N (r_solved env wf r0 zero_threshold).
Proof.
  unfold r_final.
  destruct (normalise_spec (accumulate (matrix_size wf) (r_solved env wf r0 zero_threshold)))
    as (H1 & H2 & H3 & _).
  destruct (accumulate_spec (matrix_size wf) (r_solved env wf r0 zero_threshold))
    as (A1 & A2 & A3 & _).
  cbn zeta in *. rewrite H1, H2, H3, A1, A2, A3. repeat split; reflexivity.
Qed.

Lemma terms_of_final :
  extinction_term (r_final env wf r0 zero_threshold)
    = extinction_term (r_solved env wf r0 zero_threshold) /\
  fixation_term (r_final env wf r0 zero_threshold)
    = fixation_term (r_solved env wf r0 zero_threshold) /\
  count_term (r_final env wf r0 zero_threshold)
    = count_term (r_solved env wf r0 zero_threshold).
Proof.
  destruct r_final_vectors as (H1 & H2 & H3).
  unfold extinction_term, fixation_term, count_term.
  rewrite H1, H2, H3. repeat split; reflexivity.
Qed.

(** The scalars at the end of a run, from those at entry. *)
Lemma r_final_scalars :
  let r := r_final env wf r0 zero_threshold in
  let n := Z.to_nat (matrix_size wf) in
  count_before_extinction r
    = d_div (sum_from (count_before_extinction r0) n (count_term r)) (get (B1 r) 0) /\
  (d_le (get (B1 r) 0) d_zero = true ->
     probability_extinction r = d_zero /\ time_extinction r = d_nan) /\
  (d_le (get (B1 r) 0) d_zero = false ->
     probability_extinction r = get (B1 r) 0 /\
     time_extinction r
       = d_div (sum_from (time_extinction r0) n (extinction_term r)) (get (B1 r) 0)) /\
  (d_le (get (B2 r) 0) d_zero = true ->
     probability_fixation r = d_zero /\ time_fixation r = d_nan) /\
  (d_le (get (B2 r) 0) d_zero = false ->
     probability_fixation r = get (B2 r) 0 /\
     time_fixation r
       = d_div (sum_from (time_fixation r0) n (fixation_term r)) (get (B2 r) 0)).
Proof.
  cbn zeta.
  destruct terms_of_final as (T1 & T2 & T3). rewrite T1, T2, T3.
  destruct r_final_vectors as (V1 & V2 & V3). rewrite V1, V2.
  unfold r_final.
  destruct (normalise_spec (accumulate (matrix_size wf) (r_solved env wf r0 zero_threshold)))
    as (_ & _ & _ & Hc & He1 & He2 & Hf1 & Hf2).
  destruct (accumulate_spec (matrix_size wf) (r_solved env wf r0 zero_threshold))
    as (A1 & A2 & _ & _ & _ & Ae & Af & Ac).
  cbn zeta in *. rewrite A1, A2, Ae, Af, Ac in *.
  pose proof r_solved_scalars as S. unfold scalars in S.
  injection S as _ _ Ste Stf Sc. rewrite Ste, Stf, Sc in *.
  repeat split; try apply He1; try apply He2; try apply Hf1; try apply Hf2;
    try assumption.
Qed.

End RunCases.


(* ================================================================== *)
(** ** What the solver is given *)

Section Protocol.
Context {D : Double}.
Variable env : environment double.
Variable wf : wf_parameters double.
Variable zero_threshold : double.

Lemma dkl_alloc_length (n : Z) : List.length (dkl_alloc env n) = Z.to_nat n.
Proof. unfold dkl_alloc. rewrite length_map, length_seq. reflexivity. Qed.

(** Lines 81-84 fill the whole buffer: entry [i] is [pow(1 - q, 2N)] for the
    sampling coefficient [q] of [i + 1] copies. *)
Lemma rhs_extinction_vector : rhs_extinction env wf = extinction_vector env wf.
Proof.
  unfold rhs_extinction, extinction_rhs, extinction_vector. cbn zeta.
  fold (matrix_size wf).
  rewrite <- (dkl_alloc_length (matrix_size wf)).
  apply (for_loop_upd_all
           (fun i => pow env (d_sub d_one (wf_sampling_coefficient env wf (Z.of_nat i + 1)))
                       (d_of_int (2 * population_size wf)))).
Qed.

Lemma forward_solution_length :
  List.length (forward_solution env wf zero_threshold) = Z.to_nat (matrix_size wf).
Proof.
  unfold forward_solution. rewrite written_length, rhs_extinction_vector.
  unfold extinction_vector. rewrite length_map, length_seq. reflexivity.
Qed.

(** Lines 190-193 turn a buffer of [matrix_size] cells into the unit vector. *)
Lemma sojourn_rhs_unit (m : Z) (buffer : list double) :
  List.length buffer = Z.to_nat m -> sojourn_rhs m buffer = unit_vector (Z.to_nat m).
Proof.
  intros Hlen. unfold sojourn_rhs. cbn zeta.
  replace (Z.to_nat (m - 1)) with (Z.to_nat m - 1)%nat by lia.
  rewrite <- Hlen. destruct buffer as [|x buffer]; [reflexivity|].
  cbn [List.length upd unit_vector Nat.sub]. rewrite Nat.sub_0_r.
  destruct (for_loop_upd (fun _ : nat => d_zero) d_zero (List.length buffer) 1
              (d_one :: buffer)) as [Hl Hn]; [simpl; lia|].
  cbn zeta in Hl, Hn.
  apply (nth_ext _ _ d_zero d_zero).
  - rewrite Hl. simpl. rewrite repeat_length. reflexivity.
  - intros j Hj. rewrite Hl in Hj. simpl in Hj. rewrite Hn. unfold in_range.
    destruct j as [|j]; [reflexivity|].
    destruct (Nat.leb_spec 1 (S j)), (Nat.ltb_spec (S j) (1 + List.length buffer));
      try lia.
    simpl. rewrite nth_repeat. reflexivity.
Qed.

Lemma rhs_sojourn_unit :
  rhs_sojourn env wf zero_threshold = unit_vector (Z.to_nat (matrix_size wf)).
Proof. apply sojourn_rhs_unit, forward_solution_length. Qed.

Lemma iparm_factorized_length :
  List.length (iparm_factorized env wf zero_threshold) = 64%nat.
Proof.
  unfold iparm_factorized, iparm_analyzed. rewrite !written_length. reflexivity.
Qed.

Lemma iparm_forward_length :
  List.length (iparm_forward env wf zero_threshold) = 64%nat.
Proof.
  unfold iparm_forward. rewrite written_length, upd_length.
  apply iparm_factorized_length.
Qed.

(** The control parameter that selects the mode is stored just before each
    solve. *)
Lemma mode_forward : mode (ev_call (forward_event env wf zero_threshold)) = 0.
Proof.
  unfold mode, forward_event, event_of, pardiso_args. cbn [ev_call c_iparm].
  apply nth_upd_same. rewrite iparm_factorized_length. lia.
Qed.

Lemma mode_transpose : mode (ev_call (transpose_event env wf zero_threshold)) = 2.
Proof.
  unfold mode, transpose_event, event_of, pardiso_args. cbn [ev_call c_iparm].
  apply nth_upd_same. rewrite iparm_forward_length. lia.
Qed.

End Protocol.

(* ================================================================== *)
(** ** The vectors at the end of a run *)

Section FinalVectors.
Context {D : Double}.
Variable env : environment double.
Variable wf : wf_parameters double.
Variable r0 : wf_statistics double.
Variable zero_threshold : double.

Lemma transpose_solution_length :
  List.length (transpose_solution env wf zero_threshold) = Z.to_nat (matrix_size wf).
Proof.
  unfold transpose_solution. rewrite written_length, rhs_sojourn_unit.
  unfold unit_vector. destruct (Z.to_nat (matrix_size wf)); simpl;
    [reflexivity | rewrite repeat_length; reflexivity].
Qed.

(** Entry [i] of [B1] is the clamped entry of the forward solve, and entry
    [i] of [B2] is one minus it. *)
Lemma final_B_entries (i : nat) :
  (i < Z.to_nat (matrix_size wf))%nat ->
  (Z.to_nat (matrix_size wf) <= List.length (B2 r0))%nat ->
  get (B1 (r_final env wf r0 zero_threshold)) i
    = clamp (get (forward_solution env wf zero_threshold) i) /\
  get (B2 (r_final env wf r0 zero_threshold)) i
    = d_sub d_one (clamp (get (forward_solution env wf zero_threshold) i)).
Proof.
  intros Hi Hlen.
  destruct (r_final_vectors env wf r0 zero_threshold) as (V1 & V2 & _).
  rewrite V1, V2. unfold r_solved.
  destruct (clamp_N_scalars (matrix_size wf)
              (set_N (memcpy (N (r_forward env wf r0 zero_threshold))
                        (transpose_solution env wf zero_threshold)
                        (Z.to_nat (matrix_size wf)))
                 (r_forward env wf r0 zero_threshold))) as (_ & C1 & C2).
  rewrite C1, C2. cbn [B1 B2 set_N].
  unfold r_forward, clamp_B1_fill_B2.
  set (r1 := set_B1 (memcpy (B1 r0) (forward_solution env wf zero_threshold)
                       (Z.to_nat (matrix_size wf))) r0).
  assert (Hl1 : (0 + Z.to_nat (matrix_size wf) <= List.length (B1 r1))%nat).
  { unfold r1. cbn [B1 set_B1]. rewrite memcpy_length
      by (rewrite forward_solution_length; lia). lia. }
  assert (Hl2 : (0 + Z.to_nat (matrix_size wf) <= List.length (B2 r1))%nat)
    by (unfold r1; cbn [B2 set_B1]; lia).
  destruct (clamp_B1_fill_B2_loop (Z.to_nat (matrix_size wf)) 0 r1 Hl1 Hl2)
    as (_ & _ & G1 & G2).
  cbn zeta in G1, G2. rewrite G1, G2. unfold in_range.
  destruct (Nat.leb_spec 0 i), (Nat.ltb_spec i (0 + Z.to_nat (matrix_size wf)));
    try lia.
  cbn [andb].
  assert (Hg : get (B1 r1) i = get (forward_solution env wf zero_threshold) i).
  { unfold r1, get. cbn [B1 set_B1]. apply nth_memcpy;
      [assumption | rewrite forward_solution_length; lia]. }
  rewrite Hg. split; reflexivity.
Qed.

(** Entry [i] of [N] is the clamped entry of the transpose solve. *)
Lemma final_N_entries (i : nat) :
  (i < Z.to_nat (matrix_size wf))%nat ->
  get (N (r_final env wf r0 zero_threshold)) i
    = clamp (get (transpose_solution env wf zero_threshold) i).
Proof.
  intros Hi.
  destruct (r_final_vectors env wf r0 zero_threshold) as (_ & _ & V3).
  rewrite V3. unfold r_solved, clamp_N.
  set (r1 := set_N (memcpy (N (r_forward env wf r0 zero_threshold))
                      (transpose_solution env wf zero_threshold)
                      (Z.to_nat (matrix_size wf)))
               (r_forward env wf r0 zero_threshold)).
  assert (Hl : (0 + Z.to_nat (matrix_size wf) <= List.length (N r1))%nat).
  { unfold r1. cbn [N set_N]. rewrite memcpy_length
      by (rewrite transpose_solution_length; lia). lia. }
  destruct (clamp_N_loop (Z.to_nat (matrix_size wf)) 0 r1 Hl) as (_ & G).
  cbn zeta in G. rewrite G. unfold in_range.
  destruct (Nat.leb_spec 0 i), (Nat.ltb_spec i (0 + Z.to_nat (matrix_size wf)));
    try lia.
  cbn [andb]. f_equal. unfold r1, get. cbn [N set_N].
  apply nth_memcpy; [assumption | rewrite transpose_solution_length; lia].
Qed.

(** The vectors at the end of a run are the clamped solutions. *)
Lemma final_vectors_from_solves :
  (Z.to_nat (matrix_size wf) <= List.length (B2 r0))%nat ->
  vectors_from_solves env wf zero_threshold (r_final env wf r0 zero_threshold).
Proof.
  intros Hlen i Hi. fold (matrix_size wf) in Hi.
  destruct (final_B_entries i Hi Hlen) as [H1 H2].
  rewrite H2, H1, (final_N_entries i Hi). repeat split; reflexivity.
Qed.


End FinalVectors.

(* ================================================================== *)
(** ** Exact arithmetic *)

Section ExactFacts.

Lemma Qltb_lt (a b : Q) : Exact.Qltb a b = true <-> (a < b)%Q.
Proof.
  unfold Exact.Qltb. rewrite negb_true_iff. split.
  - intros H. apply Qnot_le_lt. intros Hle. apply Qle_bool_iff in Hle. congruence.
  - intros H. destruct (Qle_bool b a) eqn:E; [|reflexivity].
    apply Qle_bool_iff in E. apply Qlt_not_le in H. contradiction.
Qed.

Lemma Qzero_eq (q : Q) : Exact.Qzero q = true <-> (q == 0)%Q.
Proof.
  unfold Exact.Qzero, Qeq. simpl. rewrite Z.eqb_eq. lia.
Qed.

Lemma exact_finite (x : Exact.xnum) :
  Exact.is_finite x = true -> x = Exact.Fin (Exact.value x).
Proof. destruct x; simpl; intros H; try discriminate; reflexivity. Qed.


(** A clamped value that is at most one lies in the unit interval, and so
    does one minus it. *)
Lemma exact_clamp_unit (x : Exact.xnum) :
  Exact.leb x (Exact.Fin 1) = true ->
  in_unit_interval (D := exact) (clamp (D := exact) x) = true /\
  in_unit_interval (D := exact) (Exact.sub (Exact.Fin 1) (clamp (D := exact) x)) = true.
Proof.
  unfold in_unit_interval, clamp. cbn [d_le d_lt d_zero d_one exact].
  destruct x as [q|s|]; simpl; try discriminate.
  - intros Hle. apply Qle_bool_iff in Hle.
    destruct (Exact.Qltb q 0) eqn:E; simpl.
    + split; reflexivity.
    + assert (H0 : (0 <= q)%Q).
      { destruct (Qlt_le_dec q 0) as [Hlt|Hge]; [|exact Hge].
        apply Qltb_lt in Hlt. congruence. }
      split; apply andb_true_intro; split; apply Qle_bool_iff; lra.
  - destruct s; simpl; intros H; try discriminate. split; reflexivity.
Qed.

(** Sums of finite terms are finite, and a sum continued from [a] is [a]
    more than the sum from zero. *)
Lemma exact_sum_finite (f : nat -> Exact.xnum) (l : list nat) (a : Q) :
  (forall i, In i l -> Exact.is_finite (f i) = true) ->
  exists q q0,
    fold_left (fun acc i => Exact.add acc (f i)) l (Exact.Fin a) = Exact.Fin q /\
    fold_left (fun acc i => Exact.add acc (f i)) l (Exact.Fin 0) = Exact.Fin q0 /\
    (q == a + q0)%Q.
Proof.
  revert a; induction l as [|i l IH]; intros a Hfin.
  - exists a, 0%Q. repeat split; try reflexivity. ring.
  - assert (Hi : Exact.is_finite (f i) = true) by (apply Hfin; left; reflexivity).
    assert (Hl : forall j, In j l -> Exact.is_finite (f j) = true)
      by (intros j Hj; apply Hfin; right; exact Hj).
    apply exact_finite in Hi. cbn [fold_left]. rewrite Hi. cbn [Exact.add].
    destruct (IH (a + Exact.value (f i))%Q Hl) as (q & q0 & Hq & Hq0 & Heq).
    destruct (IH (0 + Exact.value (f i))%Q Hl) as (q' & q0' & Hq' & Hq0' & Heq').
    rewrite Hq0 in Hq0'. injection Hq0' as <-.
    exists q, q'. repeat split; try assumption.
    rewrite Heq, Heq'. ring.
Qed.

(** A quotient by a positive value of a sum continued from [start]. *)
Lemma exact_offset (f : nat -> Exact.xnum) (n : nat) (start b : Exact.xnum) :
  (forall i, (i < n)%nat -> Exact.is_finite (f i) = true) ->
  Exact.is_finite start = true ->
  Exact.is_finite b = true ->
  Exact.ltb (Exact.Fin 0) b = true ->
  offset_by (D := exact)
    (Exact.div (sum_from (D := exact) start n f) b)
    (Exact.div (sum_upto (D := exact) n f) b) start b.
Proof.
  intros Hf Hs Hb Hpos.
  apply exact_finite in Hs, Hb. rewrite Hs, Hb in *.
  set (a := Exact.value start) in *. set (qb := Exact.value b) in *.
  cbn [Exact.ltb] in Hpos. apply Qltb_lt in Hpos.
  unfold offset_by, sum_from, sum_upto.
  change (@d_add exact) with Exact.add. change (@d_zero exact) with (Exact.Fin 0).
  change (@d_eq exact) with Exact.eqb. change (@d_div exact) with Exact.div.
  change (@double exact) with Exact.xnum.
  destruct (exact_sum_finite f (seq 0 n) a) as (q & q0 & Hq & Hq0 & Heq).
  { intros i Hi. apply in_seq in Hi. apply Hf. lia. }
  rewrite Hq, Hq0. cbn [Exact.div].
  assert (Hnz : ~ (qb == 0)%Q).
  { intros E. rewrite E in Hpos. apply Qlt_irrefl in Hpos. exact Hpos. }
  assert (Hz : Exact.Qzero qb = false).
  { destruct (Exact.Qzero qb) eqn:E; [|reflexivity].
    apply Qzero_eq in E. contradiction. }
  rewrite Hz. cbn [Exact.add Exact.eqb]. split.
  - apply Qeq_bool_iff. rewrite Heq. field. exact Hnz.
  - intros Ha. destruct (Qeq_bool (q / qb) (q0 / qb)) eqn:E; [|reflexivity].
    apply Qeq_bool_iff in E. exfalso.
    assert (Ha' : ~ (a == 0)%Q).
    { intros Ea. apply Qeq_bool_iff in Ea. congruence. }
    apply Ha'.
    assert (Hqq : (q == q0)%Q).
    { rewrite <- (Qmult_div_r q qb Hnz), <- (Qmult_div_r q0 qb Hnz), E. reflexivity. }
    rewrite Heq in Hqq. lra.
Qed.

End ExactFacts.

(* ================================================================== *)
(** ** The block size *)

Section BlockSize.

Lemma block_size_exact (N : Z) :
  block_size_of (D := exact) (2 * N - 1) = block_size_rule (2 * N - 1).
Proof.
  unfold block_size_of, block_size_rule.
  destruct (Z.leb_spec 100 (2 * N - 1)), (Z.ltb_spec 100 (2 * N - 1)); try lia.
  unfold exact. cbn [d_to_int d_mul d_of_int d_tenth Exact.mul Exact.to_int].
  unfold Qmult, inject_Z. cbn [Qnum Qden]. rewrite Z.mul_1_r.
  change (Zpos (1 * 10)) with 10. apply Z.quot_div_nonneg; lia.
Qed.

(* ------------------------------------------------------------------ *)
(** *** The rounding of [(double) m * 0.1] in binary64 *)

(** The number of binary digits of a positive number. *)
Lemma digits2_pos_bounds (p : positive) :
  2 ^ (Zpos (digits2_pos p) - 1) <= Zpos p < 2 ^ Zpos (digits2_pos p).
Proof.
  induction p as [p IH|p IH|]; cbn [digits2_pos].
  - rewrite Pos2Z.inj_succ. change (Zpos p~1) with (2 * Zpos p + 1).
    replace (Z.succ (Zpos (digits2_pos p)) - 1) with (Z.succ (Zpos (digits2_pos p) - 1)) by lia.
    rewrite !Z.pow_succ_r by lia.
    destruct IH as [IH1 IH2]. revert IH1 IH2.
    generalize (2 ^ (Zpos (digits2_pos p) - 1)), (2 ^ Zpos (digits2_pos p)). lia.
  - rewrite Pos2Z.inj_succ. change (Zpos p~0) with (2 * Zpos p).
    replace (Z.succ (Zpos (digits2_pos p)) - 1) with (Z.succ (Zpos (digits2_pos p) - 1)) by lia.
    rewrite !Z.pow_succ_r by lia.
    destruct IH as [IH1 IH2]. revert IH1 IH2.
    generalize (2 ^ (Zpos (digits2_pos p) - 1)), (2 ^ Zpos (digits2_pos p)). lia.
  - cbn. lia.
Qed.

Lemma digits2_pos_unique (p : positive) (d : Z) :
  2 ^ (d - 1) <= Zpos p < 2 ^ d -> Zpos (digits2_pos p) = d.
Proof.
  intros [Hlo Hhi]. pose proof (digits2_pos_bounds p) as [Blo Bhi].
  assert (Hd : 0 <= d).
  { destruct (Z.lt_ge_cases d 0) as [Hneg|]; [|assumption].
    rewrite Z.pow_neg_r in Hhi by assumption. lia. }
  destruct (Z.lt_trichotomy (Zpos (digits2_pos p)) d) as [Hlt|[Heq|Hgt]];
    [exfalso | exact Heq | exfalso].
  - assert (2 ^ Zpos (digits2_pos p) <= 2 ^ (d - 1)) by (apply Z.pow_le_mono_r; lia). lia.
  - assert (2 ^ d <= 2 ^ (Zpos (digits2_pos p) - 1)) by (apply Z.pow_le_mono_r; lia). lia.
Qed.

(** Shifting right drops the low bits of the mantissa. *)
Lemma shr_1_m (x : shr_record) : 0 <= shr_m x -> shr_m (shr_1 x) = shr_m x / 2.
Proof.
  destruct x as [m r s]. cbn [shr_m]. intros Hm. rewrite <- Z.div2_div.
  destruct m as [|[p|p|]|p]; try reflexivity. lia.
Qed.

Lemma iter_shr_1_m (p : positive) (x : shr_record) :
  0 <= shr_m x -> shr_m (iter_pos shr_1 p x) = shr_m x / 2 ^ Zpos p.
Proof.
  revert x; induction p as [p IH|p IH|]; intros x Hx; cbn [iter_pos].
  - assert (H1 : 0 <= shr_m (shr_1 x)) by (rewrite shr_1_m by exact Hx; apply Z.div_pos; lia).
    assert (H2 : 0 <= shr_m (iter_pos shr_1 p (shr_1 x)))
      by (rewrite IH by exact H1; apply Z.div_pos; [exact H1 | apply Z.pow_pos_nonneg; lia]).
    rewrite IH by exact H2. rewrite IH by exact H1. rewrite shr_1_m by exact Hx.
    assert (Hp : 0 < 2 ^ Zpos p) by (apply Z.pow_pos_nonneg; lia).
    rewrite !Z.div_div by lia. f_equal.
    change (Zpos p~1) with (Z.succ (2 * Zpos p)). rewrite Z.pow_succ_r by lia.
    replace (2 * Zpos p) with (Zpos p + Zpos p) by lia. rewrite Z.pow_add_r by lia. lia.
  - assert (H1 : 0 <= shr_m (iter_pos shr_1 p x))
      by (rewrite IH by exact Hx; apply Z.div_pos; [exact Hx | apply Z.pow_pos_nonneg; lia]).
    rewrite IH by exact H1. rewrite IH by exact Hx.
    assert (Hp : 0 < 2 ^ Zpos p) by (apply Z.pow_pos_nonneg; lia).
    rewrite !Z.div_div by lia. f_equal.
    change (Zpos p~0) with (2 * Zpos p).
    replace (2 * Zpos p) with (Zpos p + Zpos p) by lia. rewrite Z.pow_add_r by lia. lia.
  - rewrite shr_1_m by exact Hx. reflexivity.
Qed.

Lemma round_nearest_even_bounds (m : Z) (l : location) :
  m <= round_nearest_even m l <= m + 1.
Proof.
  destruct l as [|[| |]]; cbn [round_nearest_even]; try lia.
  destruct (Z.even m); lia.
Qed.

(** A mantissa of 53 digits in the range of the exponents is kept. *)
Lemma binary_round_aux_exact (m : positive) (e : Z) :
  Zpos (digits2_pos m) = 53 -> -1074 <= e <= 971 ->
  binary_round_aux prec emax false (Zpos m) e loc_Exact = S754_finite false m e.
Proof.
  intros Hd He. unfold binary_round_aux, shr_fexp, fexp, emin, prec, emax.
  cbn [Zdigits2 shr_record_of_loc]. rewrite Hd.
  replace (Z.max (53 + e - 53) (3 - 1024 - 53) - e) with 0 by lia.
  cbn [shr shr_m loc_of_shr_record round_nearest_even Zdigits2 shr_record_of_loc].
  rewrite Hd. replace (Z.max (53 + e - 53) (3 - 1024 - 53) - e) with 0 by lia.
  cbn [shr shr_m]. destruct (Z.leb_spec e (1024 - 53)); [reflexivity | lia].
Qed.

(** A longer mantissa is shifted right and rounded: the result stands for
    an integer multiple [R] of [2 ^ (e + s)], where [R] is the mantissa
    without its [s] low bits, or that plus one. *)
Lemma binary_round_aux_shifted (m : positive) (e s : Z) :
  Zpos (digits2_pos m) = 53 + s -> 1 <= s -> -1074 <= e + s -> e + s + 1 <= 971 ->
  exists (m' : positive) (e' : Z),
    binary_round_aux prec emax false (Zpos m) e loc_Exact = S754_finite false m' e' /\
    e + s <= e' <= e + s + 1 /\
    Zpos m / 2 ^ s <= Zpos m' * 2 ^ (e' - (e + s)) <= Zpos m / 2 ^ s + 1.
Proof.
  intros Hd Hs Hlo Hhi.
  pose proof (digits2_pos_bounds m) as [Blo Bhi]. rewrite Hd in Blo, Bhi.
  unfold binary_round_aux, shr_fexp, fexp, emin, prec, emax.
  cbn [Zdigits2 shr_record_of_loc]. rewrite Hd.
  replace (Z.max (53 + s + e - 53) (3 - 1024 - 53) - e) with s by lia.
  destruct s as [|ps|ps]; try lia. cbn [shr].
  set (x := iter_pos shr_1 ps {| shr_m := Zpos m; shr_r := false; shr_s := false |}).
  assert (Hx : shr_m x = Zpos m / 2 ^ Zpos ps)
    by (unfold x; rewrite iter_shr_1_m by (cbn; lia); reflexivity).
  set (F := Zpos m / 2 ^ Zpos ps) in *.
  assert (HF : 2 ^ 52 <= F < 2 ^ 53).
  { assert (Hp : 0 < 2 ^ Zpos ps) by (apply Z.pow_pos_nonneg; lia).
    replace (53 + Zpos ps - 1) with (52 + Zpos ps) in Blo by lia.
    rewrite Z.pow_add_r in Blo, Bhi by lia. unfold F. split.
    - apply Z.div_le_lower_bound; lia.
    - apply Z.div_lt_upper_bound; lia. }
  pose proof (round_nearest_even_bounds (shr_m x) (loc_of_shr_record x)) as HR.
  set (R := round_nearest_even (shr_m x) (loc_of_shr_record x)) in *.
  rewrite Hx in HR.
  destruct R as [|r|r] eqn:ER; try lia.
  cbn [Zdigits2 shr_record_of_loc].
  destruct (Z.eq_dec (Zpos r) (2 ^ 53)) as [Htop|Hnot].
  - assert (Hdr : Zpos (digits2_pos r) = 54)
      by (apply digits2_pos_unique; rewrite Htop; change (54 - 1) with 53; split; [lia|];
          apply Z.pow_lt_mono_r; lia).
    rewrite Hdr.
    replace (Z.max (54 + (e + Zpos ps) - 53) (3 - 1024 - 53) - (e + Zpos ps)) with 1 by lia.
    cbn [shr iter_pos]. rewrite shr_1_m by (cbn; lia). cbn [shr_m].
    assert (Hhalf : Zpos r / 2 = 2 ^ 52) by (rewrite Htop; reflexivity).
    rewrite Hhalf. change (2 ^ 52) with (Zpos (2 ^ 52)%positive).
    destruct (Z.leb_spec (e + Zpos ps + 1) (1024 - 53)); [|lia].
    exists (2 ^ 52)%positive, (e + Zpos ps + 1).
    split; [reflexivity|]. split; [lia|].
    replace (e + Zpos ps + 1 - (e + Zpos ps)) with 1 by lia.
    change (Zpos (2 ^ 52) * 2 ^ 1) with (2 ^ 53). lia.
  - assert (Hdr : Zpos (digits2_pos r) = 53)
      by (apply digits2_pos_unique; change (53 - 1) with 52; lia).
    rewrite Hdr.
    replace (Z.max (53 + (e + Zpos ps) - 53) (3 - 1024 - 53) - (e + Zpos ps)) with 0 by lia.
    cbn [shr shr_m].
    destruct (Z.leb_spec (e + Zpos ps) (1024 - 53)); [|lia].
    exists r, (e + Zpos ps).
    split; [reflexivity|]. split; [lia|].
    replace (e + Zpos ps - (e + Zpos ps)) with 0 by lia. rewrite Z.pow_0_r. lia.
Qed.

Lemma pos_iter_xO (p k : positive) : Zpos (Pos.iter xO p k) = Zpos p * 2 ^ Zpos k.
Proof.
  induction k as [|k IH] using Pos.peano_ind.
  - change (Zpos (Pos.iter xO p 1)) with (2 * Zpos p). rewrite Z.pow_1_r. lia.
  - rewrite Pos.iter_succ, Pos2Z.inj_succ, Z.pow_succ_r by lia.
    change (Zpos (Pos.iter xO p k)~0) with (2 * Zpos (Pos.iter xO p k)).
    rewrite IH. lia.
Qed.

(** [(double) m] for an integer of [d <= 53] digits: the mantissa is [m]
    shifted left to 53 digits. *)
Lemma of_int_normal (p : positive) :
  Zpos p < 2 ^ 53 ->
  let d := Zpos (digits2_pos p) in
  exists mz : positive,
    Zpos mz = Zpos p * 2 ^ (53 - d) /\
    Zpos (digits2_pos mz) = 53 /\
    Prim2SF (Binary64.of_int (Zpos p)) = S754_finite false mz (d - 53).
Proof.
  intros Hp d. pose proof (digits2_pos_bounds p) as [Blo Bhi]. fold d in Blo, Bhi.
  assert (Hd : 1 <= d <= 53).
  { split; [unfold d; lia|].
    destruct (Z.le_gt_cases d 53) as [|Hgt]; [assumption|].
    assert (2 ^ 53 <= 2 ^ (d - 1)) by (apply Z.pow_le_mono_r; lia). lia. }
  unfold Binary64.of_int. cbn [binary_normalize]. unfold binary_round.
  unfold fexp, emin, prec, emax. fold d.
  replace (Z.max (d + 0 - 53) (3 - 1024 - 53)) with (d - 53) by lia.
  unfold shl_align. rewrite Z.sub_0_r.
  assert (Hmz : exists mz : positive,
            Zpos mz = Zpos p * 2 ^ (53 - d) /\
            (match d - 53 with
             | Zneg k => (Pos.iter xO p k, d - 53)
             | _ => (p, 0)
             end) = (mz, d - 53)).
  { destruct (d - 53) as [|k|k] eqn:E; try lia.
    - exists p. replace (53 - d) with 0 by lia. rewrite Z.pow_0_r. split; [lia | reflexivity].
    - exists (Pos.iter xO p k). rewrite pos_iter_xO.
      replace (53 - d) with (Zpos k) by lia. split; reflexivity. }
  destruct Hmz as (mz & Hmz & ->).
  assert (Hdz : Zpos (digits2_pos mz) = 53).
  { apply digits2_pos_unique. rewrite Hmz. change (53 - 1) with 52.
    assert (E1 : 2 ^ 52 = 2 ^ (d - 1) * 2 ^ (53 - d))
      by (rewrite <- Z.pow_add_r by lia; f_equal; lia).
    assert (E2 : 2 ^ 53 = 2 ^ d * 2 ^ (53 - d))
      by (rewrite <- Z.pow_add_r by lia; f_equal; lia).
    assert (0 < 2 ^ (53 - d)) by (apply Z.pow_pos_nonneg; lia).
    rewrite E1, E2. split.
    - apply Z.mul_le_mono_nonneg_r; lia.
    - apply Z.mul_lt_mono_pos_r; lia. }
  exists mz. split; [exact Hmz|]. split; [exact Hdz|].
  rewrite binary_round_aux_exact by (try exact Hdz; lia).
  apply Prim2SF_SF2Prim. unfold valid_binary, bounded, canonical_mantissa, fexp, emin.
  rewrite Hdz. unfold prec, emax.
  replace (Z.max (53 + (d - 53) - 53) (3 - 1024 - 53)) with (d - 53) by lia.
  rewrite Z.eqb_refl. apply Z.leb_le. lia.
Qed.

(** The integer part of [(double) m * 0.1] is the integer part of a tenth
    of [m], for every positive [m] below [2 ^ 52]. *)
Lemma mul_tenth_to_int (m : Z) :
  1 <= m < 2 ^ 52 ->
  Binary64.to_int (PrimFloat.mul (Binary64.of_int m) 0.1) = m / 10.
Proof.
  intros Hm. destruct m as [|p|p]; try lia.
  destruct (of_int_normal p) as (mz & Hmz & Hdz & Hof);
    [assert (2 ^ 52 < 2 ^ 53) by reflexivity; lia|].
  cbn zeta in Hmz, Hof.
  pose proof (digits2_pos_bounds p) as [Blo Bhi].
  set (d := Zpos (digits2_pos p)) in *.
  assert (Hd : 1 <= d <= 52).
  { split; [unfold d; lia|].
    destruct (Z.le_gt_cases d 52) as [|Hgt]; [assumption|].
    assert (2 ^ 52 <= 2 ^ (d - 1)) by (apply Z.pow_le_mono_r; lia). lia. }
  unfold Binary64.to_int. rewrite mul_spec, Hof.
  change (Prim2SF 0.1) with (S754_finite false 7205759403792794 (-56)).
  unfold SF64mul. cbn [SFmul xorb].
  pose proof (digits2_pos_bounds mz) as [Mlo Mhi]. rewrite Hdz in Mlo, Mhi.
  change (53 - 1) with 52 in Mlo.
  (* the product has 105 or 106 digits *)
  set (P := (mz * 7205759403792794)%positive).
  assert (HP : Zpos P = Zpos mz * 7205759403792794) by reflexivity.
  pose proof (digits2_pos_bounds P) as [Plo Phi].
  set (dP := Zpos (digits2_pos P)) in *.
  assert (HdP : 105 <= dP <= 106).
  { assert (B1 : 2 ^ 104 <= Zpos P).
    { rewrite HP. change (2 ^ 104) with (2 ^ 52 * 2 ^ 52).
      assert (2 ^ 52 <= 7205759403792794) by (vm_compute; discriminate). nia. }
    assert (B2 : Zpos P < 2 ^ 106).
    { rewrite HP. change (2 ^ 106) with (2 ^ 53 * 2 ^ 53).
      assert (7205759403792794 < 2 ^ 53) by reflexivity. nia. }
    split.
    - destruct (Z.le_gt_cases 105 dP) as [|Hlt]; [assumption|].
      assert (2 ^ dP <= 2 ^ 104) by (apply Z.pow_le_mono_r; lia). lia.
    - destruct (Z.le_gt_cases dP 106) as [|Hgt]; [assumption|].
      assert (2 ^ 106 <= 2 ^ (dP - 1)) by (apply Z.pow_le_mono_r; lia). lia. }
  destruct (binary_round_aux_shifted P (d - 53 + -56) (dP - 53))
    as (m' & e' & -> & He' & HR); [unfold dP; lia | lia | lia | lia |].
  cbn zeta.
  destruct (Z.leb_spec 0 e') as [Hpos|Hneg]; [lia|].
  (* from here on, integers *)
  set (q := Zpos p / 10).
  assert (Hq : 10 * q <= Zpos p <= 10 * q + 9).
  { pose proof (Z.div_mod (Zpos p) 10 ltac:(lia)) as Hdm.
    pose proof (Z.mod_pos_bound (Zpos p) 10 ltac:(lia)) as Hmod. unfold q. lia. }
  set (s := dP - 53) in *.
  set (E := d - 53 + -56 + s) in *.
  set (u := 2 ^ (53 - d)) in *.
  assert (Hu : 2 <= u).
  { unfold u. change 2 with (2 ^ 1) at 1. apply Z.pow_le_mono_r; lia. }
  set (Sh := 2 ^ s) in *.
  assert (HS : 0 < Sh <= 2 ^ 53).
  { unfold Sh. split; [apply Z.pow_pos_nonneg; lia | apply Z.pow_le_mono_r; lia]. }
  set (Th := 2 ^ (- E)).
  assert (HT : 0 < Th) by (unfold Th; apply Z.pow_pos_nonneg; lia).
  assert (HTS : Th * Sh = 2 ^ 56 * u).
  { unfold Th, Sh, u. rewrite <- !Z.pow_add_r by lia. f_equal. lia. }
  set (F := Zpos P / Sh) in *.
  assert (HF : Sh * F <= Zpos P < Sh * F + Sh).
  { pose proof (Z.div_mod (Zpos P) Sh ltac:(lia)) as Hdm.
    pose proof (Z.mod_pos_bound (Zpos P) Sh ltac:(lia)) as Hmod. unfold F. lia. }
  set (a := Zpos mz) in *.
  set (b := q * u).
  assert (Hab : 10 * b <= a <= 10 * b + 9 * u) by (unfold b; rewrite Hmz; nia).
  assert (Ha : a < 2 ^ 53) by exact Mhi.
  assert (H1 : Sh * (q * Th) = b * 2 ^ 56).
  { unfold b. replace (Sh * (q * Th)) with (q * (Th * Sh)) by ring. rewrite HTS. ring. }
  assert (H2 : Sh * ((q + 1) * Th) = (b + u) * 2 ^ 56).
  { unfold b. replace (Sh * ((q + 1) * Th)) with ((q + 1) * (Th * Sh)) by ring.
    rewrite HTS. ring. }
  assert (K : 2 ^ 56 = 72057594037927936) by reflexivity.
  assert (K53 : 2 ^ 53 = 9007199254740992) by reflexivity.
  assert (Lower : q * Th <= F).
  { apply Z.div_le_lower_bound; [lia|]. rewrite H1, HP. lia. }
  assert (Upper : F + 1 < (q + 1) * Th).
  { assert (HX : F < (q + 1) * Th - 1); [|lia].
    apply Z.div_lt_upper_bound; [lia|].
    replace (Sh * ((q + 1) * Th - 1)) with (Sh * ((q + 1) * Th) - Sh) by ring.
    rewrite H2, HP. lia. }
  assert (Hgoal : 2 ^ (- e') * q <= Zpos m' < 2 ^ (- e') * q + 2 ^ (- e')).
  { assert (Hk : e' = E \/ e' = E + 1) by lia.
    destruct Hk as [-> | ->].
    - replace (E - E) with 0 in HR by lia. rewrite Z.pow_0_r in HR. fold Th. lia.
    - replace (E + 1 - E) with 1 in HR by lia. rewrite Z.pow_1_r in HR.
      assert (HT2 : Th = 2 * 2 ^ (- (E + 1))).
      { unfold Th. rewrite <- Z.pow_succ_r by lia. f_equal. lia. }
      set (t := 2 ^ (- (E + 1))) in *. nia. }
  symmetry.
  apply Z.div_unique with (r := Zpos m' - 2 ^ (- e') * q); [left; lia | ring].
Qed.

(** In binary64 the block size is the rule's for every population whose
    matrix has fewer than [2 ^ 52] rows. *)
Lemma block_size_binary64 (N : Z) :
  1 <= N <= 2 ^ 51 ->
  block_size_of (D := binary64) (2 * N - 1) = block_size_rule (2 * N - 1).
Proof.
  intros HN. unfold block_size_of, block_size_rule.
  destruct (Z.leb_spec 100 (2 * N - 1)), (Z.ltb_spec 100 (2 * N - 1)); try lia.
  cbn [d_to_int d_mul d_of_int d_tenth binary64].
  apply mul_tenth_to_int.
  assert (2 ^ 52 = 2 * 2 ^ 51) by reflexivity. lia.
Qed.

End BlockSize.

Section BlocksOfRows.
Context {D : Double}.
Variable sampling : wf_parameters double -> Z -> double.
Variable binomial : Z -> double -> Z -> double.
Variable wf : wf_parameters double.
Variable zero_threshold : double.

Lemma assemble_rows_split (a b start : nat) (A : csr_sparse_matrix double) :
  assemble_rows sampling binomial wf zero_threshold (a + b) start A
  = assemble_rows sampling binomial wf zero_threshold b (start + a)
      (assemble_rows sampling binomial wf zero_threshold a start A).
Proof.
  unfold assemble_rows. revert start A; induction a as [|a IH]; intros start A.
  - cbn. rewrite Nat.add_0_r. reflexivity.
  - cbn [Nat.add for_loop]. rewrite IH. f_equal. lia.
Qed.

(** Whatever the positive block size, the blocks are the rows in order. *)
Lemma assemble_blocks_rows (rounds n block_size start : nat) (A : csr_sparse_matrix double) :
  (1 <= block_size)%nat -> (n - start <= rounds)%nat ->
  assemble_blocks sampling binomial wf zero_threshold rounds n block_size start A
  = assemble_rows sampling binomial wf zero_threshold (n - start) start A.
Proof.
  intros Hbs. revert start A; induction rounds as [|k IH]; intros start A Hr.
  - replace (n - start)%nat with 0%nat by lia. reflexivity.
  - cbn [assemble_blocks]. destruct (Nat.ltb_spec start n) as [Hlt|Hge].
    + cbn zeta. set (count := Nat.min block_size (n - start)).
      rewrite IH by lia. symmetry.
      replace (n - start)%nat with (count + (n - (start + count)))%nat by lia.
      apply assemble_rows_split.
    + replace (n - start)%nat with 0%nat by lia. reflexivity.
Qed.

Lemma wf_matrix_csr_model_rows (block_size : Z) :
  1 <= block_size ->
  wf_matrix_csr_model sampling binomial wf block_size zero_threshold
  = assemble_rows sampling binomial wf zero_threshold
      (Z.to_nat (2 * population_size wf - 1)) 0 csr_empty.
Proof.
  intros Hbs. unfold wf_matrix_csr_model. cbn zeta.
  rewrite assemble_blocks_rows by lia. rewrite Nat.sub_0_r. reflexivity.
Qed.

End BlocksOfRows.

(* ================================================================== *)
(** ** The claims *)

(** C1 (amended).  In every run in which both solves succeed (the run
    returns), entered with the accumulators [time_extinction] and
    [time_fixation] zero and with room for [2N - 1] states in the results:
    the vectors are the clamped solutions of the two solves; when
    [B1[0] > 0], [time_extinction] is the sum of [B1[i] * N[i]] over all
    states divided by [B1[0]]; when [B1[0] <= 0], [probability_extinction] is
    zero and [time_extinction] is not-a-number; and the same for
    [time_fixation], [probability_fixation] and [B2]. *)
Theorem conditional_absorption_times {D : Double} {L : DoubleLaws D}
  (env : environment double) (wf : wf_parameters double) (r0 : wf_statistics double)
  (zero_threshold : double) (r : wf_statistics double) (w : world double (handle env)) :
  wfes env wf r0 zero_threshold world_start = (Returned r, w) ->
  time_extinction r0 = d_zero ->
  time_fixation r0 = d_zero ->
  (Z.to_nat (2 * population_size wf - 1) <= List.length (B2 r0))%nat ->
  vectors_from_solves env wf zero_threshold r /\
  absorption_times r (Z.to_nat (2 * population_size wf - 1)).
Proof.
  intros Hrun Hte Htf Hlen.
  apply wfes_returned in Hrun. destruct Hrun as (_ & _ & _ & _ & -> & _ & _).
  split; [apply final_vectors_from_solves; exact Hlen|].
  destruct (r_final_scalars env wf r0 zero_threshold) as (_ & He1 & He2 & Hf1 & Hf2).
  cbn zeta in *. rewrite Hte in He2. rewrite Htf in Hf2.
  unfold absorption_times, sum_upto. fold (matrix_size wf).
  split; [|split; [|split]].
  - intros H. apply d_lt_zero_not_le in H. apply He2 in H. apply H.
  - intros H. apply He1 in H. destruct H as [Hp Ht]. rewrite Ht.
    split; [exact Hp | apply d_isnan_nan].
  - intros H. apply d_lt_zero_not_le in H. apply Hf2 in H. apply H.
  - intros H. apply Hf1 in H. destruct H as [Hp Ht]. rewrite Ht.
    split; [exact Hp | apply d_isnan_nan].
Qed.

(** The run of the neutral two-individual population in binary64, entered
    with a zeroed results structure: [B1[0]] is the 0.75 the first solve
    left, and both times are the quotients. *)
Lemma conditional_absorption_times_witness :
  let r := r_final (D := binary64) Example.env_neutral2 Example.wf2
             (Example.statistics_zero 3) 1e-30%float in
  get (D := binary64) (B1 r) 0 = 0.75%float /\
  absorption_times (D := binary64) r 3.
Proof.
  cbn zeta.
  destruct (conditional_absorption_times (D := binary64) (L := binary64_laws)
              Example.env_neutral2 Example.wf2 (Example.statistics_zero 3) 1e-30%float
              (r_final (D := binary64) Example.env_neutral2 Example.wf2
                 (Example.statistics_zero 3) 1e-30%float)
              (snd (wfes (D := binary64) Example.env_neutral2 Example.wf2
                      (Example.statistics_zero 3) 1e-30%float world_start)))
    as [Hv Ht];
    [vm_compute; reflexivity | reflexivity | reflexivity | vm_compute; lia |].
  split; [|exact Ht].
  destruct (Hv 0%nat) as (H1 & _); [vm_compute; lia|].
  rewrite H1. vm_compute. reflexivity.
Defined.

(** C1 as stated fails: the same run entered with [time_extinction = 5],
    [time_fixation = 7] and [count_before_extinction = 3] returns, both
    solves having succeeded, with [B1[0] = 0.75 > 0] and a
    [time_extinction] that is not the quotient (9.66 against 2.99). *)
Lemma entry_values_shift_the_times :
  exists r w,
    wfes (D := binary64) Example.env_neutral2 Example.wf2
      (Example.statistics_holding (D := binary64) 3 5%float 7%float 3%float)
      1e-30%float world_start
    = (Returned r, w) /\
    get (D := binary64) (B1 r) 0 = 0.75%float /\
    ~ absorption_times (D := binary64) r 3.
Proof.
  eexists. eexists. split; [vm_compute; reflexivity|].
  split; [reflexivity|].
  intros (H & _).
  assert (Hpos : PrimFloat.ltb 0%float 0.75%float = true) by reflexivity.
  specialize (H Hpos).
  apply (f_equal (fun x => PrimFloat.ltb 9%float x)) in H.
  vm_compute in H. discriminate H.
Qed.




(** C3.  Whatever the solver does, every forward solve of a run (a call
    under phase 33 with [iparm[11] = 0]) is given a right-hand side whose
    entry [i], for [0 <= i < 2N - 1], is [pow(1 - q_i, 2N)], where [q_i] is the
    sampling coefficient of [i + 1] copies. *)
Theorem extinction_rhs_passed_to_forward_solve {D : Double}
  (env : environment double) (wf : wf_parameters double) (r0 : wf_statistics double)
  (zero_threshold : double) (out : outcome (wf_statistics double))
  (w : world double (handle env)) (e : pardiso_event double (handle env)) (i : Z) :
  wfes env wf r0 zero_threshold world_start = (out, w) ->
  In e (w_calls w) ->
  c_phase (ev_call e) = 33 ->
  mode (ev_call e) = 0 ->
  0 <= i < 2 * population_size wf - 1 ->
  exists rhs,
    c_b (ev_call e) = Some rhs /\
    get rhs (Z.to_nat i)
    = pow env (d_sub d_one (wf_sampling_coefficient env wf (i + 1)))
        (d_of_int (2 * population_size wf)).
Proof.
  intros Hrun Hin Hphase Hmode Hi.
  assert (Hfwd : e = forward_event env wf zero_threshold).
  { rewrite wfes_run in Hrun. unfold wfes_stages in Hrun.
    repeat match type of Hrun with
           | (if ?c then _ else _) = _ => destruct c
           end;
      inversion Hrun; subst; clear Hrun; cbn [w_calls In] in Hin;
      repeat match type of Hin with
             | _ \/ _ => destruct Hin as [Hin|Hin]
             | False => contradiction
             end; subst e; try reflexivity; try discriminate Hphase.
    all: rewrite mode_transpose in Hmode; discriminate Hmode. }
  subst e. exists (rhs_extinction env wf). split; [reflexivity|].
  rewrite rhs_extinction_vector. unfold extinction_vector, get.
  set (f := fun i0 : nat => pow env _ _).
  assert (Hlt : (Z.to_nat i < Z.to_nat (2 * population_size wf - 1))%nat) by lia.
  rewrite (nth_indep _ d_zero (f 0%nat)) by (rewrite length_map, length_seq; exact Hlt).
  rewrite map_nth, seq_nth by exact Hlt.
  unfold f. cbn [Nat.add]. rewrite Z2Nat.id by lia. reflexivity.
Qed.

(** In the run of the neutral two-individual population the third call is
    the forward solve, and entry 1 of its right-hand side is
    [pow(1 - q_1, 4)]. *)
Lemma extinction_rhs_passed_to_forward_solve_witness :
  exists rhs,
    c_b (ev_call (forward_event (D := binary64) Example.env_neutral2 Example.wf2
                    1e-30%float)) = Some rhs /\
    get rhs 1
    = Example.pow_int
        (d_sub d_one (Example.neutral (D := binary64) Example.wf2 2))
        (d_of_int 4).
Proof.
  apply (extinction_rhs_passed_to_forward_solve (D := binary64)
           Example.env_neutral2 Example.wf2 (Example.statistics_zero 3) 1e-30%float
           (fst (wfes (D := binary64) Example.env_neutral2 Example.wf2
                   (Example.statistics_zero 3) 1e-30%float world_start))
           (snd (wfes (D := binary64) Example.env_neutral2 Example.wf2
                   (Example.statistics_zero 3) 1e-30%float world_start))
           (forward_event (D := binary64) Example.env_neutral2 Example.wf2 1e-30%float)
           1).
  - apply surjective_pairing.
  - right; right; left. vm_compute; reflexivity.
  - reflexivity.
  - vm_compute; reflexivity.
  - cbn; lia.
Defined.

(** C4 (amended).  A run that returns has invoked Release exactly once, as
    its last solver call and on the handle the second solve left; a run that
    leaves through [exit] has not invoked Release at all. *)
Theorem release_on_success_only {D : Double}
  (env : environment double) (wf : wf_parameters double) (r0 : wf_statistics double)
  (zero_threshold : double) (out : outcome (wf_statistics double))
  (w : world double (handle env)) :
  wfes env wf r0 zero_threshold world_start = (out, w) ->
  match out with
  | Returned _ =>
      released_once w /\
      exists earlier transpose release,
        w_calls w = earlier ++ [transpose; release] /\
        c_phase (ev_call release) = -1 /\
        ev_pt release = r_pt (ev_ret transpose)
  | Exited _ => invocations (-1) w = 0%nat
  end.
Proof.
  rewrite wfes_run. unfold wfes_stages.
  repeat match goal with
         | |- (if ?c then _ else _) = _ -> _ => destruct c
         end;
    intros H; inversion H; subst; clear H; try reflexivity.
  split; [reflexivity|].
  exists [analyze_event env wf zero_threshold; factorize_event env wf zero_threshold;
          forward_event env wf zero_threshold],
         (transpose_event env wf zero_threshold),
         (release_event env wf zero_threshold).
  repeat split; reflexivity.
Qed.

(** The neutral two-individual run, which returns, and the same run on a
    solver whose first solve reports -4, which exits with 33. *)
Lemma release_on_success_only_witness :
  released_once
    (snd (wfes (D := binary64) Example.env_neutral2 Example.wf2
            (Example.statistics_zero 3) 1e-30%float world_start)) /\
  invocations (-1)
    (snd (wfes (D := binary64) (Example.env_failing 2 (-4)) Example.wf2
            (Example.statistics_zero 3) 1e-30%float world_start)) = 0%nat.
Proof.
  split.
  - apply (release_on_success_only (D := binary64)
             Example.env_neutral2 Example.wf2 (Example.statistics_zero 3) 1e-30%float
             (Returned (r_final (D := binary64) Example.env_neutral2 Example.wf2
                          (Example.statistics_zero 3) 1e-30%float))).
    vm_compute; reflexivity.
  - apply (release_on_success_only (D := binary64)
             (Example.env_failing 2 (-4)) Example.wf2 (Example.statistics_zero 3)
             1e-30%float (Exited 33)).
    vm_compute; reflexivity.
Defined.

(** C4 as stated fails: when the factorization reports an error the run
    leaves through [exit(22)] and Release is never invoked. *)
Lemma release_skipped_on_abort :
  ~ released_once
      (snd (wfes (D := binary64) (Example.env_failing 1 (-4)) Example.wf2
              (Example.statistics_zero 3) 1e-30%float world_start)).
Proof.
  unfold released_once. intros H. vm_compute in H. discriminate H.
Qed.

Section ExactValues.
#[local] Existing Instance exact.


End ExactValues.




Section ExactUnit.
#[local] Existing Instance exact.



End ExactUnit.


Section Binary64Values.
#[local] Existing Instance binary64.

(** C7 (the defect).  In binary64, a forward solve that returns
    [-2^-60, 2^-60, 0] with the sojourn times [1, 1/2, 1/4]: [B1[0]] is clamped
    to zero and [time_extinction] is not-a-number, but
    [count_before_extinction] is [2^-60 / 0], which is infinity and not
    not-a-number. *)
Lemma count_before_extinction_not_guarded :
  exists r w,
    wfes (D := binary64) Example.env_undershoot Example.wf2
      (Example.statistics_zero 3) 1e-30%float world_start = (Returned r, w) /\
    d_le (get (B1 r) 0) d_zero = true /\
    d_isnan (time_extinction r) = true /\
    d_isnan (count_before_extinction r) = false /\
    count_before_extinction r = infinity.
Proof.
  eexists. eexists. split; [vm_compute; reflexivity|].
  repeat split; reflexivity.
Qed.

End Binary64Values.

(** Every run calls the solver, and always on the matrix assembled with
    the block size of lines 58-63. *)
Lemma wfes_given_matrix {D : Double}
  (env : environment double) (wf : wf_parameters double) (r0 : wf_statistics double)
  (zero_threshold : double) (out : outcome (wf_statistics double))
  (w : world double (handle env)) :
  wfes env wf r0 zero_threshold world_start = (out, w) ->
  solver_given_matrix
    (wf_matrix_csr env wf (block_size_of (2 * population_size wf - 1)) zero_threshold) w.
Proof.
  rewrite wfes_run. unfold wfes_stages.
  repeat match goal with
         | |- (if ?c then _ else _) = _ -> _ => destruct c
         end;
    intros H; inversion H; subst; clear H;
    (split; [discriminate|]); cbn [w_calls In]; intros e He;
    repeat match type of He with
           | _ \/ _ => destruct He as [He|He]
           | False => contradiction
           end; subst e;
    (split; [reflexivity|]); (split; [reflexivity|]); intros Hp;
    try reflexivity; exfalso; apply Hp; reflexivity.
Qed.

(** C8.  The block size [wfes] computes for the [2N - 1] rows of the matrix
    is the integer part of 10% of [2N - 1] once [2N - 1] exceeds 100 and
    [2N - 1] otherwise: in binary64 for every [N] up to [2^51] (a matrix of
    fewer than [2^52] rows), in exact arithmetic for every [N].  Every run
    calls the solver, and every call is given the matrix [wf_matrix_csr]
    returns for that block size.  The block size reaches a run through that
    matrix only: for every builder, a run with another block size for which
    the builder returns the same matrix is the same run.  A matrix builder
    that processes the rows in blocks, as the specification describes it,
    returns the same matrix for every positive block size. *)
Theorem block_size_rule_and_independence :
  (forall N : Z, 1 <= N <= 2 ^ 51 ->
     block_size_of (D := binary64) (2 * N - 1) = block_size_rule (2 * N - 1)) /\
  (forall N : Z, block_size_of (D := exact) (2 * N - 1) = block_size_rule (2 * N - 1)) /\
  (forall (env : environment (@double binary64)) (wf : wf_parameters (@double binary64))
          (r0 : wf_statistics (@double binary64)) (zero_threshold : @double binary64)
          (out : outcome (wf_statistics (@double binary64)))
          (w : world (@double binary64) (handle env)),
     1 <= population_size wf <= 2 ^ 51 ->
     wfes (D := binary64) env wf r0 zero_threshold world_start = (out, w) ->
     solver_given_matrix
       (wf_matrix_csr env wf (block_size_rule (2 * population_size wf - 1))
          zero_threshold) w) /\
  (forall (env : environment (@double exact)) (wf : wf_parameters (@double exact))
          (r0 : wf_statistics (@double exact)) (zero_threshold : @double exact)
          (out : outcome (wf_statistics (@double exact)))
          (w : world (@double exact) (handle env)),
     wfes (D := exact) env wf r0 zero_threshold world_start = (out, w) ->
     solver_given_matrix
       (wf_matrix_csr env wf (block_size_rule (2 * population_size wf - 1))
          zero_threshold) w) /\
  (forall (D : Double) (env : environment double) (wf : wf_parameters double)
          (r0 : wf_statistics double) (zero_threshold : double) (block_size : Z),
     wf_matrix_csr env wf block_size zero_threshold
     = wf_matrix_csr env wf (block_size_of (2 * population_size wf - 1)) zero_threshold ->
     wfes (with_block_size block_size env) wf r0 zero_threshold world_start
     = wfes env wf r0 zero_threshold world_start) /\
  (forall (D : Double) (sampling : wf_parameters double -> Z -> double)
          (binomial : Z -> double -> Z -> double) (wf : wf_parameters double)
          (zero_threshold : double) (block_size block_size' : Z),
     1 <= block_size -> 1 <= block_size' ->
     wf_matrix_csr_model sampling binomial wf block_size zero_threshold
     = wf_matrix_csr_model sampling binomial wf block_size' zero_threshold).
Proof.
  split; [exact block_size_binary64|]. split; [exact block_size_exact|].
  split; [|split; [|split]].
  - intros env wf r0 zero_threshold out w HN Hrun.
    rewrite <- (block_size_binary64 _ HN).
    exact (wfes_given_matrix env wf r0 zero_threshold out w Hrun).
  - intros env wf r0 zero_threshold out w Hrun.
    rewrite <- block_size_exact.
    exact (wfes_given_matrix env wf r0 zero_threshold out w Hrun).
  - intros D env wf r0 zero_threshold bs Hsame.
    unfold wfes, with_block_size.
    cbn [handle pt_zero pardiso_64 pow wf_sampling_coefficient wf_matrix_csr uninitialised].
    rewrite Hsame. reflexivity.
  - intros D sampling binomial wf zero_threshold bs bs' H H'.
    rewrite !wf_matrix_csr_model_rows by assumption. reflexivity.
Qed.

(** A population of 500000 individuals, the largest [main] admits without
    [--force], has a matrix of 999999 rows assembled in blocks of 99999; the
    solver calls of the neutral two-individual run are given the matrix
    built with blocks of 3 rows; and that run is the same with blocks of one
    row. *)
Lemma block_size_rule_and_independence_witness :
  block_size_of (D := binary64) (2 * 500000 - 1) = 99999 /\
  solver_given_matrix
    (wf_matrix_csr (Example.env_neutral2 (D := binary64)) Example.wf2 3 1e-30%float)
    (snd (wfes (D := binary64) Example.env_neutral2 Example.wf2
            (Example.statistics_zero 3) 1e-30%float world_start)) /\
  wfes (D := binary64) (with_block_size 1 Example.env_neutral2) Example.wf2
    (Example.statistics_zero 3) 1e-30%float world_start
  = wfes (D := binary64) Example.env_neutral2 Example.wf2
      (Example.statistics_zero 3) 1e-30%float world_start.
Proof.
  destruct block_size_rule_and_independence as (H1 & _ & H3 & _ & H5 & H6).
  split; [|split].
  - rewrite (H1 500000) by (split; [lia | apply Z.leb_le; reflexivity]). reflexivity.
  - apply (H3 Example.env_neutral2 Example.wf2 (Example.statistics_zero 3) 1e-30%float
             (fst (wfes (D := binary64) Example.env_neutral2 Example.wf2
                     (Example.statistics_zero 3) 1e-30%float world_start))).
    + split; [cbn; lia | apply Z.leb_le; reflexivity].
    + apply surjective_pairing.
  - apply (H5 binary64 Example.env_neutral2).
    apply (H6 binary64 Example.neutral Example.binomial_pmf); [lia|].
    apply Z.leb_le. vm_compute. reflexivity.
Defined.



Section ExactOffsets.
#[local] Existing Instance exact.

(** In exact arithmetic, with finite entries, each statistic is the
    quotient the specification documents plus the value found at entry
    divided by the same divisor. *)
Lemma exact_accumulators_offset
  (env : environment double) (wf : wf_parameters double) (r0 : wf_statistics double)
  (zero_threshold : double) (r : wf_statistics double) (w : world double (handle env)) :
  wfes env wf r0 zero_threshold world_start = (Returned r, w) ->
  let n := Z.to_nat (2 * population_size wf - 1) in
  (forall i, (i < n)%nat ->
     Exact.is_finite (get (B1 r) i) = true /\
     Exact.is_finite (get (B2 r) i) = true /\
     Exact.is_finite (get (N r) i) = true) ->
  Exact.is_finite (time_extinction r0) = true ->
  Exact.is_finite (time_fixation r0) = true ->
  Exact.is_finite (count_before_extinction r0) = true ->
  Exact.is_finite (get (B1 r) 0) = true ->
  Exact.is_finite (get (B2 r) 0) = true ->
  (d_lt d_zero (get (B1 r) 0) = true ->
     offset_by (time_extinction r)
       (d_div (sum_upto n (extinction_term r)) (get (B1 r) 0))
       (time_extinction r0) (get (B1 r) 0) /\
     offset_by (count_before_extinction r)
       (d_div (sum_upto n (count_term r)) (get (B1 r) 0))
       (count_before_extinction r0) (get (B1 r) 0)) /\
  (d_lt d_zero (get (B2 r) 0) = true ->
     offset_by (time_fixation r)
       (d_div (sum_upto n (fixation_term r)) (get (B2 r) 0))
       (time_fixation r0) (get (B2 r) 0)).
Proof.
  intros Hrun n Hfin Hte Htf Hc Hb1 Hb2.
  apply wfes_returned in Hrun. destruct Hrun as (_ & _ & _ & _ & -> & _ & _).
  destruct (r_final_scalars env wf r0 zero_threshold) as (Sc & _ & Se & _ & Sf).
  cbn zeta in Sc, Se, Sf. fold (matrix_size wf) in n. fold n in Sc, Se, Sf.
  set (r := r_final env wf r0 zero_threshold) in *.
  assert (Fe : forall i, (i < n)%nat -> Exact.is_finite (extinction_term r i) = true).
  { intros i Hi. destruct (Hfin i Hi) as (F1 & _ & F3). unfold extinction_term.
    apply exact_finite in F1, F3. rewrite F1, F3. reflexivity. }
  assert (Ff : forall i, (i < n)%nat -> Exact.is_finite (fixation_term r i) = true).
  { intros i Hi. destruct (Hfin i Hi) as (_ & F2 & F3). unfold fixation_term.
    apply exact_finite in F2, F3. rewrite F2, F3. reflexivity. }
  assert (Fc : forall i, (i < n)%nat -> Exact.is_finite (count_term r i) = true).
  { intros i Hi. destruct (Hfin i Hi) as (F1 & _ & F3). unfold count_term.
    apply exact_finite in F1, F3. rewrite F1, F3. reflexivity. }
  split.
  - intros Hpos. pose proof (d_lt_zero_not_le (DoubleLaws := exact_laws) _ Hpos) as Hg.
    destruct (Se Hg) as [_ Ste]. rewrite Ste, Sc.
    split; apply exact_offset; assumption.
  - intros Hpos. pose proof (d_lt_zero_not_le (DoubleLaws := exact_laws) _ Hpos) as Hg.
    destruct (Sf Hg) as [_ Stf]. rewrite Stf.
    apply exact_offset; assumption.
Qed.

End ExactOffsets.

(** C10 (amended).  [wfes] does not reset the three accumulators: each sum
    is continued from the value the field holds at entry.  At the end of
    every run that returns, on a results structure with room for [2N - 1]
    states, in binary64 as in exact arithmetic: the vectors are the clamped
    solutions of the two solves, [count_before_extinction] is the sum of
    [N[i] * B1[i] * (i + 1)] started from its value at entry and divided by
    [B1[0]], and [time_extinction] (when [B1[0] > 0]) and [time_fixation]
    (when [B2[0] > 0]) are the sums started from their values at entry and
    divided by [B1[0]] and [B2[0]].  In exact arithmetic, with finite
    entries, each statistic is the documented quotient plus the value at
    entry divided by the divisor, and is the documented quotient only if
    that value was zero; in binary64 this holds only up to rounding, and a
    small enough value at entry is absorbed. *)
Theorem accumulators_offset_by_entry_values :
  (forall (D : Double) (L : DoubleLaws D)
          (env : environment double) (wf : wf_parameters double)
          (r0 : wf_statistics double) (zero_threshold : double)
          (r : wf_statistics double) (w : world double (handle env)),
     wfes env wf r0 zero_threshold world_start = (Returned r, w) ->
     (Z.to_nat (2 * population_size wf - 1) <= List.length (B2 r0))%nat ->
     vectors_from_solves env wf zero_threshold r /\
     sums_continued r0 r (Z.to_nat (2 * population_size wf - 1))) /\
  (forall (env : environment (@double exact)) (wf : wf_parameters (@double exact))
          (r0 : wf_statistics (@double exact)) (zero_threshold : @double exact)
          (r : wf_statistics (@double exact)) (w : world (@double exact) (handle env)),
     wfes (D := exact) env wf r0 zero_threshold world_start = (Returned r, w) ->
     let n := Z.to_nat (2 * population_size wf - 1) in
     (forall i, (i < n)%nat ->
        Exact.is_finite (get (D := exact) (B1 r) i) = true /\
        Exact.is_finite (get (D := exact) (B2 r) i) = true /\
        Exact.is_finite (get (D := exact) (N r) i) = true) ->
     Exact.is_finite (time_extinction r0) = true ->
     Exact.is_finite (time_fixation r0) = true ->
     Exact.is_finite (count_before_extinction r0) = true ->
     Exact.is_finite (get (D := exact) (B1 r) 0) = true ->
     Exact.is_finite (get (D := exact) (B2 r) 0) = true ->
     (Exact.ltb (Exact.Fin 0) (get (D := exact) (B1 r) 0) = true ->
        offset_by (D := exact) (time_extinction r)
          (Exact.div (sum_upto (D := exact) n (extinction_term r)) (get (D := exact) (B1 r) 0))
          (time_extinction r0) (get (D := exact) (B1 r) 0) /\
        offset_by (D := exact) (count_before_extinction r)
          (Exact.div (sum_upto (D := exact) n (count_term r)) (get (D := exact) (B1 r) 0))
          (count_before_extinction r0) (get (D := exact) (B1 r) 0)) /\
     (Exact.ltb (Exact.Fin 0) (get (D := exact) (B2 r) 0) = true ->
        offset_by (D := exact) (time_fixation r)
          (Exact.div (sum_upto (D := exact) n (fixation_term r)) (get (D := exact) (B2 r) 0))
          (time_fixation r0) (get (D := exact) (B2 r) 0))).
Proof.
  split.
  - intros D L env wf r0 zero_threshold r w Hrun Hlen.
    apply wfes_returned in Hrun. destruct Hrun as (_ & _ & _ & _ & -> & _ & _).
    split; [apply final_vectors_from_solves; exact Hlen|].
    destruct (r_final_scalars env wf r0 zero_threshold) as (Sc & _ & Se & _ & Sf).
    cbn zeta in Sc, Se, Sf. unfold sums_continued. fold (matrix_size wf).
    split; [exact Sc|]. split.
    + intros H. apply d_lt_zero_not_le in H. apply Se in H. apply H.
    + intros H. apply d_lt_zero_not_le in H. apply Sf in H. apply H.
  - intros env wf r0 zero_threshold r w Hrun.
    exact (exact_accumulators_offset env wf r0 zero_threshold r w Hrun).
Qed.

(** The neutral two-individual run entered with [time_extinction = 5],
    [time_fixation = 7] and [count_before_extinction = 3]: in binary64 the
    sums are continued from these values; in exact arithmetic the times are
    offset by 5 / B1[0] and 7 / B2[0]. *)
Lemma accumulators_offset_by_entry_values_witness :
  (let r0 := Example.statistics_holding (D := binary64) 3 5%float 7%float 3%float in
   let r := r_final (D := binary64) Example.env_neutral2 Example.wf2 r0 1e-30%float in
   sums_continued (D := binary64) r0 r 3) /\
  (let r0 := Example.statistics_holding (D := exact) 3
               (Exact.Fin 5) (Exact.Fin 7) (Exact.Fin 3) in
   let r := r_final (D := exact) Example.env_neutral2 Example.wf2 r0
              (Exact.Fin (1 # 1000000)) in
   offset_by (D := exact) (time_extinction r)
     (Exact.div (sum_upto (D := exact) 3 (extinction_term r)) (get (D := exact) (B1 r) 0))
     (Exact.Fin 5) (get (D := exact) (B1 r) 0) /\
   offset_by (D := exact) (time_fixation r)
     (Exact.div (sum_upto (D := exact) 3 (fixation_term r)) (get (D := exact) (B2 r) 0))
     (Exact.Fin 7) (get (D := exact) (B2 r) 0)).
Proof.
  destruct accumulators_offset_by_entry_values as [Hg Hx].
  split; cbn zeta.
  - apply (Hg binary64 binary64_laws Example.env_neutral2 Example.wf2
             (Example.statistics_holding (D := binary64) 3 5%float 7%float 3%float)
             1e-30%float
             (r_final (D := binary64) Example.env_neutral2 Example.wf2
                (Example.statistics_holding (D := binary64) 3 5%float 7%float 3%float)
                1e-30%float)
             (snd (wfes (D := binary64) Example.env_neutral2 Example.wf2
                     (Example.statistics_holding (D := binary64) 3 5%float 7%float 3%float)
                     1e-30%float world_start)));
      [vm_compute; reflexivity | vm_compute; lia].
  - destruct (Hx Example.env_neutral2 Example.wf2
                (Example.statistics_holding (D := exact) 3
                   (Exact.Fin 5) (Exact.Fin 7) (Exact.Fin 3))
                (Exact.Fin (1 # 1000000))
                (r_final (D := exact) Example.env_neutral2 Example.wf2
                   (Example.statistics_holding (D := exact) 3
                      (Exact.Fin 5) (Exact.Fin 7) (Exact.Fin 3))
                   (Exact.Fin (1 # 1000000)))
                (snd (wfes (D := exact) Example.env_neutral2 Example.wf2
                        (Example.statistics_holding (D := exact) 3
                           (Exact.Fin 5) (Exact.Fin 7) (Exact.Fin 3))
                        (Exact.Fin (1 # 1000000)) world_start)))
      as [H1 H2]; try (vm_compute; reflexivity).
    + intros [|[|[|i]]] Hi; [repeat split; vm_compute; reflexivity ..|].
      exfalso. revert Hi. vm_compute. lia.
    + split; [apply H1 | apply H2]; vm_compute; reflexivity.
Defined.

(** C10 as stated fails in binary64.  Entered with [1e-300] in the three
    accumulators, the neutral two-individual run returns the five scalars of
    the run entered with zeros, bit for bit: the value at entry is not zero
    and the statistics are not offset.  Entered with 5, 7 and 3,
    [time_extinction] is not the documented quotient plus [5 / B1[0]]: the
    two differ in the last place. *)
Lemma entry_values_absorbed_or_rounded :
  (exists r w,
     wfes (D := binary64) Example.env_neutral2 Example.wf2
       (Example.statistics_holding (D := binary64) 3 1e-300%float 1e-300%float 1e-300%float)
       1e-30%float world_start = (Returned r, w) /\
     scalars r
     = scalars (r_final (D := binary64) Example.env_neutral2 Example.wf2
                  (Example.statistics_zero 3) 1e-30%float) /\
     ~ offset_by (D := binary64) (time_extinction r)
         (PrimFloat.div (sum_upto (D := binary64) 3 (extinction_term r))
            (get (D := binary64) (B1 r) 0))
         1e-300%float (get (D := binary64) (B1 r) 0)) /\
  (exists r w,
     wfes (D := binary64) Example.env_neutral2 Example.wf2
       (Example.statistics_holding (D := binary64) 3 5%float 7%float 3%float)
       1e-30%float world_start = (Returned r, w) /\
     ~ offset_by (D := binary64) (time_extinction r)
         (PrimFloat.div (sum_upto (D := binary64) 3 (extinction_term r))
            (get (D := binary64) (B1 r) 0))
         5%float (get (D := binary64) (B1 r) 0)).
Proof.
  split.
  - eexists. eexists. split; [vm_compute; reflexivity|].
    split; [vm_compute; reflexivity|].
    intros [_ H].
    assert (Hne : PrimFloat.eqb 1e-300%float 0%float = false) by reflexivity.
    specialize (H Hne). vm_compute in H. discriminate H.
  - eexists. eexists. split; [vm_compute; reflexivity|].
    intros [H _]. vm_compute in H. discriminate H.
Qed.



(* ================================================================== *)
(** ** Further properties of [wfes] *)

Lemma binary64_order : DoubleOrder binary64.
Proof.
  split; cbn [d_lt d_le d_zero binary64].
  - intros x. rewrite ltb_spec, leb_spec. unfold SFltb, SFleb.
    destruct (SFcompare (Prim2SF x) (Prim2SF 0)) as [[| |]|]; congruence.
  - reflexivity.
  - intros x. cbn [d_nan binary64]. rewrite ltb_spec.
    change (Prim2SF nan) with S754_nan. unfold SFltb.
    destruct (Prim2SF x) as [s|s| |s m e]; reflexivity.
Qed.

Lemma exact_order : DoubleOrder exact.
Proof.
  split; cbn [d_lt d_le d_zero exact].
  - intros [q|s|]; simpl; try reflexivity.
    + intros H. unfold Exact.Qltb. apply negb_false_iff.
      apply Qle_bool_iff. destruct (Qlt_le_dec 0 q) as [Hlt|Hle].
      * apply Qlt_le_weak. exact Hlt.
      * apply Qle_bool_iff in Hle. congruence.
    + destruct s; simpl; congruence.
  - reflexivity.
  - intros [q|s|]; reflexivity.
Qed.

(** X1.  Whatever the solver reports, the calls of a run are an initial
    segment of Analyze, Factorize, Solve, Solve, Release: between one and
    five calls, each on the handle the call before it left, each given the
    dimension and the index arrays of the assembled matrix, and every call
    but the last reported status 0. *)
Theorem calls_form_initial_segment {D : Double}
  (env : environment double) (wf : wf_parameters double) (r0 : wf_statistics double)
  (zero_threshold : double) (out : outcome (wf_statistics double))
  (w : world double (handle env)) :
  wfes env wf r0 zero_threshold world_start = (out, w) ->
  let A := wf_matrix_csr env wf (block_size_of (2 * population_size wf - 1)) zero_threshold in
  (1 <= List.length (w_calls w) <= 5)%nat /\
  phases w = firstn (List.length (w_calls w)) phase_order /\
  chained (pt_zero env) (w_calls w) /\
  Forall (fun e => ev_error e = 0) (all_but_last (w_calls w)) /\
  Forall (fun e => c_n (ev_call e) = 2 * population_size wf - 1 /\
                   c_ia (ev_call e) = row_index A /\
                   c_ja (ev_call e) = cols A) (w_calls w).
Proof.
  rewrite wfes_run. unfold wfes_stages.
  destruct (Z.eqb_spec (ev_error (analyze_event env wf zero_threshold)) 0) as [E1|E1];
    cbn [negb].
  2: { intros H; inversion H; subst; clear H. cbn.
       repeat split; try lia; repeat constructor. }
  destruct (Z.eqb_spec (ev_error (factorize_event env wf zero_threshold)) 0) as [E2|E2];
    cbn [negb].
  2: { intros H; inversion H; subst; clear H. cbn.
       repeat split; try lia; repeat constructor; assumption. }
  destruct (Z.eqb_spec (ev_error (forward_event env wf zero_threshold)) 0) as [E3|E3];
    cbn [negb].
  2: { intros H; inversion H; subst; clear H. cbn.
       repeat split; try lia; repeat constructor; assumption. }
  destruct (Z.eqb_spec (ev_error (transpose_event env wf zero_threshold)) 0) as [E4|E4];
    cbn [negb].
  2: { intros H; inversion H; subst; clear H. cbn.
       repeat split; try lia; repeat constructor; assumption. }
  intros H; inversion H; subst; clear H. cbn.
  repeat split; try lia; repeat constructor; assumption.
Qed.

(** The two-individual run on a solver whose second solve reports -4: four
    calls, under the phases 11, 22, 33, 33. *)
Lemma calls_form_initial_segment_witness :
  phases (snd (wfes (D := binary64) (Example.env_failing 3 (-4)) Example.wf2
                 (Example.statistics_zero 3) 1e-30%float world_start))
  = firstn 4 phase_order.
Proof.
  apply (calls_form_initial_segment (D := binary64)
           (Example.env_failing 3 (-4)) Example.wf2 (Example.statistics_zero 3)
           1e-30%float (Exited 33)).
  vm_compute; reflexivity.
Defined.

(** X2.  For a population of at least one individual, a run returns
    exactly when Analyze, Factorize and the two solves report status 0; the
    status Release reports is not examined.  (For [population_size <= 0] the
    size handed to [memcpy] after a successful first solve is negative, and
    the behaviour of the program is undefined.) *)
Theorem returns_iff_four_statuses_zero {D : Double}
  (env : environment double) (wf : wf_parameters double) (r0 : wf_statistics double)
  (zero_threshold : double) :
  1 <= population_size wf ->
  ((exists r w, wfes env wf r0 zero_threshold world_start = (Returned r, w)) <->
   (ev_error (analyze_event env wf zero_threshold) = 0 /\
    ev_error (factorize_event env wf zero_threshold) = 0 /\
    ev_error (forward_event env wf zero_threshold) = 0 /\
    ev_error (transpose_event env wf zero_threshold) = 0)).
Proof.
  intros _. split.
  - intros (r & w & Hrun). apply wfes_returned in Hrun.
    destruct Hrun as (H1 & H2 & H3 & H4 & _). repeat split; assumption.
  - intros (H1 & H2 & H3 & H4).
    destruct (wfes_returns env wf r0 zero_threshold H1 H2 H3 H4) as [w Hw].
    eexists. exists w. exact Hw.
Qed.

(** The two-individual run on a solver whose Release reports -1 returns. *)
Lemma returns_iff_four_statuses_zero_witness :
  ev_error (release_event (D := binary64) (env_release_failing (-1)) Example.wf2 1e-30%float)
  = -1 /\
  exists r w,
    wfes (D := binary64) (env_release_failing (-1)) Example.wf2
      (Example.statistics_zero 3) 1e-30%float world_start = (Returned r, w).
Proof.
  split; [vm_compute; reflexivity|].
  apply (proj2 (returns_iff_four_statuses_zero (D := binary64)
                  (env_release_failing (-1)) Example.wf2 (Example.statistics_zero 3)
                  1e-30%float ltac:(cbn; lia))).
  repeat split; vm_compute; reflexivity.
Defined.

(** X3.  Whatever the first solve left in the buffer, every transpose solve
    of a run (a call under phase 33 with [iparm[11] = 2]) is given the unit
    vector of length [2N - 1]. *)
Theorem unit_rhs_passed_to_transpose_solve {D : Double}
  (env : environment double) (wf : wf_parameters double) (r0 : wf_statistics double)
  (zero_threshold : double) (out : outcome (wf_statistics double))
  (w : world double (handle env)) (e : pardiso_event double (handle env)) :
  wfes env wf r0 zero_threshold world_start = (out, w) ->
  In e (w_calls w) ->
  c_phase (ev_call e) = 33 ->
  mode (ev_call e) = 2 ->
  c_b (ev_call e) = Some (unit_vector (Z.to_nat (2 * population_size wf - 1))).
Proof.
  intros Hrun Hin Hphase Hmode.
  assert (Htr : e = transpose_event env wf zero_threshold).
  { rewrite wfes_run in Hrun. unfold wfes_stages in Hrun.
    repeat match type of Hrun with
           | (if ?c then _ else _) = _ => destruct c
           end;
      inversion Hrun; subst; clear Hrun; cbn [w_calls In] in Hin;
      repeat match type of Hin with
             | _ \/ _ => destruct Hin as [Hin|Hin]
             | False => contradiction
             end; subst e; try reflexivity; try discriminate Hphase.
    all: rewrite mode_forward in Hmode; discriminate Hmode. }
  subst e. cbn. f_equal. apply rhs_sojourn_unit.
Qed.

(** The fourth call of the two-individual run on a solver whose second
    solve fails. *)
Lemma unit_rhs_passed_to_transpose_solve_witness :
  c_b (ev_call (transpose_event (D := binary64) (Example.env_failing 3 (-4))
                  Example.wf2 1e-30%float))
  = Some (unit_vector 3).
Proof.
  apply (unit_rhs_passed_to_transpose_solve (D := binary64)
           (Example.env_failing 3 (-4)) Example.wf2 (Example.statistics_zero 3)
           1e-30%float (Exited 33)
           (snd (wfes (D := binary64) (Example.env_failing 3 (-4)) Example.wf2
                   (Example.statistics_zero 3) 1e-30%float world_start))).
  - vm_compute; reflexivity.
  - right; right; right; left. vm_compute; reflexivity.
  - reflexivity.
  - vm_compute; reflexivity.
Defined.

(* ================================================================== *)
(** ** The vectors and the scalars a run returns *)

Section ArrayFrame.
Context {A : Type}.

Lemma nth_memcpy_beyond (dst src : list A) (n j : nat) (d : A) :
  (n <= j)%nat -> (n <= List.length src)%nat ->
  nth j (memcpy dst src n) d = nth j dst d.
Proof.
  intros Hj Hn. unfold memcpy.
  rewrite app_nth2 by (rewrite length_firstn; lia).
  rewrite length_firstn, Nat.min_l by exact Hn.
  rewrite nth_skipn. f_equal. lia.
Qed.

End ArrayFrame.

(** X4.  At the end of a run that returns, on a results structure with
    room for [2N - 1] states: for every state [i], [B1[i]] is what the third
    call of the solver left in the right-hand side, with a negative value
    replaced by zero, [B2[i]] is [1.0 - B1[i]], and [N[i]] is what the fourth
    call left, clamped the same way. *)
Theorem vectors_are_clamped_solver_output {D : Double}
  (env : environment double) (wf : wf_parameters double) (r0 : wf_statistics double)
  (zero_threshold : double) (r : wf_statistics double) (w : world double (handle env))
  (i : nat) :
  wfes env wf r0 zero_threshold world_start = (Returned r, w) ->
  (i < Z.to_nat (2 * population_size wf - 1))%nat ->
  (Z.to_nat (2 * population_size wf - 1) <= List.length (B2 r0))%nat ->
  exists forward transpose,
    nth_error (w_calls w) 2 = Some forward /\
    nth_error (w_calls w) 3 = Some transpose /\
    get (B1 r) i
      = clamp (get (written (extinction_vector env wf) (r_b (ev_ret forward))) i) /\
    get (B2 r) i = d_sub d_one (get (B1 r) i) /\
    get (N r) i
      = clamp (get (written (unit_vector (Z.to_nat (2 * population_size wf - 1)))
                      (r_b (ev_ret transpose))) i).
Proof.
  intros Hrun Hi Hlen.
  apply wfes_returned in Hrun. destruct Hrun as (_ & _ & _ & _ & -> & Hcalls & _).
  exists (forward_event env wf zero_threshold), (transpose_event env wf zero_threshold).
  rewrite Hcalls. split; [reflexivity|]. split; [reflexivity|].
  destruct (final_B_entries env wf r0 zero_threshold i Hi Hlen) as [H1 H2].
  rewrite H2, H1, (final_N_entries env wf r0 zero_threshold i Hi).
  unfold forward_solution, transpose_solution.
  rewrite rhs_extinction_vector, rhs_sojourn_unit.
  repeat split; reflexivity.
Qed.

(** State 1 of the neutral two-individual run in binary64. *)
Lemma vectors_are_clamped_solver_output_witness :
  let r := r_final (D := binary64) Example.env_neutral2 Example.wf2
             (Example.statistics_zero 3) 1e-30%float in
  get (D := binary64) (B1 r) 1 = 0.5%float /\
  get (D := binary64) (B2 r) 1 = PrimFloat.sub 1 (get (D := binary64) (B1 r) 1).
Proof.
  cbn zeta.
  destruct (vectors_are_clamped_solver_output (D := binary64)
              Example.env_neutral2 Example.wf2 (Example.statistics_zero 3) 1e-30%float
              (r_final (D := binary64) Example.env_neutral2 Example.wf2
                 (Example.statistics_zero 3) 1e-30%float)
              (snd (wfes (D := binary64) Example.env_neutral2 Example.wf2
                      (Example.statistics_zero 3) 1e-30%float world_start))
              1%nat)
    as (forward & transpose & _ & _ & _ & H2 & _);
    [vm_compute; reflexivity | vm_compute; lia | vm_compute; lia |].
  split; [vm_compute; reflexivity | exact H2].
Defined.

(** X5.  A run that returns leaves the cells of the three vectors beyond
    the first [2N - 1] as it found them, and the vectors keep their
    lengths. *)
Theorem cells_beyond_the_states_are_kept {D : Double}
  (env : environment double) (wf : wf_parameters double) (r0 : wf_statistics double)
  (zero_threshold : double) (r : wf_statistics double) (w : world double (handle env)) :
  wfes env wf r0 zero_threshold world_start = (Returned r, w) ->
  let n := Z.to_nat (2 * population_size wf - 1) in
  (n <= List.length (B1 r0))%nat ->
  (n <= List.length (B2 r0))%nat ->
  (n <= List.length (N r0))%nat ->
  (List.length (B1 r) = List.length (B1 r0) /\
   List.length (B2 r) = List.length (B2 r0) /\
   List.length (N r) = List.length (N r0)) /\
  forall j, (n <= j)%nat ->
    get (B1 r) j = get (B1 r0) j /\
    get (B2 r) j = get (B2 r0) j /\
    get (N r) j = get (N r0) j.
Proof.
  intros Hrun n Hl1 Hl2 Hl3.
  apply wfes_returned in Hrun. destruct Hrun as (_ & _ & _ & _ & -> & _ & _).
  fold (matrix_size wf) in n.
  destruct (r_final_vectors env wf r0 zero_threshold) as (V1 & V2 & V3).
  rewrite V1, V2, V3. unfold r_solved.
  set (rf := r_forward env wf r0 zero_threshold).
  set (rn := set_N (memcpy (N rf) (transpose_solution env wf zero_threshold)
                      (Z.to_nat (matrix_size wf))) rf).
  destruct (clamp_N_scalars (matrix_size wf) rn) as (_ & C1 & C2).
  rewrite C1, C2. change (B1 rn) with (B1 rf). change (B2 rn) with (B2 rf).
  (* the first solve *)
  set (r1 := set_B1 (memcpy (B1 r0) (forward_solution env wf zero_threshold)
                       (Z.to_nat (matrix_size wf))) r0).
  assert (Hm1 : List.length (B1 r1) = List.length (B1 r0)).
  { unfold r1. cbn [B1 set_B1]. rewrite memcpy_length
      by (rewrite forward_solution_length; lia). fold n. lia. }
  assert (Hf1 : (0 + n <= List.length (B1 r1))%nat) by lia.
  assert (Hf2 : (0 + n <= List.length (B2 r1))%nat) by (unfold r1; cbn [B2 set_B1]; lia).
  destruct (clamp_B1_fill_B2_loop n 0 r1 Hf1 Hf2) as (G1 & G2 & G3 & G4).
  cbn zeta in G1, G2, G3, G4.
  assert (HNf : N rf = N r0).
  { unfold rf, r_forward.
    destruct (clamp_B1_fill_B2_scalars (matrix_size wf) r1) as [_ H].
    fold r1. rewrite H. reflexivity. }
  (* the second solve *)
  assert (Hmn : List.length (N rn) = List.length (N r0)).
  { unfold rn. cbn [N set_N]. rewrite memcpy_length
      by (rewrite transpose_solution_length; lia). rewrite HNf. fold n. lia. }
  assert (Hfn : (0 + n <= List.length (N rn))%nat) by lia.
  destruct (clamp_N_loop n 0 rn Hfn) as (K1 & K2). cbn zeta in K1, K2.
  change (for_loop n 0 ?f r1) with rf in G1, G2, G3, G4.
  change (for_loop n 0 ?f rn) with (clamp_N (matrix_size wf) rn) in K1, K2.
  split.
  - rewrite G1, G2, K1, Hm1, Hmn. unfold r1. cbn [B2 set_B1].
    repeat split; reflexivity.
  - intros j Hj. rewrite G3, G4, K2. unfold in_range.
    destruct (Nat.leb_spec 0 j), (Nat.ltb_spec j (0 + n)); try lia.
    cbn [andb]. unfold r1, rn, get. cbn [B1 B2 N set_B1 set_N].
    rewrite !nth_memcpy_beyond;
      try (rewrite ?forward_solution_length, ?transpose_solution_length; fold n; lia).
    rewrite HNf. repeat split; reflexivity.
Qed.

(** The neutral two-individual run on a results structure with room for
    five states: cell 4 of each vector is kept. *)
Lemma cells_beyond_the_states_are_kept_witness :
  let r := r_final (D := binary64) Example.env_neutral2 Example.wf2
             (Example.statistics_zero 5) 1e-30%float in
  List.length (B1 r) = 5%nat /\
  get (D := binary64) (B1 r) 4 = get (D := binary64) (B1 (Example.statistics_zero 5)) 4.
Proof.
  cbn zeta.
  destruct (cells_beyond_the_states_are_kept (D := binary64)
              Example.env_neutral2 Example.wf2 (Example.statistics_zero 5) 1e-30%float
              (r_final (D := binary64) Example.env_neutral2 Example.wf2
                 (Example.statistics_zero 5) 1e-30%float)
              (snd (wfes (D := binary64) Example.env_neutral2 Example.wf2
                      (Example.statistics_zero 5) 1e-30%float world_start)))
    as ((H1 & _ & _) & H2);
    [vm_compute; reflexivity | vm_compute; lia | vm_compute; lia | vm_compute; lia |].
  split; [exact H1 | apply (H2 4%nat); vm_compute; lia].
Defined.

(** X6.  The two probabilities a run reports are never negative, in
    binary64 as in exact arithmetic: each is entry 0 of its vector when that
    entry is not [<= 0], and zero otherwise. *)
Theorem reported_probabilities_not_negative {D : Double} {O : DoubleOrder D}
  (env : environment double) (wf : wf_parameters double) (r0 : wf_statistics double)
  (zero_threshold : double) (r : wf_statistics double) (w : world double (handle env)) :
  wfes env wf r0 zero_threshold world_start = (Returned r, w) ->
  probability_extinction r
    = (if d_le (get (B1 r) 0) d_zero then d_zero else get (B1 r) 0) /\
  probability_fixation r
    = (if d_le (get (B2 r) 0) d_zero then d_zero else get (B2 r) 0) /\
  d_lt (probability_extinction r) d_zero = false /\
  d_lt (probability_fixation r) d_zero = false.
Proof.
  intros Hrun.
  apply wfes_returned in Hrun. destruct Hrun as (_ & _ & _ & _ & -> & _ & _).
  destruct (r_final_scalars env wf r0 zero_threshold) as (_ & He1 & He2 & Hf1 & Hf2).
  cbn zeta in *.
  set (r := r_final env wf r0 zero_threshold) in *.
  assert (Pe : probability_extinction r
               = (if d_le (get (B1 r) 0) d_zero then d_zero else get (B1 r) 0)).
  { destruct (d_le (get (B1 r) 0) d_zero) eqn:E;
      [apply He1 | apply He2]; reflexivity. }
  assert (Pf : probability_fixation r
               = (if d_le (get (B2 r) 0) d_zero then d_zero else get (B2 r) 0)).
  { destruct (d_le (get (B2 r) 0) d_zero) eqn:E;
      [apply Hf1 | apply Hf2]; reflexivity. }
  split; [exact Pe|]. split; [exact Pf|].
  rewrite Pe, Pf. split.
  - destruct (d_le (get (B1 r) 0) d_zero) eqn:E;
      [apply d_zero_not_lt_zero | apply d_not_le_zero_not_lt; exact E].
  - destruct (d_le (get (B2 r) 0) d_zero) eqn:E;
      [apply d_zero_not_lt_zero | apply d_not_le_zero_not_lt; exact E].
Qed.

(** The run in which the first solve leaves 1.5 for state 0, in binary64:
    [B2[0]] is -0.5, and the fixation probability reported is 0. *)
Lemma reported_probabilities_not_negative_witness :
  let r := r_final (D := binary64) Example.env_overshoot Example.wf2
             (Example.statistics_zero 3) 1e-30%float in
  get (D := binary64) (B2 r) 0 = (-0.5)%float /\
  probability_fixation r = 0%float /\
  PrimFloat.ltb (probability_extinction r) 0 = false.
Proof.
  cbn zeta.
  destruct (reported_probabilities_not_negative (D := binary64) (O := binary64_order)
              Example.env_overshoot Example.wf2 (Example.statistics_zero 3) 1e-30%float
              (r_final (D := binary64) Example.env_overshoot Example.wf2
                 (Example.statistics_zero 3) 1e-30%float)
              (snd (wfes (D := binary64) Example.env_overshoot Example.wf2
                      (Example.statistics_zero 3) 1e-30%float world_start)))
    as (_ & H2 & H3 & _); [vm_compute; reflexivity|].
  split; [vm_compute; reflexivity|]. split; [|exact H3].
  rewrite H2. vm_compute. reflexivity.
Defined.

(** X7.  A run that returns with the field [count_before_extinction] zero
    at entry leaves in it the sum of [N[i] * B1[i] * (i + 1)] divided by
    [B1[0]], whatever [B1[0]] is: unlike [time_extinction], it is not
    replaced when [B1[0] <= 0]. *)
Theorem count_before_extinction_is_the_quotient {D : Double}
  (env : environment double) (wf : wf_parameters double) (r0 : wf_statistics double)
  (zero_threshold : double) (r : wf_statistics double) (w : world double (handle env)) :
  wfes env wf r0 zero_threshold world_start = (Returned r, w) ->
  count_before_extinction r0 = d_zero ->
  count_before_extinction r
  = d_div (sum_upto (Z.to_nat (2 * population_size wf - 1)) (count_term r))
      (get (B1 r) 0).
Proof.
  intros Hrun H0.
  apply wfes_returned in Hrun. destruct Hrun as (_ & _ & _ & _ & -> & _ & _).
  destruct (r_final_scalars env wf r0 zero_threshold) as (Hc & _).
  cbn zeta in Hc. rewrite Hc, H0. reflexivity.
Qed.

(** The run in which the first solve leaves [-2^-60] for state 0, in
    binary64: [B1[0]] is clamped to zero and the count is a quotient by
    zero. *)
Lemma count_before_extinction_is_the_quotient_witness :
  let r := r_final (D := binary64) Example.env_undershoot Example.wf2
             (Example.statistics_zero 3) 1e-30%float in
  get (D := binary64) (B1 r) 0 = 0%float /\
  count_before_extinction r
  = PrimFloat.div (sum_upto (D := binary64) 3 (count_term r)) 0.
Proof.
  cbn zeta. split; [vm_compute; reflexivity|].
  rewrite (count_before_extinction_is_the_quotient (D := binary64)
             Example.env_undershoot Example.wf2 (Example.statistics_zero 3) 1e-30%float
             (r_final (D := binary64) Example.env_undershoot Example.wf2
                (Example.statistics_zero 3) 1e-30%float)
             (snd (wfes (D := binary64) Example.env_undershoot Example.wf2
                     (Example.statistics_zero 3) 1e-30%float world_start)));
    [|vm_compute; reflexivity | reflexivity].
  vm_compute. reflexivity.
Defined.

(* ================================================================== *)
(** ** Exact arithmetic: what the guards of [wfes] achieve *)

Section ExactReports.
#[local] Existing Instance exact.

Lemma Qltb_false (a b : Q) : Exact.Qltb a b = false <-> (b <= a)%Q.
Proof.
  unfold Exact.Qltb. rewrite negb_false_iff. apply Qle_bool_iff.
Qed.

(** A clamped value that is finite is not negative. *)
Lemma exact_clamp_value (x : Exact.xnum) (q : Q) :
  clamp x = Exact.Fin q -> (0 <= q)%Q.
Proof.
  unfold clamp. change (@d_lt exact) with Exact.ltb.
  change (@d_zero exact) with (Exact.Fin 0).
  destruct x as [p|s|]; cbn [Exact.ltb].
  - destruct (Exact.Qltb p 0) eqn:E; intros H; injection H as <-.
    + apply Qle_refl.
    + apply Qltb_false. exact E.
  - destruct s; intros H; [injection H as <-; apply Qle_refl | discriminate H].
  - discriminate.
Qed.

(** The probability reported from a pair [c], [1 - c] of a clamped value
    and its complement. *)
Lemma exact_reported_fixation (x : Exact.xnum) :
  Exact.is_nan x = false ->
  let b2 := Exact.sub (Exact.Fin 1) (clamp x) in
  in_unit_interval (if Exact.leb b2 (Exact.Fin 0) then Exact.Fin 0 else b2) = true.
Proof.
  unfold clamp, in_unit_interval.
  change (@d_lt exact) with Exact.ltb. change (@d_le exact) with Exact.leb.
  change (@d_zero exact) with (Exact.Fin 0). change (@d_one exact) with (Exact.Fin 1).
  destruct x as [q|s|]; cbn [Exact.is_nan Exact.ltb]; intros Hn; try discriminate.
  - destruct (Exact.Qltb q 0) eqn:E; [reflexivity|].
    apply Qltb_false in E. cbn [Exact.sub Exact.opp Exact.add Exact.leb].
    destruct (Qle_bool (1 + - q) 0) eqn:E1; [reflexivity|].
    cbn [Exact.leb]. apply andb_true_intro. split; apply Qle_bool_iff.
    + destruct (Qlt_le_dec (1 + - q) 0) as [Hlt|Hge]; [|exact Hge].
      exfalso. assert (Hle : (1 + - q <= 0)%Q) by lra.
      apply Qle_bool_iff in Hle. congruence.
    + lra.
  - destruct s; reflexivity.
Qed.

(** X8.  In exact arithmetic, the fixation probability a run reports lies
    in [[0, 1]] whatever number the first solve left for state 0, above one
    or below zero included; only not-a-number gets through. *)
Theorem fixation_probability_in_unit_interval
  (env : environment double) (wf : wf_parameters double) (r0 : wf_statistics double)
  (zero_threshold : double) (r : wf_statistics double) (w : world double (handle env)) :
  wfes env wf r0 zero_threshold world_start = (Returned r, w) ->
  1 <= population_size wf ->
  (Z.to_nat (2 * population_size wf - 1) <= List.length (B2 r0))%nat ->
  d_isnan (get (forward_solution env wf zero_threshold) 0) = false ->
  in_unit_interval (probability_fixation r) = true.
Proof.
  intros Hrun HN Hlen Hnan.
  apply wfes_returned in Hrun. destruct Hrun as (_ & _ & _ & _ & -> & _ & _).
  assert (Hi : (0 < Z.to_nat (matrix_size wf))%nat) by (unfold matrix_size; lia).
  destruct (final_B_entries env wf r0 zero_threshold 0 Hi Hlen) as [_ H2].
  destruct (r_final_scalars env wf r0 zero_threshold) as (_ & _ & _ & Hf1 & Hf2).
  cbn zeta in Hf1, Hf2.
  pose proof (exact_reported_fixation _ Hnan) as Hx. cbn zeta in Hx.
  change (@d_sub exact) with Exact.sub in H2. change (@d_one exact) with (Exact.Fin 1) in H2.
  rewrite <- H2 in Hx.
  change (@d_le exact) with Exact.leb in Hf1, Hf2.
  change (@d_zero exact) with (Exact.Fin 0) in Hf1, Hf2.
  destruct (Exact.leb (get (B2 (r_final env wf r0 zero_threshold)) 0) (Exact.Fin 0)) eqn:E.
  - destruct (Hf1 eq_refl) as [-> _]. exact Hx.
  - destruct (Hf2 eq_refl) as [-> _]. exact Hx.
Qed.

(** The run in which the first solve leaves 3/2 for state 0: the fixation
    probability reported is 0. *)
Lemma fixation_probability_in_unit_interval_witness :
  in_unit_interval
    (probability_fixation
       (r_final (D := exact) Example.env_overshoot Example.wf2
          (Example.statistics_zero 3) (Exact.Fin (1 # 1000000)))) = true.
Proof.
  apply (fixation_probability_in_unit_interval
           Example.env_overshoot Example.wf2 (Example.statistics_zero 3)
           (Exact.Fin (1 # 1000000))
           (r_final (D := exact) Example.env_overshoot Example.wf2
              (Example.statistics_zero 3) (Exact.Fin (1 # 1000000)))
           (snd (wfes (D := exact) Example.env_overshoot Example.wf2
                   (Example.statistics_zero 3) (Exact.Fin (1 # 1000000)) world_start))).
  - vm_compute; reflexivity.
  - vm_compute; discriminate.
  - vm_compute; lia.
  - vm_compute; reflexivity.
Defined.

(** X9.  In exact arithmetic, when the first solve leaves for state 0 a
    value that is at most one, the two probabilities a run reports add up to
    one. *)
Theorem reported_probabilities_sum_to_one
  (env : environment double) (wf : wf_parameters double) (r0 : wf_statistics double)
  (zero_threshold : double) (r : wf_statistics double) (w : world double (handle env)) :
  wfes env wf r0 zero_threshold world_start = (Returned r, w) ->
  1 <= population_size wf ->
  (Z.to_nat (2 * population_size wf - 1) <= List.length (B2 r0))%nat ->
  d_le (get (forward_solution env wf zero_threshold) 0) d_one = true ->
  sums_to_one (probability_extinction r) (probability_fixation r) = true.
Proof.
  intros Hrun HN Hlen Hle.
  apply wfes_returned in Hrun. destruct Hrun as (_ & _ & _ & _ & -> & _ & _).
  assert (Hi : (0 < Z.to_nat (matrix_size wf))%nat) by (unfold matrix_size; lia).
  destruct (final_B_entries env wf r0 zero_threshold 0 Hi Hlen) as [H1 H2].
  destruct (r_final_scalars env wf r0 zero_threshold) as (_ & He1 & He2 & Hf1 & Hf2).
  cbn zeta in He1, He2, Hf1, Hf2.
  set (r := r_final env wf r0 zero_threshold) in *.
  set (x := get (forward_solution env wf zero_threshold) 0) in *.
  assert (Hc : exists c, clamp x = Exact.Fin c /\ (0 <= c)%Q /\ (c <= 1)%Q).
  { destruct (exact_clamp_unit x Hle) as [Hu _].
    unfold in_unit_interval in Hu. apply andb_prop in Hu. destruct Hu as [U1 U2].
    change (@d_le exact) with Exact.leb in U1, U2.
    change (@d_zero exact) with (Exact.Fin 0) in U1.
    change (@d_one exact) with (Exact.Fin 1) in U2.
    destruct (clamp x) as [c|s|]; cbn [Exact.leb] in U1, U2; try discriminate.
    - exists c. split; [reflexivity|]. split; apply Qle_bool_iff; assumption.
    - destruct s; discriminate. }
  destruct Hc as (c & Hc & C0 & C1). rewrite Hc in H1, H2.
  change (@d_sub exact) with Exact.sub in H2. change (@d_one exact) with (Exact.Fin 1) in H2.
  cbn [Exact.sub Exact.opp Exact.add] in H2.
  change (@d_le exact) with Exact.leb in He1, He2, Hf1, Hf2.
  change (@d_zero exact) with (Exact.Fin 0) in He1, He2, Hf1, Hf2.
  rewrite H1 in He1, He2. rewrite H2 in Hf1, Hf2. cbn [Exact.leb] in He1, He2, Hf1, Hf2.
  unfold sums_to_one. change (@d_eq exact) with Exact.eqb.
  change (@d_add exact) with Exact.add. change (@d_one exact) with (Exact.Fin 1).
  destruct (Qle_bool c 0) eqn:E1; destruct (Qle_bool (1 + - c) 0) eqn:E2.
  - apply Qle_bool_iff in E1, E2. exfalso. lra.
  - destruct (He1 eq_refl) as [-> _]. destruct (Hf2 eq_refl) as [-> _].
    apply Qle_bool_iff in E1. cbn [Exact.add Exact.eqb]. apply Qeq_bool_iff. lra.
  - destruct (He2 eq_refl) as [-> _]. destruct (Hf1 eq_refl) as [-> _].
    apply Qle_bool_iff in E2. cbn [Exact.add Exact.eqb]. apply Qeq_bool_iff. lra.
  - destruct (He2 eq_refl) as [-> _]. destruct (Hf2 eq_refl) as [-> _].
    cbn [Exact.add Exact.eqb]. apply Qeq_bool_iff. ring.
Qed.

(** The neutral two-individual run: 3/4 and 1/4. *)
Lemma reported_probabilities_sum_to_one_witness :
  let r := r_final (D := exact) Example.env_neutral2 Example.wf2
             (Example.statistics_zero 3) (Exact.Fin (1 # 1000000)) in
  sums_to_one (probability_extinction r) (probability_fixation r) = true.
Proof.
  apply (reported_probabilities_sum_to_one
           Example.env_neutral2 Example.wf2 (Example.statistics_zero 3)
           (Exact.Fin (1 # 1000000))
           (r_final (D := exact) Example.env_neutral2 Example.wf2
              (Example.statistics_zero 3) (Exact.Fin (1 # 1000000)))
           (snd (wfes (D := exact) Example.env_neutral2 Example.wf2
                   (Example.statistics_zero 3) (Exact.Fin (1 # 1000000)) world_start))).
  - vm_compute; reflexivity.
  - vm_compute; discriminate.
  - vm_compute; lia.
  - vm_compute; reflexivity.
Defined.

End ExactReports.

Section ExactTimes.
#[local] Existing Instance exact.

(** A sum of finite terms that are not negative, continued from a value
    that is not negative. *)
Lemma exact_sum_nonnegative (f : nat -> Exact.xnum) (l : list nat) (a : Q) :
  (forall i, In i l -> exists q, f i = Exact.Fin q /\ (0 <= q)%Q) ->
  (0 <= a)%Q ->
  exists q,
    fold_left (fun acc i => Exact.add acc (f i)) l (Exact.Fin a) = Exact.Fin q /\
    (0 <= q)%Q.
Proof.
  revert a; induction l as [|i l IH]; intros a Hf Ha.
  - exists a. split; [reflexivity | exact Ha].
  - destruct (Hf i (or_introl eq_refl)) as (q & Hq & Hq0).
    cbn [fold_left]. rewrite Hq. cbn [Exact.add].
    apply IH; [intros j Hj; apply Hf; right; exact Hj | lra].
Qed.

(** A quotient of a value that is not negative by a positive one. *)
Lemma exact_quotient_nonnegative (q b : Q) :
  (0 <= q)%Q -> (0 < b)%Q ->
  Exact.leb (Exact.Fin 0) (Exact.div (Exact.Fin q) (Exact.Fin b)) = true.
Proof.
  intros Hq Hb. cbn [Exact.div].
  assert (Hz : Exact.Qzero b = false).
  { destruct (Exact.Qzero b) eqn:E; [|reflexivity].
    apply Qzero_eq in E. rewrite E in Hb. apply Qlt_irrefl in Hb. contradiction. }
  rewrite Hz. cbn [Exact.leb]. apply Qle_bool_iff.
  apply Qle_shift_div_l; [exact Hb | lra].
Qed.

(** X10.  In exact arithmetic, a run that returns with positive [B1[0]],
    finite entries in [B1] and [N], and [time_extinction] and
    [count_before_extinction] zero at entry, reports a conditional time to
    extinction and a count before extinction that are not negative. *)
Theorem extinction_time_and_count_not_negative
  (env : environment double) (wf : wf_parameters double) (r0 : wf_statistics double)
  (zero_threshold : double) (r : wf_statistics double) (w : world double (handle env)) :
  wfes env wf r0 zero_threshold world_start = (Returned r, w) ->
  1 <= population_size wf ->
  let n := Z.to_nat (2 * population_size wf - 1) in
  (n <= List.length (B2 r0))%nat ->
  time_extinction r0 = d_zero ->
  count_before_extinction r0 = d_zero ->
  (forall i, (i < n)%nat ->
     Exact.is_finite (get (B1 r) i) = true /\ Exact.is_finite (get (N r) i) = true) ->
  d_lt d_zero (get (B1 r) 0) = true ->
  d_le d_zero (time_extinction r) = true /\
  d_le d_zero (count_before_extinction r) = true.
Proof.
  intros Hrun HN n Hlen Hte Hc Hfin Hpos.
  apply wfes_returned in Hrun. destruct Hrun as (_ & _ & _ & _ & -> & _ & _).
  destruct (r_final_scalars env wf r0 zero_threshold) as (Sc & _ & Se & _).
  cbn zeta in Sc, Se. fold (matrix_size wf) in n. fold n in Sc, Se.
  assert (Hent : forall i, (i < n)%nat ->
            exists a b, get (B1 (r_final env wf r0 zero_threshold)) i = Exact.Fin a /\
                        get (N (r_final env wf r0 zero_threshold)) i = Exact.Fin b /\
                        (0 <= a)%Q /\ (0 <= b)%Q).
  { intros i Hi. destruct (Hfin i Hi) as [F1 F2].
    apply exact_finite in F1, F2.
    destruct (final_B_entries env wf r0 zero_threshold i Hi Hlen) as [E1 _].
    pose proof (final_N_entries env wf r0 zero_threshold i Hi) as E2.
    exists (Exact.value (get (B1 (r_final env wf r0 zero_threshold)) i)),
           (Exact.value (get (N (r_final env wf r0 zero_threshold)) i)).
    split; [exact F1|]. split; [exact F2|]. split.
    - apply (exact_clamp_value (get (forward_solution env wf zero_threshold) i)).
      rewrite <- E1. exact F1.
    - apply (exact_clamp_value (get (transpose_solution env wf zero_threshold) i)).
      rewrite <- E2. exact F2. }
  set (r := r_final env wf r0 zero_threshold) in *.
  pose proof (d_lt_zero_not_le (DoubleLaws := exact_laws) _ Hpos) as Hnle.
  destruct (Se Hnle) as [_ Ht]. rewrite Ht, Sc, Hte, Hc.
  assert (Hi0 : (0 < n)%nat) by (unfold n, matrix_size; lia).
  destruct (Hent 0%nat Hi0) as (b0 & _ & Hb0 & _ & _ & _).
  rewrite Hb0 in Hpos |- *.
  change (@d_lt exact) with Exact.ltb in Hpos. change (@d_zero exact) with (Exact.Fin 0) in *.
  cbn [Exact.ltb] in Hpos. apply Qltb_lt in Hpos.
  unfold sum_from. change (@d_add exact) with Exact.add.
  change (@d_div exact) with Exact.div. change (@d_le exact) with Exact.leb.
  change (@double exact) with Exact.xnum.
  split.
  - destruct (exact_sum_nonnegative (extinction_term r) (seq 0 n) 0) as (q & -> & Hq).
    + intros i Hi. apply in_seq in Hi.
      destruct (Hent i ltac:(lia)) as (a & b & Ha & Hb & A0 & B0).
      exists (a * b)%Q. unfold extinction_term. rewrite Ha, Hb.
      split; [reflexivity | apply Qmult_le_0_compat; assumption].
    + apply Qle_refl.
    + apply exact_quotient_nonnegative; assumption.
  - destruct (exact_sum_nonnegative (count_term r) (seq 0 n) 0) as (q & -> & Hq).
    + intros i Hi. apply in_seq in Hi.
      destruct (Hent i ltac:(lia)) as (a & b & Ha & Hb & A0 & B0).
      exists (b * a * inject_Z (Z.of_nat i + 1))%Q. unfold count_term. rewrite Ha, Hb.
      split; [reflexivity|].
      apply Qmult_le_0_compat; [apply Qmult_le_0_compat; assumption|].
      change 0%Q with (inject_Z 0). rewrite <- Zle_Qle. lia.
    + apply Qle_refl.
    + apply exact_quotient_nonnegative; assumption.
Qed.

(** The neutral two-individual run. *)
Lemma extinction_time_and_count_not_negative_witness :
  let r := r_final (D := exact) Example.env_neutral2 Example.wf2
             (Example.statistics_zero 3) (Exact.Fin (1 # 1000000)) in
  Exact.leb (Exact.Fin 0) (time_extinction r) = true /\
  Exact.leb (Exact.Fin 0) (count_before_extinction r) = true.
Proof.
  apply (extinction_time_and_count_not_negative
           Example.env_neutral2 Example.wf2 (Example.statistics_zero 3)
           (Exact.Fin (1 # 1000000))
           (r_final (D := exact) Example.env_neutral2 Example.wf2
              (Example.statistics_zero 3) (Exact.Fin (1 # 1000000)))
           (snd (wfes (D := exact) Example.env_neutral2 Example.wf2
                   (Example.statistics_zero 3) (Exact.Fin (1 # 1000000)) world_start))).
  - vm_compute; reflexivity.
  - vm_compute; discriminate.
  - vm_compute; lia.
  - reflexivity.
  - reflexivity.
  - intros [|[|[|i]]] Hi; [vm_compute; split; reflexivity .. |].
    exfalso. vm_compute in Hi. lia.
  - vm_compute; reflexivity.
Defined.

End ExactTimes.

(* ================================================================== *)
(** ** The block size is a usable one *)

(** X11.  For every population of at least one individual the block size
    [wfes] hands to the matrix builder is at least one row and at most the
    [2N - 1] rows of the matrix: in exact arithmetic for every [N], in
    binary64 for every [N] up to [2^51]. *)
Theorem block_size_between_one_and_rows :
  (forall N : Z, 1 <= N ->
     1 <= block_size_of (D := exact) (2 * N - 1) <= 2 * N - 1) /\
  (forall N : Z, 1 <= N <= 2 ^ 51 ->
     1 <= block_size_of (D := binary64) (2 * N - 1) <= 2 * N - 1).
Proof.
  assert (Hrule : forall N, 1 <= N -> 1 <= block_size_rule (2 * N - 1) <= 2 * N - 1).
  { intros N HN. unfold block_size_rule.
    destruct (Z.ltb_spec 100 (2 * N - 1)) as [H|H]; [|lia].
    split.
    - apply Z.div_le_lower_bound; lia.
    - apply Z.div_le_upper_bound; lia. }
  split.
  - intros N HN. rewrite block_size_exact. apply Hrule. exact HN.
  - intros N HN. rewrite block_size_binary64 by exact HN. apply Hrule. lia.
Qed.

(** A population of 51 individuals in binary64: 101 rows, blocks of 10. *)
Lemma block_size_between_one_and_rows_witness :
  1 <= block_size_of (D := binary64) (2 * 51 - 1) <= 2 * 51 - 1.
Proof.
  apply (proj2 block_size_between_one_and_rows 51).
  split; [lia | apply Z.leb_le; reflexivity].
Defined.

(* ================================================================== *)
(** ** The runs of [main] *)

Section MainRun.
Context {D : Double} {L : DoubleLiterals D}.
Variable sys : system double.
Variable env : environment double.

Lemma write_vector_run (file : option string) (v : list double) (matrix_size : Z)
  (s : main_world double (handle env)) :
  write_vector sys env file v matrix_size s
  = (Returned tt,
     {| m_world := m_world s; m_errors := m_errors s;
        m_files := m_files s ++ file_of sys file v matrix_size |}).
Proof.
  unfold write_vector, file_of. destruct s as [w e f].
  destruct file as [name|]; [destruct (fopen_w sys name)|];
    unfold write_file, main_ret; cbn [m_world m_errors m_files];
    rewrite ?app_nil_r; reflexivity.
Qed.

(** A run of [main] is one of its five stages. *)
Lemma main_run (args : arguments double) :
  main sys env args main_start = main_stages sys env args.
Proof.
  unfold main_stages, rejection, max_mutation_rate, main. cbv zeta.
  cbn [population_size forward_mutation_rate backward_mutation_rate].
  fold (parameters_of args). fold (threshold_of args).
  set (W := wfes env (parameters_of args)
              (wf_statistics_new sys (arg_population_size args)) (threshold_of args)).
  destruct (arg_help args); [reflexivity|].
  assert (Hgo :
    (results <- lift W ;;
     lift (print (result_line sys (parameters_of args) results)) ;;
     write_vector sys env (arg_generations_file args) (N results)
       (2 * arg_population_size args - 1) ;;
     write_vector sys env (arg_extinction_file args) (B1 results)
       (2 * arg_population_size args - 1) ;;
     write_vector sys env (arg_fixation_file args) (B2 results)
       (2 * arg_population_size args - 1) ;;
     main_ret 0)%main main_start
    = match W world_start with
      | (Exited status, w) =>
          (Exited status, {| m_world := w; m_errors := []; m_files := [] |})
      | (Returned results, w) =>
          (Returned 0,
           {| m_world :=
                {| w_calls := w_calls w;
                   w_stdout := w_stdout w ++ [result_line sys (parameters_of args) results] |};
              m_errors := [];
              m_files := files_of sys args results |})
      end).
  { unfold main_bind at 1. unfold lift at 1. cbn [m_world main_start].
    destruct (W world_start) as [[results|status] w]; [|reflexivity].
    cbn [m_errors m_files].
    unfold main_bind at 1. unfold lift at 1, print. cbn [m_world m_errors m_files].
    unfold main_bind at 1. rewrite write_vector_run. cbn [m_world m_errors m_files].
    unfold main_bind at 1. rewrite write_vector_run. cbn [m_world m_errors m_files].
    unfold main_bind at 1. rewrite write_vector_run. cbn [m_world m_errors m_files].
    unfold main_ret, files_of. cbn [app]. rewrite <- app_assoc. reflexivity. }
  destruct (arg_force args); cbn [negb].
  - exact Hgo.
  - destruct (arg_population_size args >? 500000); [reflexivity|].
    destruct (d_lt _ (arg_forward_mutation_rate args)
              || d_lt _ (arg_backward_mutation_rate args)); [reflexivity|].
    exact Hgo.
Qed.

End MainRun.

Section StringFacts.

Lemma string_app_assoc (a b c : string) : ((a ++ b) ++ c = a ++ b ++ c)%string.
Proof. induction a as [|x a IH]; simpl; [reflexivity | rewrite IH; reflexivity]. Qed.

Lemma concat_cons (sep x : string) (y : string) (l : list string) :
  (String.concat sep (x :: y :: l) = x ++ sep ++ String.concat sep (y :: l))%string.
Proof. reflexivity. Qed.

(** A loop that appends [f i] and a comma for every [i], and the entry
    written after it. *)
Lemma for_loop_commas (f : nat -> string) (count start : nat) (text : string) :
  (for_loop count start (fun i text => text ++ f i ++ ",") text ++ f (start + count)%nat
   = text ++ String.concat "," (map f (seq start (S count))))%string.
Proof.
  revert start text; induction count as [|k IH]; intros start text.
  - cbn [for_loop seq map String.concat]. rewrite Nat.add_0_r. reflexivity.
  - cbn [for_loop]. replace (start + S k)%nat with (S start + k)%nat by lia.
    rewrite IH. change (seq start (S (S k))) with (start :: seq (S start) (S k)).
    cbn [map]. change (seq (S start) (S k)) with (S start :: seq (S (S start)) k).
    cbn [map]. rewrite concat_cons. rewrite !string_app_assoc. reflexivity.
Qed.

End StringFacts.

Section MainFacts.
Context {D : Double} {L : DoubleLiterals D}.
Variable sys : system double.
Variable env : environment double.

(** The text written to a file is one line of comma-separated entries. *)
Lemma vector_text_commas (v : list double) (matrix_size : Z) :
  1 <= matrix_size ->
  vector_text sys v matrix_size = comma_separated sys v (Z.to_nat matrix_size).
Proof.
  intros Hm. unfold vector_text, comma_separated. cbn zeta.
  replace (Z.to_nat matrix_size) with (S (Z.to_nat (matrix_size - 1))) by lia.
  rewrite <- string_app_assoc.
  pose proof (for_loop_commas (fun i => format_g sys (get v i))
                (Z.to_nat (matrix_size - 1)) 0 EmptyString) as H.
  cbn [Nat.add] in H. rewrite H. reflexivity.
Qed.

(** Every run of [wfes] starts with the call of Analyze. *)
Lemma wfes_first_call (wf : wf_parameters double) (r0 : wf_statistics double)
  (zero_threshold : double) (out : outcome (wf_statistics double))
  (w : world double (handle env)) :
  wfes env wf r0 zero_threshold world_start = (out, w) ->
  exists rest, w_calls w = analyze_event env wf zero_threshold :: rest.
Proof.
  rewrite wfes_run. unfold wfes_stages.
  repeat match goal with
         | |- (if ?c then _ else _) = _ -> _ => destruct c
         end;
    intros H; inversion H; subst; clear H; eexists; reflexivity.
Qed.

End MainFacts.

(** X12.  A run of [main] reaches the solver exactly when help was not
    asked for and either [--force] was given or both checks pass: the
    population size is at most 500000 and neither mutation rate is above
    [1 / (2 N)]. *)
Theorem solver_reached_iff_checks_pass {D : Double} {L : DoubleLiterals D}
  (sys : system double) (env : environment double) (args : arguments double)
  (out : outcome Z) (s : main_world double (handle env)) :
  main sys env args main_start = (out, s) ->
  w_calls (m_world s) <> [] <->
  arg_help args = false /\
  (arg_force args = true \/
   (arg_population_size args <= 500000 /\
    d_lt (max_mutation_rate (arg_population_size args))
      (arg_forward_mutation_rate args) = false /\
    d_lt (max_mutation_rate (arg_population_size args))
      (arg_backward_mutation_rate args) = false)).
Proof.
  rewrite main_run. unfold main_stages, rejection.
  destruct (arg_help args).
  { intros H; inversion H; subst; clear H. cbn. split; [congruence|].
    intros [H _]; discriminate H. }
  assert (Hw : forall o w,
            wfes env (parameters_of args)
              (wf_statistics_new sys (arg_population_size args))
              (threshold_of args) world_start = (o, w) ->
            (match o with
             | Returned results =>
                 (Returned 0,
                  {| m_world :=
                       {| w_calls := w_calls w;
                          w_stdout :=
                            w_stdout w ++ [result_line sys (parameters_of args) results] |};
                     m_errors := [];
                     m_files := files_of sys args results |})
             | Exited status =>
                 (Exited status, {| m_world := w; m_errors := []; m_files := [] |})
             end) = (out, s) ->
            w_calls (m_world s) <> []).
  { intros o w Hrun Hs. apply wfes_first_call in Hrun. destruct Hrun as [rest Hc].
    destruct o; inversion Hs; subst; clear Hs; cbn [m_world w_calls];
      rewrite Hc; discriminate. }
  destruct (arg_force args).
  { destruct (wfes env (parameters_of args) _ (threshold_of args) world_start)
      as [o w] eqn:Hrun.
    intros Hs. split; [intros _; split; [reflexivity | left; reflexivity]|].
    intros _. apply (Hw o w eq_refl). destruct o; exact Hs. }
  destruct (Z.gtb_spec (arg_population_size args) 500000) as [Hbig|Hsmall].
  { intros H; inversion H; subst; clear H. cbn. split; [congruence|].
    intros [_ [Hf|[Hle _]]]; [discriminate Hf | lia]. }
  destruct (d_lt (max_mutation_rate (arg_population_size args))
              (arg_forward_mutation_rate args)) eqn:Eu; cbn [orb].
  { intros H; inversion H; subst; clear H. cbn. split; [congruence|].
    intros [_ [Hf|(_ & Hu & _)]]; discriminate. }
  destruct (d_lt (max_mutation_rate (arg_population_size args))
              (arg_backward_mutation_rate args)) eqn:Ev.
  { intros H; inversion H; subst; clear H. cbn. split; [congruence|].
    intros [_ [Hf|(_ & _ & Hv)]]; discriminate. }
  destruct (wfes env (parameters_of args) _ (threshold_of args) world_start)
    as [o w] eqn:Hrun.
  intros Hs. split.
  - intros _. split; [reflexivity|]. right.
    split; [lia|]. split; reflexivity.
  - intros _. apply (Hw o w eq_refl). destruct o; exact Hs.
Qed.

(** The two-individual population without [--force]: both rates are zero,
    below 1/4, and the solver is reached. *)
Lemma solver_reached_iff_checks_pass_witness :
  w_calls (m_world (snd (main (D := binary64) (L := binary64_literals)
                           MainExample.plain Example.env_neutral2
                           (MainExample.two false false 2) main_start))) <> [].
Proof.
  apply (proj2 (solver_reached_iff_checks_pass (D := binary64) (L := binary64_literals)
                  MainExample.plain Example.env_neutral2 (MainExample.two false false 2)
                  _ _ (surjective_pairing _))).
  split; [reflexivity|]. right.
  split; [vm_compute; discriminate|]. split; vm_compute; reflexivity.
Defined.

(** X13.  A run of [main] that leaves through [exit] has written no file,
    and is one of three: help was asked for, the help text is all that was
    printed and the status is [DKL_HELP_EXIT]; or a check failed, one message
    was handed to [error_print], the hint about [--force] is all that was
    printed with [println], the solver was not called and the status is
    [DKL_PARAM_ERROR]; or [wfes] left through [exit], and [main] ends with
    its status and its world. *)
Theorem exit_writes_no_file {D : Double} {L : DoubleLiterals D}
  (sys : system double) (env : environment double) (args : arguments double)
  (status : Z) (s : main_world double (handle env)) :
  main sys env args main_start = (Exited status, s) ->
  m_files s = [] /\
  ((arg_help args = true /\ status = DKL_HELP_EXIT sys /\
    m_world s = {| w_calls := []; w_stdout := [help_text] |} /\ m_errors s = []) \/
   (arg_help args = false /\ arg_force args = false /\ status = DKL_PARAM_ERROR sys /\
    m_world s = {| w_calls := []; w_stdout := [(use_force ++ newline)%string] |} /\
    (m_errors s = [too_large] \/ m_errors s = [rate_too_high])) \/
   (arg_help args = false /\ m_errors s = [] /\
    wfes env (parameters_of args) (wf_statistics_new sys (arg_population_size args))
      (threshold_of args) world_start = (Exited status, m_world s))).
Proof.
  rewrite main_run. unfold main_stages, rejection.
  destruct (arg_help args).
  { intros H; inversion H; subst; clear H. cbn [m_files m_world m_errors].
    split; [reflexivity|]. left. repeat split; reflexivity. }
  assert (Hw : forall o w,
            wfes env (parameters_of args)
              (wf_statistics_new sys (arg_population_size args))
              (threshold_of args) world_start = (o, w) ->
            (match o with
             | Returned results =>
                 (Returned 0,
                  {| m_world :=
                       {| w_calls := w_calls w;
                          w_stdout :=
                            w_stdout w ++ [result_line sys (parameters_of args) results] |};
                     m_errors := [];
                     m_files := files_of sys args results |})
             | Exited status =>
                 (Exited status, {| m_world := w; m_errors := []; m_files := [] |})
             end) = (Exited status, s) ->
            m_files s = [] /\ m_errors s = [] /\
            wfes env (parameters_of args)
              (wf_statistics_new sys (arg_population_size args))
              (threshold_of args) world_start = (Exited status, m_world s)).
  { intros o w Hrun Hs. destruct o; inversion Hs; subst; clear Hs.
    cbn [m_files m_errors m_world]. repeat split; try reflexivity. exact Hrun. }
  destruct (arg_force args).
  { destruct (wfes env (parameters_of args) _ (threshold_of args) world_start)
      as [o w] eqn:Hrun.
    intros Hs. destruct (Hw o w eq_refl) as (H1 & H2 & H3); [destruct o; exact Hs|].
    split; [exact H1|]. right; right. repeat split; assumption. }
  destruct (arg_population_size args >? 500000).
  { intros H; inversion H; subst; clear H. cbn [m_files m_world m_errors].
    split; [reflexivity|]. right; left. repeat split; try reflexivity.
    left; reflexivity. }
  destruct (d_lt _ (arg_forward_mutation_rate args)
            || d_lt _ (arg_backward_mutation_rate args)).
  { intros H; inversion H; subst; clear H. cbn [m_files m_world m_errors].
    split; [reflexivity|]. right; left. repeat split; try reflexivity.
    right; reflexivity. }
  destruct (wfes env (parameters_of args) _ (threshold_of args) world_start)
    as [o w] eqn:Hrun.
  intros Hs. destruct (Hw o w eq_refl) as (H1 & H2 & H3); [destruct o; exact Hs|].
  split; [exact H1|]. right; right. repeat split; assumption.
Qed.

(** A population of 600000 without [--force], and the two-individual
    population on a solver whose factorization reports -4. *)
Lemma exit_writes_no_file_witness :
  m_files (snd (main (D := binary64) (L := binary64_literals)
                  MainExample.plain Example.env_neutral2
                  (MainExample.two false false 600000) main_start)) = [] /\
  m_files (snd (main (D := binary64) (L := binary64_literals)
                  MainExample.plain (Example.env_failing 1 (-4))
                  (MainExample.two false false 2) main_start)) = [].
Proof.
  split.
  - apply (exit_writes_no_file (D := binary64) (L := binary64_literals)
             MainExample.plain Example.env_neutral2
             (MainExample.two false false 600000) 2).
    vm_compute; reflexivity.
  - apply (exit_writes_no_file (D := binary64) (L := binary64_literals)
             MainExample.plain (Example.env_failing 1 (-4))
             (MainExample.two false false 2) 22).
    vm_compute; reflexivity.
Defined.

(** X14.  A run of [main] that returns, returns 0: [wfes] has returned,
    the five calls of the solver were made, what was printed is the line
    "Solution successful!" followed by the line of the ten results, nothing
    was handed to [error_print], and the files are those of the names given
    that could be opened, in the order sojourn times, extinction,
    fixation. *)
Theorem return_prints_results_and_writes_files {D : Double} {L : DoubleLiterals D}
  (sys : system double) (env : environment double) (args : arguments double)
  (value : Z) (s : main_world double (handle env)) :
  main sys env args main_start = (Returned value, s) ->
  value = 0 /\
  arg_help args = false /\
  exists results w,
    wfes env (parameters_of args) (wf_statistics_new sys (arg_population_size args))
      (threshold_of args) world_start = (Returned results, w) /\
    w_calls (m_world s) = w_calls w /\
    phases (m_world s) = phase_order /\
    w_stdout (m_world s)
      = [solution_successful; result_line sys (parameters_of args) results] /\
    m_errors s = [] /\
    m_files s
      = file_of sys (arg_generations_file args) (N results)
          (2 * arg_population_size args - 1) ++
        file_of sys (arg_extinction_file args) (B1 results)
          (2 * arg_population_size args - 1) ++
        file_of sys (arg_fixation_file args) (B2 results)
          (2 * arg_population_size args - 1).
Proof.
  rewrite main_run. unfold main_stages.
  destruct (arg_help args); [discriminate|].
  destruct (rejection args); [discriminate|].
  destruct (wfes env (parameters_of args) _ (threshold_of args) world_start)
    as [[results|status] w] eqn:Hrun; [|discriminate].
  intros H; inversion H; subst; clear H.
  split; [reflexivity|]. split; [reflexivity|].
  exists results, w. split; [reflexivity|].
  apply wfes_returned in Hrun. destruct Hrun as (_ & _ & _ & _ & _ & Hcalls & Hout).
  cbn [m_world m_errors m_files w_calls w_stdout]. unfold phases. cbn [w_calls].
  rewrite Hcalls, Hout. repeat split; reflexivity.
Qed.

(** The two-individual population, asked for the sojourn times in n.csv
    and the extinction vector in a file that cannot be opened: one file, of
    one line. *)
Lemma return_prints_results_and_writes_files_witness :
  exists line text,
    snd (main (D := binary64) (L := binary64_literals)
           MainExample.plain Example.env_neutral2
           (MainExample.two false false 2) main_start)
    = {| m_world :=
           {| w_calls := w_calls (snd (wfes (D := binary64) Example.env_neutral2
                                         Example.wf2 (Example.statistics_zero 3)
                                         1e-30%float world_start));
              w_stdout := [solution_successful; line] |};
         m_errors := [];
         m_files := [("n.csv"%string, text)] |}.
Proof.
  destruct (return_prints_results_and_writes_files (D := binary64) (L := binary64_literals)
              MainExample.plain Example.env_neutral2 (MainExample.two false false 2) 0
              (snd (main (D := binary64) (L := binary64_literals)
                      MainExample.plain Example.env_neutral2
                      (MainExample.two false false 2) main_start)))
    as (_ & _ & results & w & Hrun & Hcalls & _ & Hout & Herr & Hfiles);
    [vm_compute; reflexivity|].
  exists (result_line MainExample.plain
            (parameters_of (MainExample.two false false 2)) results),
         (vector_text MainExample.plain (N results) 3).
  destruct (snd (main (D := binary64) (L := binary64_literals)
                   MainExample.plain Example.env_neutral2
                   (MainExample.two false false 2) main_start)) as [[calls out] errors files].
  cbn [m_world m_errors m_files w_calls w_stdout] in *.
  subst calls out errors files.
  change (wfes (D := binary64) Example.env_neutral2 Example.wf2
            (Example.statistics_zero 3) 1e-30%float world_start)
    with (wfes (D := binary64) Example.env_neutral2
            (parameters_of (MainExample.two false false 2))
            (wf_statistics_new MainExample.plain
               (arg_population_size (MainExample.two (D := binary64) false false 2)))
            (threshold_of (L := binary64_literals) (MainExample.two false false 2))
            world_start).
  rewrite Hrun. reflexivity.
Defined.

Section FileFacts.
Context {D : Double}.
Variable sys : system double.

Lemma in_file_of (file : option string) (v : list double) (matrix_size : Z)
  (name text : string) :
  In (name, text) (file_of sys file v matrix_size) ->
  file = Some name /\ fopen_w sys name = true /\ text = vector_text sys v matrix_size.
Proof.
  unfold file_of. destruct file as [name'|]; [|intros []].
  destruct (fopen_w sys name') eqn:E; [|intros []].
  intros [H|[]]. injection H as <- <-.
  split; [reflexivity|]. split; [exact E | reflexivity].
Qed.

End FileFacts.

(** X15.  After a run of [main] that returns, for a population of at
    least one individual, every file written carries one of the names given
    on the command line, and holds one line: the [2N - 1] entries of the
    vector asked for under that name, each printed with [%g], separated by
    commas, with a newline and no comma after the last. *)
Theorem files_hold_one_comma_separated_line {D : Double} {L : DoubleLiterals D}
  (sys : system double) (env : environment double) (args : arguments double)
  (value : Z) (s : main_world double (handle env)) (name text : string) :
  main sys env args main_start = (Returned value, s) ->
  1 <= arg_population_size args ->
  In (name, text) (m_files s) ->
  let n := Z.to_nat (2 * arg_population_size args - 1) in
  exists results w,
    wfes env (parameters_of args) (wf_statistics_new sys (arg_population_size args))
      (threshold_of args) world_start = (Returned results, w) /\
    ((arg_generations_file args = Some name /\ text = comma_separated sys (N results) n) \/
     (arg_extinction_file args = Some name /\ text = comma_separated sys (B1 results) n) \/
     (arg_fixation_file args = Some name /\ text = comma_separated sys (B2 results) n)).
Proof.
  rewrite main_run. unfold main_stages.
  destruct (arg_help args); [discriminate|].
  destruct (rejection args); [discriminate|].
  destruct (wfes env (parameters_of args) _ (threshold_of args) world_start)
    as [[results|status] w] eqn:Hrun; [|discriminate].
  intros H HN Hin; inversion H; subst; clear H.
  exists results, w. split; [reflexivity|].
  cbn [m_files] in Hin. unfold files_of in Hin. cbn zeta in Hin.
  assert (Hm : 1 <= 2 * arg_population_size args - 1) by lia.
  apply in_app_or in Hin. destruct Hin as [Hin|Hin];
    [|apply in_app_or in Hin; destruct Hin as [Hin|Hin]];
    apply in_file_of in Hin; destruct Hin as (Hf & _ & ->);
    rewrite (vector_text_commas sys _ _ Hm); auto.
Qed.

(** The sojourn times of the two-individual population: with integer parts
    for [%g], the line "2,0,0". *)
Lemma files_hold_one_comma_separated_line_witness :
  exists results : wf_statistics (@double binary64),
    comma_separated MainExample.plain (N results) 3
    = ("2,0,0" ++ newline)%string.
Proof.
  destruct (files_hold_one_comma_separated_line (D := binary64) (L := binary64_literals)
              MainExample.plain Example.env_neutral2 (MainExample.two false false 2) 0
              (snd (main (D := binary64) (L := binary64_literals)
                      MainExample.plain Example.env_neutral2
                      (MainExample.two false false 2) main_start))
              "n.csv"%string ("2,0,0" ++ newline)%string)
    as (results & w & _ & [[_ H]|[[H _]|[H _]]]).
  - vm_compute; reflexivity.
  - vm_compute; discriminate.
  - left. vm_compute. reflexivity.
  - exists results. symmetry. exact H.
  - discriminate H.
  - discriminate H.
Defined.

(** Nothing is above infinity. *)
Lemma binary64_infinity_not_lt (x : float) : PrimFloat.ltb infinity x = false.
Proof.
  rewrite ltb_spec. change (Prim2SF infinity) with (S754_infinity false).
  unfold SFltb. destruct (Prim2SF x) as [s|s| |s m e]; try destruct s; reflexivity.
Qed.

(** X16.  Neither check of [main] bounds the population size from below.
    In binary64, with a population size of 0 the bound on the mutation rates
    is [1 / 0], infinity, which no rate exceeds: whatever the rates and
    without [--force], no check stops the run, nothing is handed to
    [error_print], and the run goes on into [wfes] with a population of
    size 0. *)
Theorem zero_population_passes_the_checks
  (sys : system (@double binary64)) (env : environment (@double binary64))
  (args : arguments (@double binary64)) (out : outcome Z)
  (s : main_world (@double binary64) (handle env)) :
  main (D := binary64) (L := binary64_literals) sys env args main_start = (out, s) ->
  arg_help args = false ->
  arg_population_size args = 0 ->
  rejection (L := binary64_literals) args = None /\
  m_errors s = [] /\
  exists o w,
    wfes (D := binary64) env (parameters_of args) (wf_statistics_new sys 0)
      (threshold_of (L := binary64_literals) args) world_start = (o, w) /\
    w_calls (m_world s) = w_calls w.
Proof.
  intros Hrun Hhelp HN. rewrite main_run in Hrun.
  assert (Hrej : rejection (L := binary64_literals) args = None).
  { unfold rejection. rewrite HN. change (0 >? 500000) with false.
    change (max_mutation_rate (D := binary64) (L := binary64_literals) 0) with infinity.
    change (@d_lt binary64) with PrimFloat.ltb.
    rewrite !binary64_infinity_not_lt. destruct (arg_force args); reflexivity. }
  split; [exact Hrej|].
  unfold main_stages in Hrun. rewrite Hhelp, Hrej, HN in Hrun.
  destruct (wfes (D := binary64) env (parameters_of args) (wf_statistics_new sys 0)
              (threshold_of (L := binary64_literals) args) world_start)
    as [o w] eqn:Hw.
  destruct o; inversion Hrun; subst; clear Hrun; cbn [m_errors m_world w_calls];
    (split; [reflexivity|]); do 2 eexists; split; reflexivity.
Qed.

(** An empty population without [--force] on the scripted solver. *)
Lemma zero_population_passes_the_checks_witness :
  m_errors (snd (main (D := binary64) (L := binary64_literals)
                   MainExample.plain Example.env_neutral2
                   (MainExample.two false false 0) main_start)) = [].
Proof.
  apply (zero_population_passes_the_checks
           MainExample.plain Example.env_neutral2 (MainExample.two false false 0)
           (fst (main (D := binary64) (L := binary64_literals)
                   MainExample.plain Example.env_neutral2
                   (MainExample.two false false 0) main_start))
           (snd (main (D := binary64) (L := binary64_literals)
                   MainExample.plain Example.env_neutral2
                   (MainExample.two false false 0) main_start))).
  - apply surjective_pairing.
  - reflexivity.
  - reflexivity.
Defined.

(* ================================================================== *)
(** ** What a run of [wfes] prints, and what it reads of [*r] *)

Lemma fatal_message_not_success (phase error : Z) :
  fatal_message phase error <> solution_successful.
Proof.
  unfold fatal_message, fatal_text, solution_successful.
  destruct (phase =? 11); [|destruct (phase =? 22)]; cbn [append]; discriminate.
Qed.

(** X17.  "Solution successful!" is printed as soon as the first solve has
    succeeded, before the second solve is called: it is in the output of a
    run exactly when the run made a fourth call of the solver, also when
    that call fails and the run leaves through [exit]. *)
Theorem success_message_follows_first_solve {D : Double}
  (env : environment double) (wf : wf_parameters double) (r0 : wf_statistics double)
  (zero_threshold : double) (out : outcome (wf_statistics double))
  (w : world double (handle env)) :
  wfes env wf r0 zero_threshold world_start = (out, w) ->
  In solution_successful (w_stdout w) <-> (4 <= List.length (w_calls w))%nat.
Proof.
  rewrite wfes_run. unfold wfes_stages.
  repeat match goal with
         | |- (if ?c then _ else _) = _ -> _ => destruct c
         end;
    intros H; inversion H; subst; clear H; cbn [w_stdout w_calls List.length In];
    split; intros Hx; try lia; try (left; reflexivity).
  all: destruct Hx as [Hx|[]]; exfalso; exact (fatal_message_not_success _ _ Hx).
Qed.

(** The two-individual run on a solver whose second solve reports -4 exits
    with "Solution successful!" in its output. *)
Lemma success_message_follows_first_solve_witness :
  fst (wfes (D := binary64) (Example.env_failing 3 (-4)) Example.wf2
         (Example.statistics_zero 3) 1e-30%float world_start) = Exited 33 /\
  In solution_successful
    (w_stdout (snd (wfes (D := binary64) (Example.env_failing 3 (-4)) Example.wf2
                      (Example.statistics_zero 3) 1e-30%float world_start))).
Proof.
  split; [vm_compute; reflexivity|].
  apply (proj2 (success_message_follows_first_solve (D := binary64)
                  (Example.env_failing 3 (-4)) Example.wf2 (Example.statistics_zero 3)
                  1e-30%float _ _ (surjective_pairing _))).
  vm_compute. lia.
Defined.

Section EntryContents.
Context {D : Double}.

Lemma fold_left_ext_in {A B : Type} (f g : A -> B -> A) (l : list B) (a : A) :
  (forall x b, In b l -> f x b = g x b) -> fold_left f l a = fold_left g l a.
Proof.
  revert a; induction l as [|b l IH]; intros a H; [reflexivity|].
  cbn [fold_left]. rewrite (H a b (or_introl eq_refl)).
  apply IH. intros x b' Hb. apply H. right. exact Hb.
Qed.

Lemma sum_from_ext (start : double) (n : nat) (f g : nat -> double) :
  (forall i, (i < n)%nat -> f i = g i) -> sum_from start n f = sum_from start n g.
Proof.
  intros H. unfold sum_from. apply fold_left_ext_in.
  intros x i Hi. apply in_seq in Hi. rewrite H by lia. reflexivity.
Qed.

End EntryContents.

(** X18.  What a run returns depends on the contents of [*r] at entry only
    through the three accumulators [time_extinction], [time_fixation] and
    [count_before_extinction]: two runs on results structures that agree on
    these report the same five scalars and the same first [2N - 1] entries
    of the three vectors, and make the same calls of the solver, whatever
    the vectors and the two probabilities held at entry. *)
Theorem stale_contents_do_not_leak {D : Double}
  (env : environment double) (wf : wf_parameters double)
  (r0 r0' : wf_statistics double) (zero_threshold : double)
  (r r' : wf_statistics double) (w w' : world double (handle env)) :
  wfes env wf r0 zero_threshold world_start = (Returned r, w) ->
  wfes env wf r0' zero_threshold world_start = (Returned r', w') ->
  1 <= population_size wf ->
  let n := Z.to_nat (2 * population_size wf - 1) in
  (n <= List.length (B2 r0))%nat ->
  (n <= List.length (B2 r0'))%nat ->
  time_extinction r0 = time_extinction r0' ->
  time_fixation r0 = time_fixation r0' ->
  count_before_extinction r0 = count_before_extinction r0' ->
  scalars r = scalars r' /\
  w = w' /\
  forall i, (i < n)%nat ->
    get (B1 r) i = get (B1 r') i /\
    get (B2 r) i = get (B2 r') i /\
    get (N r) i = get (N r') i.
Proof.
  intros Hrun Hrun' HN n Hlen Hlen' Hte Htf Hc.
  apply wfes_returned in Hrun. destruct Hrun as (_ & _ & _ & _ & -> & Hcalls & Hout).
  apply wfes_returned in Hrun'. destruct Hrun' as (_ & _ & _ & _ & -> & Hcalls' & Hout').
  fold (matrix_size wf) in n.
  assert (Hent : forall i, (i < n)%nat ->
            get (B1 (r_final env wf r0 zero_threshold)) i
              = get (B1 (r_final env wf r0' zero_threshold)) i /\
            get (B2 (r_final env wf r0 zero_threshold)) i
              = get (B2 (r_final env wf r0' zero_threshold)) i /\
            get (N (r_final env wf r0 zero_threshold)) i
              = get (N (r_final env wf r0' zero_threshold)) i).
  { intros i Hi.
    destruct (final_B_entries env wf r0 zero_threshold i Hi Hlen) as [-> ->].
    destruct (final_B_entries env wf r0' zero_threshold i Hi Hlen') as [-> ->].
    rewrite !final_N_entries by exact Hi. repeat split; reflexivity. }
  split; [|split; [|exact Hent]].
  - assert (Hi0 : (0 < n)%nat) by (unfold n, matrix_size; lia).
    destruct (Hent 0%nat Hi0) as (E1 & E2 & _).
    destruct (r_final_scalars env wf r0 zero_threshold) as (Sc & Se1 & Se2 & Sf1 & Sf2).
    destruct (r_final_scalars env wf r0' zero_threshold)
      as (Sc' & Se1' & Se2' & Sf1' & Sf2').
    cbn zeta in *. fold n in Sc, Se2, Sf2, Sc', Se2', Sf2'.
    set (r := r_final env wf r0 zero_threshold) in *.
    set (r' := r_final env wf r0' zero_threshold) in *.
    assert (Te : sum_from (time_extinction r0) n (extinction_term r)
                 = sum_from (time_extinction r0') n (extinction_term r')).
    { rewrite Hte. apply sum_from_ext. intros i Hi.
      destruct (Hent i Hi) as (H1 & _ & H3). unfold extinction_term.
      rewrite H1, H3. reflexivity. }
    assert (Tf : sum_from (time_fixation r0) n (fixation_term r)
                 = sum_from (time_fixation r0') n (fixation_term r')).
    { rewrite Htf. apply sum_from_ext. intros i Hi.
      destruct (Hent i Hi) as (_ & H2 & H3). unfold fixation_term.
      rewrite H2, H3. reflexivity. }
    assert (Tc : sum_from (count_before_extinction r0) n (count_term r)
                 = sum_from (count_before_extinction r0') n (count_term r')).
    { rewrite Hc. apply sum_from_ext. intros i Hi.
      destruct (Hent i Hi) as (H1 & _ & H3). unfold count_term.
      rewrite H1, H3. reflexivity. }
    rewrite E1 in Sc, Se1, Se2. rewrite E2 in Sf1, Sf2.
    rewrite Te in Se2. rewrite Tf in Sf2. rewrite Tc in Sc.
    unfold scalars. rewrite Sc, Sc'.
    assert (Pe : probability_extinction r = probability_extinction r' /\
                 time_extinction r = time_extinction r').
    { destruct (d_le (get (B1 r') 0) d_zero) eqn:E.
      - destruct (Se1 eq_refl) as [-> ->]. destruct (Se1' eq_refl) as [-> ->].
        split; reflexivity.
      - destruct (Se2 eq_refl) as [-> ->]. destruct (Se2' eq_refl) as [-> ->].
        split; reflexivity. }
    assert (Pf : probability_fixation r = probability_fixation r' /\
                 time_fixation r = time_fixation r').
    { destruct (d_le (get (B2 r') 0) d_zero) eqn:E.
      - destruct (Sf1 eq_refl) as [-> ->]. destruct (Sf1' eq_refl) as [-> ->].
        split; reflexivity.
      - destruct (Sf2 eq_refl) as [-> ->]. destruct (Sf2' eq_refl) as [-> ->].
        split; reflexivity. }
    destruct Pe as [-> ->]. destruct Pf as [-> ->]. reflexivity.
  - destruct w as [calls out], w' as [calls' out'].
    cbn [w_calls w_stdout] in *. subst. reflexivity.
Qed.

(** The neutral two-individual run on a zeroed results structure and on one
    of five cells per vector: the same scalars. *)
Lemma stale_contents_do_not_leak_witness :
  scalars (r_final (D := binary64) Example.env_neutral2 Example.wf2
             (Example.statistics_zero 3) 1e-30%float)
  = scalars (r_final (D := binary64) Example.env_neutral2 Example.wf2
               (Example.statistics_zero 5) 1e-30%float).
Proof.
  apply (stale_contents_do_not_leak (D := binary64)
           Example.env_neutral2 Example.wf2
           (Example.statistics_zero 3) (Example.statistics_zero 5) 1e-30%float
           (r_final (D := binary64) Example.env_neutral2 Example.wf2
              (Example.statistics_zero 3) 1e-30%float)
           (r_final (D := binary64) Example.env_neutral2 Example.wf2
              (Example.statistics_zero 5) 1e-30%float)
           (snd (wfes (D := binary64) Example.env_neutral2 Example.wf2
                   (Example.statistics_zero 3) 1e-30%float world_start))
           (snd (wfes (D := binary64) Example.env_neutral2 Example.wf2
                   (Example.statistics_zero 5) 1e-30%float world_start))).
  - vm_compute; reflexivity.
  - vm_compute; reflexivity.
  - vm_compute; discriminate.
  - vm_compute; lia.
  - vm_compute; lia.
  - reflexivity.
  - reflexivity.
  - reflexivity.
Defined.

(** X19.  The check of the mutation rates does not stop a rate that is
    not a number: every comparison with not-a-number is false, so without
    [--force], for a population of at most 500000 and both rates
    not-a-number, no check stops the run and the solver is called. *)
Theorem nan_rates_pass_the_check {D : Double} {L : DoubleLiterals D} {O : DoubleOrder D}
  (sys : system double) (env : environment double) (args : arguments double)
  (out : outcome Z) (s : main_world double (handle env)) :
  main sys env args main_start = (out, s) ->
  arg_help args = false ->
  arg_population_size args <= 500000 ->
  arg_forward_mutation_rate args = d_nan ->
  arg_backward_mutation_rate args = d_nan ->
  rejection args = None /\
  m_errors s = [] /\
  w_calls (m_world s) <> [].
Proof.
  intros Hrun Hhelp HN Hu Hv. rewrite main_run in Hrun.
  assert (Hrej : rejection args = None).
  { unfold rejection. rewrite Hu, Hv, !d_not_lt_nan.
    destruct (Z.gtb_spec (arg_population_size args) 500000); [lia|].
    destruct (arg_force args); reflexivity. }
  split; [exact Hrej|].
  unfold main_stages in Hrun. rewrite Hhelp, Hrej in Hrun.
  destruct (wfes env (parameters_of args)
              (wf_statistics_new sys (arg_population_size args))
              (threshold_of args) world_start) as [o w] eqn:Hw.
  apply wfes_first_call in Hw. destruct Hw as [rest Hc].
  destruct o; inversion Hrun; subst; clear Hrun; cbn [m_errors m_world w_calls];
    (split; [reflexivity|]); rewrite Hc; discriminate.
Qed.

(** The two-individual population with both rates not-a-number, in
    binary64. *)
Lemma nan_rates_pass_the_check_witness :
  w_calls (m_world (snd (main (D := binary64) (L := binary64_literals)
                           MainExample.plain Example.env_neutral2
                           two_nan_rates main_start))) <> [].
Proof.
  apply (nan_rates_pass_the_check (D := binary64) (L := binary64_literals)
           (O := binary64_order)
           MainExample.plain Example.env_neutral2 two_nan_rates
           (fst (main (D := binary64) (L := binary64_literals)
                   MainExample.plain Example.env_neutral2 two_nan_rates main_start))
           (snd (main (D := binary64) (L := binary64_literals)
                   MainExample.plain Example.env_neutral2 two_nan_rates main_start))).
  - apply surjective_pairing.
  - reflexivity.
  - vm_compute; discriminate.
  - reflexivity.
  - reflexivity.
Defined.
